(** * RSSDI: feed polling, filtering, deduplication and scheduling

    A shallow embedding of the Python sources of the repository
    (db.py, rss_checker.py, models.py, main.py,
    app/services/rss_service.py, app/services/scheduler_service.py,
    app/routers/fluxes.py and app/utils/url_resolver.py) together with
    the properties stated about them.

    Conventions of the embedding:
    - a Python [str] is a Rocq [string], a text of ASCII characters:
      case mapping, white space and digits follow Python on the ASCII
      range, and what Python does with other characters (letters whose
      case depends on their neighbours, other spaces, other decimal
      digits) is not modelled;
    - an [Optional[T]] is an [option T] ([None] for Python's [None] or
      for an absent dictionary key);
    - a Python [int] is a [Z];
    - code that can raise returns a sum whose left side is the exception;
    - what the outside world decides (the regular-expression engine, the
      answer of the messaging sink, the outcome of a metadata update,
      the clock of the database, whether the scheduler library can
      build a trigger of a given length) is a parameter of the function
      that consults it. *)

From stdpp Require Import base numbers list gmap strings sorting.
From Stdlib Require Import ZArith Ascii String Lia.

Local Open Scope string_scope.
Local Open Scope Z_scope.

(** ** Python string operations *)

Module Py.

(** [x or y] on optional strings: the first truthy operand. *)
Definition truthy (o : option string) : bool :=
  match o with
  | Some s => negb (String.eqb s "")
  | None => false
  end.

Definition or_else (o : option string) (d : option string) : option string :=
  if truthy o then o else d.

(** [o or d] where [d] is a string literal. *)
Definition or_str (o : option string) (d : string) : string :=
  match o with
  | Some s => if String.eqb s "" then d else s
  | None => d
  end.

(** Truthiness of an optional list: [None] and [[]] are falsy. *)
Definition truthy_list {A} (o : option (list A)) : bool :=
  match o with
  | Some (_ :: _) => true
  | _ => false
  end.

(** [o or []]. *)
Definition or_nil {A} (o : option (list A)) : list A :=
  match o with
  | Some l => l
  | None => []
  end.

(** [str.isspace] on one ASCII character. *)
Definition is_space (c : ascii) : bool :=
  let n := nat_of_ascii c in
  ((9 <=? n)%nat && (n <=? 13)%nat) || ((28 <=? n)%nat && (n <=? 32)%nat).

Fixpoint lstrip (s : string) : string :=
  match s with
  | String c s' => if is_space c then lstrip s' else s
  | EmptyString => EmptyString
  end.

(** [rstrip_with p s] removes the longest suffix of [s] all of whose
    characters satisfy [p]. *)
Fixpoint rstrip_with (p : ascii -> bool) (s : string) : string :=
  match s with
  | String c s' =>
      match rstrip_with p s' with
      | EmptyString => if p c then EmptyString else String c EmptyString
      | r => String c r
      end
  | EmptyString => EmptyString
  end.

(** [s.strip()] *)
Definition strip (s : string) : string := rstrip_with is_space (lstrip s).

(** [s.rstrip("/")] *)
Definition rstrip_slash (s : string) : string :=
  rstrip_with (fun c => Ascii.eqb c "/"%char) s.

Definition lower_char (c : ascii) : ascii :=
  let n := nat_of_ascii c in
  if ((65 <=? n)%nat && (n <=? 90)%nat) then ascii_of_nat (n + 32) else c.

(** [s.lower()] on a text of ASCII characters, the texts that a
    [string] of this development can hold: the letters [A] to [Z] are
    mapped, one by one. What [str.lower] does beyond ASCII, where the
    case of a letter can depend on its neighbours, is not modelled. *)
Fixpoint lower (s : string) : string :=
  match s with
  | String c s' => String (lower_char c) (lower s')
  | EmptyString => EmptyString
  end.

(** [sub in s] *)
Fixpoint contains (sub s : string) : bool :=
  String.prefix sub s ||
  match s with
  | String _ s' => contains sub s'
  | EmptyString => false
  end.

(** [s.split(sep)] for a non-empty [sep]: the pieces between the
    occurrences of [sep], found from the left without overlap.  The
    result is never empty; it is returned as its first piece and the
    others.  [skip] counts the characters of an occurrence of [sep]
    that are still to be passed over. *)
Fixpoint split_go (sep s : string) (skip : nat) : string * list string :=
  match s with
  | EmptyString => (EmptyString, [])
  | String c s' =>
      match skip with
      | S k => split_go sep s' k
      | O =>
          if String.prefix sep s
          then let '(h, t) := split_go sep s' (String.length sep - 1) in
               (EmptyString, h :: t)
          else let '(h, t) := split_go sep s' O in
               (String c h, t)
      end
  end.

Definition split (sep s : string) : list string :=
  let '(h, t) := split_go sep s O in h :: t.

(** [s.split(sep)[0]] *)
Definition split_first (sep s : string) : string :=
  fst (split_go sep s O).

(** [s.split(sep)[-1]] *)
Definition split_last (sep s : string) : string :=
  let '(h, t) := split_go sep s O in List.last t h.

(** [s.replace(old, new)] for a non-empty [old]. *)
Fixpoint replace_go (old new s : string) (skip : nat) : string :=
  match s with
  | EmptyString => EmptyString
  | String c s' =>
      match skip with
      | S k => replace_go old new s' k
      | O =>
          if String.prefix old s
          then new ++ replace_go old new s' (String.length old - 1)
          else String c (replace_go old new s' O)
      end
  end.

Definition replace (old new s : string) : string := replace_go old new s O.

End Py.

(** ** db.py: the store of dispatched items *)

Module db.

(** A row of the table [sent_items]:
    [id INTEGER PRIMARY KEY AUTOINCREMENT, flux_id TEXT NOT NULL,
     item_url TEXT NOT NULL UNIQUE, sent_at TIMESTAMP DEFAULT
     CURRENT_TIMESTAMP].  [sent_at] is kept in seconds. *)
Record sent_item := {
  id : Z;
  flux_id : string;
  item_url : string;
  sent_at : Z
}.

(** The database file: the rows of the table in insertion order and the
    largest row id ever handed out (AUTOINCREMENT). *)
Record database := {
  sent_items : list sent_item;
  sequence : Z
}.

(** [init_db] on a fresh file: [CREATE TABLE IF NOT EXISTS]. *)
Definition init_db : database := {| sent_items := []; sequence := 0 |}.

(** [SELECT 1 FROM sent_items WHERE item_url = ?] then
    [fetchone() is not None]. *)
Definition already_sent (item_url0 : string) (d : database) : bool :=
  existsb (fun r => String.eqb (item_url r) item_url0) (sent_items d).

(** [INSERT INTO sent_items (flux_id, item_url) VALUES (?, ?)]: the
    UNIQUE constraint on [item_url] makes the statement fail with
    [sqlite3.IntegrityError] when a row with that url exists; the
    failed statement changes nothing, and the handler is [pass].
    [now] is the value of CURRENT_TIMESTAMP. *)
Definition mark_as_sent (now : Z) (flux_id0 item_url0 : string)
    (d : database) : database :=
  if already_sent item_url0 d then d
  else
    {| sent_items := sent_items d ++
         [{| id := sequence d + 1; flux_id := flux_id0;
             item_url := item_url0; sent_at := now |}];
       sequence := sequence d + 1 |}.

(** [DELETE FROM sent_items WHERE sent_at < datetime('now', '-N days')]
    for [days >= 0]; returns the number of deleted rows with the new
    database. *)
Definition cleanup_old_entries (now : Z) (days : Z) (d : database)
    : Z * database :=
  let keep := fun r => negb (sent_at r <? now - days * 86400) in
  let kept := List.filter keep (sent_items d) in
  (Z.of_nat (List.length (sent_items d)) - Z.of_nat (List.length kept),
   {| sent_items := kept; sequence := sequence d |}).

(** The rows recorded for one item key. *)
Definition records_for (item_url0 : string) (d : database) : list sent_item :=
  List.filter (fun r => String.eqb (item_url r) item_url0) (sent_items d).

(** The UNIQUE constraint of the table, as an invariant of its rows. *)
Definition unique_urls (d : database) : Prop :=
  NoDup (item_url <$> sent_items d).

End db.

(** ** Exceptions *)

(** The exceptions the modelled code raises or catches. *)
Inductive exn :=
| TypeError
| ValueError
| ConnectionError
| RuntimeError
| ReError
| OverflowError
| HTTPException (status_code : Z)
| OtherException.

(** The outcome of a computation that may raise. *)
Inductive result (A : Type) :=
| Ok (a : A)
| Raise (e : exn).
Arguments Ok {A} a.
Arguments Raise {A} e.

Definition bind {A B} (r : result A) (k : A -> result B) : result B :=
  match r with
  | Ok a => k a
  | Raise e => Raise e
  end.

Notation "'do' x <- r ; k" := (bind r (fun x => k))
  (at level 10, x name, r at level 100, k at level 200).

(** [try: r except Exception: h]. *)
Definition try_except {A} (r : result A) (h : exn -> A) : A :=
  match r with
  | Ok a => a
  | Raise e => h e
  end.

(** ** app/core/config.py *)

Module config.

(** The settings the modelled code reads. *)
Record Settings := {
  rsshub_base : string;
  sent_items_retention_days : Z;
  default_check_interval : Z
}.

(** The values of the class when the environment overrides none. *)
Definition default_settings : Settings := {|
  rsshub_base := "https://rsshub.app";
  sent_items_retention_days := 7;
  default_check_interval := 300
|}.

End config.

(** ** app/utils/url_resolver.py *)

Module URLResolver.

(** [x in url], where [url] may be [None] (the route passes
    [flux.rssUrl], an [Optional[str]]): a [TypeError] on [None]. *)
Definition py_in (x : string) (url : option string) : result bool :=
  match url with
  | Some u => Ok (Py.contains x u)
  | None => Raise TypeError
  end.

(** [url.split(marker)[-1].split("/")[0].split("?")[0]] *)
Definition segment_after (marker url : string) : string :=
  Py.split_first "?" (Py.split_first "/" (Py.split_last marker url)).

Definition _resolve_youtube (url : option string) : result (option string) :=
  do b1 <- py_in "youtube.com/channel/" url;
  if b1 then
    let channel_id := segment_after "youtube.com/channel/" (default "" url) in
    Ok (Some ("https://www.youtube.com/feeds/videos.xml?channel_id=" ++ channel_id))
  else
  do b2 <- py_in "youtube.com/@" url;
  if b2 then
    let username := segment_after "youtube.com/@" (default "" url) in
    Ok (Some ("https://www.youtube.com/feeds/videos.xml?user=" ++ username))
  else
  do b3 <- py_in "youtube.com/user/" url;
  if b3 then
    let username := segment_after "youtube.com/user/" (default "" url) in
    Ok (Some ("https://www.youtube.com/feeds/videos.xml?user=" ++ username))
  else
  do b4 <- py_in "youtube.com/c/" url;
  if b4 then
    let username := segment_after "youtube.com/c/" (default "" url) in
    Ok (Some ("https://www.youtube.com/feeds/videos.xml?user=" ++ username))
  else
  do b5 <- py_in "list=" url;
  if b5 then
    let playlist_id := Py.split_first "&" (Py.split_last "list=" (default "" url)) in
    Ok (Some ("https://www.youtube.com/feeds/videos.xml?playlist_id=" ++ playlist_id))
  else Ok url.

Definition _resolve_facebook (settings : config.Settings) (url : option string)
    : result (option string) :=
  do b <- py_in "facebook.com/" url;
  if b then
    let page := segment_after "facebook.com/" (default "" url) in
    let rsshub_base := Py.rstrip_slash (config.rsshub_base settings) in
    Ok (Some (rsshub_base ++ "/facebook/page/" ++ page))
  else Ok url.

Definition _resolve_instagram (settings : config.Settings) (url : option string)
    : result (option string) :=
  do b <- py_in "instagram.com/" url;
  if b then
    let username := segment_after "instagram.com/" (default "" url) in
    let rsshub_base := Py.rstrip_slash (config.rsshub_base settings) in
    Ok (Some (rsshub_base ++ "/instagram/user/" ++ username))
  else Ok url.

Definition _resolve_tiktok (settings : config.Settings) (url : option string)
    : result (option string) :=
  do b <- py_in "tiktok.com/@" url;
  if b then
    let username := segment_after "tiktok.com/@" (default "" url) in
    let rsshub_base := Py.rstrip_slash (config.rsshub_base settings) in
    Ok (Some (rsshub_base ++ "/tiktok/user/" ++ username))
  else Ok url.

(** The body of the [try] block of [resolve]. *)
Definition resolve_body (settings : config.Settings) (url : option string)
    (source_type : string) : result (option string) :=
  if String.eqb source_type "youtube" then _resolve_youtube url
  else if String.eqb source_type "facebook" then _resolve_facebook settings url
  else if String.eqb source_type "instagram" then _resolve_instagram settings url
  else if String.eqb source_type "tiktok" then _resolve_tiktok settings url
  else Ok url.

(** [resolve]: the body, and [except Exception: log; return url]. *)
Definition resolve (settings : config.Settings) (url : option string)
    (source_type : string) : option string :=
  try_except (resolve_body settings url source_type) (fun _ => url).

End URLResolver.

(** ** datetime *)

Module datetime.

(** [datetime.time]: naive, compared as the tuple
    (hour, minute, second, microsecond). *)
Record time := {
  hour : Z;
  minute : Z;
  second : Z;
  microsecond : Z
}.

(** [datetime.datetime], naive local time. *)
Record datetime := {
  year : Z;
  month : Z;
  day : Z;
  time_of_day : time
}.

Definition time_compare (a b : time) : comparison :=
  match hour a ?= hour b with
  | Eq =>
      match minute a ?= minute b with
      | Eq =>
          match second a ?= second b with
          | Eq => microsecond a ?= microsecond b
          | c => c
          end
      | c => c
      end
  | c => c
  end.

(** [a < b] and [a <= b] on times. *)
Definition time_lt (a b : time) : bool :=
  match time_compare a b with Lt => true | _ => false end.

Definition time_le (a b : time) : bool :=
  match time_compare a b with Gt => false | _ => true end.

Definition is_digit (c : ascii) : bool :=
  let n := nat_of_ascii c in (48 <=? n)%nat && (n <=? 57)%nat.

Definition digit_val (c : ascii) : Z := Z.of_nat (nat_of_ascii c) - 48.

Definition in_range (lo hi : nat) (c : ascii) : bool :=
  let n := nat_of_ascii c in (lo <=? n)%nat && (n <=? hi)%nat.

(** The directive [%H], the regular expression [2[0-3]|[0-1]\d|\d] of
    [_strptime]: the hour read and the rest of the text.  The directive
    is followed by the literal [:], so taking the first alternative that
    matches loses no parse: after two digits taken as an hour, the
    one-digit alternative would leave a digit where [:] is required. *)
Definition parse_H (s : string) : option (Z * string) :=
  match s with
  | String a (String b r) =>
      if (Ascii.eqb a "2" && in_range 48 51 b) || (in_range 48 49 a && is_digit b)
      then Some (10 * digit_val a + digit_val b, r)
      else if is_digit a then Some (digit_val a, String b r) else None
  | String a r => if is_digit a then Some (digit_val a, r) else None
  | EmptyString => None
  end.

(** The directive [%M], the regular expression [[0-5]\d|\d]; it ends the
    format, so the first alternative that matches is the one kept. *)
Definition parse_M (s : string) : option (Z * string) :=
  match s with
  | String a (String b r) =>
      if in_range 48 53 a && is_digit b
      then Some (10 * digit_val a + digit_val b, r)
      else if is_digit a then Some (digit_val a, String b r) else None
  | String a r => if is_digit a then Some (digit_val a, r) else None
  | EmptyString => None
  end.

(** [datetime.strptime(s, "%H:%M").time()] on a text of ASCII
    characters: a [ValueError] when the text does not match the format
    or when text remains after the match. *)
Definition strptime_HM (s : string) : result time :=
  match parse_H s with
  | Some (h, String ":" r) =>
      match parse_M r with
      | Some (m, EmptyString) =>
          Ok {| hour := h; minute := m; second := 0; microsecond := 0 |}
      | _ => Raise ValueError
      end
  | _ => Raise ValueError
  end.

End datetime.

(** ** models.py *)

Module models.

(** [FluxBase]; [FluxCreate] adds nothing to it. *)
Record FluxBase := {
  name : option string;
  category : option string;
  rssUrl : option string;
  sourceType : string;
  discordTarget : string;
  interval : Z;
  mode : string;
  active : bool;
  allowEmbeds : bool;
  messageTemplate : option string;
  mentionUserId : option string;
  mentionRoleId : option string;
  includeKeywords : option (list string);
  excludeKeywords : option (list string);
  regexInclude : option (list string);
  regexExclude : option (list string);
  domainWhitelist : option (list string);
  domainBlacklist : option (list string);
  language : option string;
  dedupeWindowHours : option Z;
  maxPerRun : option Z;
  quietHoursStart : option string;
  quietHoursEnd : option string;
  dailyCap : option Z
}.

(** [FluxInDB(FluxBase)]: the fields of the base class and its own
    ([createdAt], which no modelled code reads, is left out). *)
Record FluxInDB := {
  base : FluxBase;
  id : string;
  lastError : option string;
  lastItem : option string;
  lastPubDate : option Z;
  totalSent : Z
}.

(** The property [checkInterval]: [getattr(self, 'interval', 300)]; the
    attribute always exists. *)
Definition checkInterval (flux : FluxInDB) : Z := interval (base flux).

(** The field defaults of [FluxBase], for a given destination. *)
Definition FluxBase_defaults (target : string) : FluxBase := {|
  name := None;
  category := Some "general";
  rssUrl := None;
  sourceType := "web";
  discordTarget := target;
  interval := 300;
  mode := "direct";
  active := true;
  allowEmbeds := false;
  messageTemplate := None;
  mentionUserId := None;
  mentionRoleId := None;
  includeKeywords := Some [];
  excludeKeywords := Some [];
  regexInclude := Some [];
  regexExclude := Some [];
  domainWhitelist := Some [];
  domainBlacklist := Some [];
  language := None;
  dedupeWindowHours := Some 24;
  maxPerRun := Some 5;
  quietHoursStart := None;
  quietHoursEnd := None;
  dailyCap := None
|}.

End models.

Coercion models.base : models.FluxInDB >-> models.FluxBase.

(** ** The outside of a check cycle *)

(** [re.search(pattern, text, flags=re.IGNORECASE)] on two strings: a
    match, no match ([None]), or [re.error] for a pattern that does not
    compile. The other exceptions that the engine can raise for a
    pattern, which [except re.error] does not catch, are not
    modelled. *)
Inductive re_outcome :=
| ReMatch
| ReNoMatch
| ReInvalid.

(** [time.struct_time], as feedparser gives it in [published_parsed]
    and [updated_parsed]. *)
Record struct_time := {
  tm_year : Z;
  tm_mon : Z;
  tm_mday : Z;
  tm_hour : Z;
  tm_min : Z;
  tm_sec : Z;
  tm_wday : Z;
  tm_yday : Z;
  tm_isdst : Z
}.

(** An entry of a parsed feed: the keys the code reads; [None] is an
    absent key. *)
Record entry := {
  entry_title : option string;
  entry_link : option string;
  entry_id : option string;
  entry_summary : option string;
  entry_description : option string;
  published_parsed : option struct_time;
  updated_parsed : option struct_time
}.

(** The arguments of one call of [send_to_discord]. *)
Record message := {
  target_id : string;
  content : string;
  allow_embeds : bool;
  send_mode : string
}.

(** A document of the MongoDB collection of feeds: its [_id], the
    fields dumped from the model at creation, the running metadata, and
    the key [newRssUrl] that an update can add ([None]: no such key).
    The [_id] is kept as a text. A cycle updates the document whose
    [_id] is the string [flux.id]; the routes look a document up by
    [ObjectId(flux_id)] when the text is one of an [ObjectId] and by
    the text itself otherwise. The two are not told apart here: what is
    stated of a cycle and a stored counter is about documents whose
    [_id] is a string, and what is stated of the routes about the
    documents they look up. *)
Record document := {
  _id : string;
  doc_base : models.FluxBase;
  doc_lastItem : option string;
  doc_lastPubDate : option Z;
  doc_totalSent : Z;
  doc_newRssUrl : option string
}.

(** The state shared by all cycles: the SQLite file, the collection,
    the deliveries the sink has accepted (oldest first, each with the
    entry it was made for) and the number of calls made to the sink so
    far. *)
Record shared := {
  database : db.database;
  collection : list document;
  delivered : list (entry * message);
  calls : nat
}.

(** What the outside decides, by the number of calls of the sink made
    before: whether [send_to_discord] returns or raises, whether the
    [update_one] that follows raises, and the CURRENT_TIMESTAMP of the
    insertion that follows. *)
Record outside := {
  send_to_discord : nat -> message -> result unit;
  update_one_raises : nat -> bool;
  current_timestamp : nat -> Z
}.

(** [coll.update_one({"_id": key}, {"$set": {...}})]: the first document
    with that [_id] is changed; none is created. *)
Fixpoint update_one (key : string) (f : document -> document)
    (c : list document) : list document :=
  match c with
  | [] => []
  | d :: r => if String.eqb (_id d) key then f d :: r else d :: update_one key f r
  end.

(** The line feed of [f"{title}\n{summary}"]. *)
Definition nl : string := String (ascii_of_nat 10) EmptyString.

(** [sorted(entries, key=key, reverse=True)] once the keys are
    computed: a stable sort, entries of equal key keep their order. *)
Fixpoint insert_desc {A} (k : Z) (x : A) (l : list (Z * A)) : list (Z * A) :=
  match l with
  | [] => [(k, x)]
  | (k', y) :: r =>
      if k <? k' then (k', y) :: insert_desc k x r else (k, x) :: (k', y) :: r
  end.

Fixpoint sorted_reverse {A} (l : list (Z * A)) : list (Z * A) :=
  match l with
  | [] => []
  | (k, x) :: r => insert_desc k x (sorted_reverse r)
  end.

(** [[f(x) for x in l]] where [f] may raise. *)
Fixpoint map_result {A B} (f : A -> result B) (l : list A) : result (list B) :=
  match l with
  | [] => Ok []
  | x :: r =>
      do y <- f x;
      do ys <- map_result f r;
      Ok (y :: ys)
  end.

(** The state of one cycle: its two local variables and the shared
    state it reads and changes. *)
Record cycle_state := {
  sent_this_run : Z;
  seen_items : gset string;
  world : shared
}.

(** The loop of a cycle:
    [for e in entries: if sent_this_run >= max_per_run: break; body]. *)
Fixpoint for_entries (body : cycle_state -> entry -> cycle_state)
    (max_per_run : Z) (st : cycle_state) (entries : list entry) : cycle_state :=
  match entries with
  | [] => st
  | e :: rest =>
      if sent_this_run st >=? max_per_run then st
      else for_entries body max_per_run (body st e) rest
  end.

(** [flux.maxPerRun or 5] *)
Definition max_per_run_of (flux : models.FluxInDB) : Z :=
  match models.maxPerRun flux with
  | Some n => if n =? 0 then 5 else n
  | None => 5
  end.

(** The message of an entry: the template with its placeholders
    replaced, then the mentions. *)
Definition build_message (flux : models.FluxInDB) (title link : string) : message :=
  let message :=
    Py.replace "{link}" link
      (Py.replace "{title}" title
         (Py.or_str (models.messageTemplate flux) ("{title}" ++ nl ++ "{link}"))) in
  let message :=
    if Py.truthy (models.mentionUserId flux)
    then "<@" ++ default "" (models.mentionUserId flux) ++ "> " ++ message
    else message in
  let message :=
    if Py.truthy (models.mentionRoleId flux)
    then "<@&" ++ default "" (models.mentionRoleId flux) ++ "> " ++ message
    else message in
  {| target_id := models.discordTarget flux;
     content := message;
     allow_embeds := models.allowEmbeds flux;
     send_mode := if String.eqb (models.mode flux) "" then "direct" else models.mode flux |}.

(** [{"$set": {"lastItem": .., "lastPubDate": .., "totalSent": ..}}] *)
Definition set_metadata (item : string) (pub : option Z) (total : Z)
    (d : document) : document :=
  {| _id := _id d;
     doc_base := doc_base d;
     doc_lastItem := Some item;
     doc_lastPubDate := pub;
     doc_totalSent := total;
     doc_newRssUrl := doc_newRssUrl d |}.

(** ** rss_checker.py *)

Module rss_checker.

Section Filters.

(** [re.search] with the flag IGNORECASE, and [int(time.mktime(t))],
    which raises for a time out of the platform's range. *)
Variable re_search : string -> string -> re_outcome.
Variable mktime : struct_time -> result Z.

Definition normalize_text (s : option string) : string :=
  Py.strip (Py.or_str s "").

Definition match_keywords (text : string) (keywords : option (list string)) : bool :=
  if negb (Py.truthy_list keywords) then true
  else
    let t := Py.lower text in
    existsb (fun kw => Py.contains (Py.lower kw) t) (Py.or_nil keywords).

(** The loop of [match_regex]; [Raise ReError] when a pattern that does
    not compile is reached before a match. *)
Fixpoint search_any (text : string) (patterns : list string) : result bool :=
  match patterns with
  | [] => Ok false
  | pat :: rest =>
      match re_search pat text with
      | ReMatch => Ok true
      | ReNoMatch => search_any text rest
      | ReInvalid => Raise ReError
      end
  end.

Definition match_regex (text : string) (patterns : option (list string))
    (expect : bool) : bool :=
  if negb (Py.truthy_list patterns) then (if expect then true else false)
  else
    try_except (search_any text (Py.or_nil patterns))
      (fun _ => if expect then true else false).

(** [re.sub(r"^https?://(www\.)?", "", url)] *)
Definition strip_scheme (url : string) : string :=
  let after_scheme (s : string) : string :=
    if String.prefix "www." s then String.substring 4 (String.length s - 4) s else s in
  if String.prefix "https://" url
  then after_scheme (String.substring 8 (String.length url - 8) url)
  else if String.prefix "http://" url
  then after_scheme (String.substring 7 (String.length url - 7) url)
  else url.

Definition extract_domain (url : string) : string :=
  Py.split_first "/" (strip_scheme url).

Definition str_in (x : string) (l : list string) : bool :=
  existsb (String.eqb x) l.

Definition match_domains (url : string) (whitelist blacklist : list string) : bool :=
  let domain := extract_domain url in
  if negb (Nat.eqb (List.length whitelist) 0) && negb (str_in domain whitelist) then false
  else if negb (Nat.eqb (List.length blacklist) 0) && str_in domain blacklist then false
  else true.

Definition within_quiet_hours (now : datetime.datetime)
    (start end_ : option string) : bool :=
  if negb (Py.truthy start) || negb (Py.truthy end_) then false
  else
    match datetime.strptime_HM (default "" start),
          datetime.strptime_HM (default "" end_) with
    | Ok st, Ok en =>
        let now_t := datetime.time_of_day now in
        if datetime.time_lt st en
        then datetime.time_le st now_t && datetime.time_le now_t en
        else datetime.time_le st now_t || datetime.time_le now_t en
    | _, _ => false
    end.

Definition markers_fr : list string :=
  [" le "; " la "; " les "; " de "; " des "; " et "; " à "; " pour "; " sur "].

Definition markers_en : list string :=
  [" the "; " and "; " of "; " for "; " on "; " with "; " from "].

Definition language_filter (text : string) (language : option string) : bool :=
  if negb (Py.truthy language) then true
  else
    let t := Py.lower text in
    let score (markers : list string) : nat :=
      List.length (List.filter (fun m => Py.contains m t) markers) in
    if String.eqb (default "" language) "fr" then (1 <=? score markers_fr)%nat
    else if String.eqb (default "" language) "en" then (1 <=? score markers_en)%nat
    else true.

Definition getItemLinkOrGuid (e : entry) : string :=
  Py.or_str (Py.or_else (entry_link e) (entry_id e)) "".

Definition getItemDate (e : entry) : result (option Z) :=
  match published_parsed e with
  | Some t => do d <- mktime t; Ok (Some d)
  | None =>
      match updated_parsed e with
      | Some t => do d <- mktime t; Ok (Some d)
      | None => Ok None
      end
  end.

(** The sort key of [_sort_items]: [dt or 0]. *)
Definition sort_key (e : entry) : result Z :=
  do dt <- getItemDate e; Ok (default 0 dt).

Definition _sort_items (entries : list entry) : result (list entry) :=
  do keys <- map_result sort_key entries;
  Ok (List.map snd (sorted_reverse (List.combine keys entries))).

End Filters.

Section Cycle.

Variable re_search : string -> string -> re_outcome.
Variable mktime : struct_time -> result Z.
Variable o : outside.

(** The body of the loop of [check_flux] after the test of the cap. *)
Definition process_entry (flux : models.FluxInDB) (now : datetime.datetime)
    (st : cycle_state) (e : entry) : cycle_state :=
  let title := normalize_text (Some (Py.or_str (entry_title e) "Sans titre")) in
  let link := normalize_text (Some (getItemLinkOrGuid e)) in
  let summary :=
    normalize_text
      (Some (Py.or_str (entry_summary e) (default "" (entry_description e)))) in
  if String.eqb link "" then st
  else if within_quiet_hours now (models.quietHoursStart flux) (models.quietHoursEnd flux)
  then st
  else if bool_decide (link ∈ seen_items st) || db.already_sent link (database (world st))
  then st
  else
    let st :=
      {| sent_this_run := sent_this_run st;
         seen_items := {[link]} ∪ seen_items st;
         world := world st |} in
    let full_text := title ++ nl ++ summary in
    if negb (language_filter full_text (models.language flux)) then st
    else if Py.truthy_list (models.includeKeywords flux)
            && negb (match_keywords full_text (models.includeKeywords flux)) then st
    else if Py.truthy_list (models.excludeKeywords flux)
            && match_keywords full_text (models.excludeKeywords flux) then st
    else if Py.truthy_list (models.regexInclude flux)
            && negb (match_regex re_search full_text (models.regexInclude flux) true) then st
    else if Py.truthy_list (models.regexExclude flux)
            && match_regex re_search full_text (models.regexExclude flux) true then st
    else if negb (match_domains link (Py.or_nil (models.domainWhitelist flux))
                    (Py.or_nil (models.domainBlacklist flux))) then st
    else
      let w := world st in
      let n := calls w in
      let message := build_message flux title link in
      match send_to_discord o n message with
      | Raise _ =>
          {| sent_this_run := sent_this_run st;
             seen_items := seen_items st;
             world := {| database := database w; collection := collection w;
                         delivered := delivered w; calls := S n |} |}
      | Ok _ =>
          let database' :=
            db.mark_as_sent (current_timestamp o n) (models.id flux) link (database w) in
          let collection' :=
            match getItemDate mktime e with
            | Ok pub =>
                if update_one_raises o n then collection w
                else update_one (models.id flux)
                       (set_metadata link pub (models.totalSent flux + 1)) (collection w)
            | Raise _ => collection w
            end in
          {| sent_this_run := sent_this_run st + 1;
             seen_items := seen_items st;
             world := {| database := database'; collection := collection';
                         delivered := delivered w ++ [(e, message)]; calls := S n |} |}
      end.

(** [check_flux(flux, coll)]: [feed] is what [parse_rss_feed] returned
    (the entries of the parsed feed) or raised; the result is the shared
    state the cycle leaves. *)
Definition check_flux (flux : models.FluxInDB) (now : datetime.datetime)
    (feed : result (list entry)) (w : shared) : shared :=
  match feed with
  | Raise _ => w
  | Ok [] => w
  | Ok feed_entries =>
      let entries := try_except (_sort_items mktime feed_entries) (fun _ => feed_entries) in
      world
        (for_entries (process_entry flux now) (max_per_run_of flux)
           {| sent_this_run := 0; seen_items := ∅; world := w |} entries)
  end.

End Cycle.

End rss_checker.

(** ** app/services/rss_service.py *)

Module RSSService.

Section Service.

Variable re_search : string -> string -> re_outcome.
Variable mktime : struct_time -> result Z.
Variable o : outside.

Definition extract_item_link (e : entry) : string :=
  Py.or_str (Py.or_else (entry_link e) (entry_id e)) "".

Definition extract_item_date (e : entry) : result (option Z) :=
  match published_parsed e with
  | Some t => do d <- mktime t; Ok (Some d)
  | None =>
      match updated_parsed e with
      | Some t => do d <- mktime t; Ok (Some d)
      | None => Ok None
      end
  end.

(** The key [get_date] of [sort_entries_by_date]: [date or 0]. *)
Definition get_date (e : entry) : result Z :=
  do date <- extract_item_date e; Ok (default 0 date).

Definition sort_entries_by_date (entries : list entry) : result (list entry) :=
  do keys <- map_result get_date entries;
  Ok (List.map snd (sorted_reverse (List.combine keys entries))).

Definition filter_by_language (text : string) (language : option string) : bool :=
  if negb (Py.truthy language) then true
  else
    let text_lower := Py.lower text in
    let score (markers : list string) : nat :=
      List.length (List.filter (fun m => Py.contains m text_lower) markers) in
    if String.eqb (default "" language) "fr"
    then (1 <=? score rss_checker.markers_fr)%nat
    else if String.eqb (default "" language) "en"
    then (1 <=? score rss_checker.markers_en)%nat
    else true.

Definition match_keywords (text : string) (keywords : option (list string)) : bool :=
  if negb (Py.truthy_list keywords) then true
  else
    let text_lower := Py.lower text in
    existsb (fun kw => Py.contains (Py.lower kw) text_lower) (Py.or_nil keywords).

(** [match_regex] of the service has no [expect]: it answers [True] for
    an empty list and when [re.error] is raised. *)
Definition match_regex (text : string) (patterns : option (list string)) : bool :=
  if negb (Py.truthy_list patterns) then true
  else
    try_except (rss_checker.search_any re_search text (Py.or_nil patterns))
      (fun _ => true).

Definition extract_domain (url : string) : string :=
  Py.split_first "/" (rss_checker.strip_scheme url).

Definition match_domains (url : string) (whitelist blacklist : list string) : bool :=
  let domain := extract_domain url in
  if negb (Nat.eqb (List.length whitelist) 0)
     && negb (rss_checker.str_in domain whitelist) then false
  else if negb (Nat.eqb (List.length blacklist) 0)
          && rss_checker.str_in domain blacklist then false
  else true.

Definition is_in_quiet_hours (now : datetime.datetime)
    (start end_ : option string) : bool :=
  if negb (Py.truthy start) || negb (Py.truthy end_) then false
  else
    match datetime.strptime_HM (default "" start),
          datetime.strptime_HM (default "" end_) with
    | Ok start_time, Ok end_time =>
        let now_time := datetime.time_of_day now in
        if datetime.time_lt start_time end_time
        then datetime.time_le start_time now_time && datetime.time_le now_time end_time
        else datetime.time_le start_time now_time || datetime.time_le now_time end_time
    | _, _ => false
    end.

(** The body of the loop of [check_and_send_flux] after the test of the
    cap; [sent_this_run] stands for [result["sent_count"]]. *)
Definition process_entry (flux : models.FluxInDB) (now : datetime.datetime)
    (st : cycle_state) (e : entry) : cycle_state :=
  let title := Py.strip (Py.or_str (entry_title e) "Sans titre") in
  let link := Py.strip (extract_item_link e) in
  let summary :=
    Py.strip (Py.or_str (entry_summary e) (default "" (entry_description e))) in
  if String.eqb link "" then st
  else if is_in_quiet_hours now (models.quietHoursStart flux) (models.quietHoursEnd flux)
  then st
  else if bool_decide (link ∈ seen_items st) || db.already_sent link (database (world st))
  then st
  else
    let st :=
      {| sent_this_run := sent_this_run st;
         seen_items := {[link]} ∪ seen_items st;
         world := world st |} in
    let full_text := title ++ nl ++ summary in
    if negb (filter_by_language full_text (models.language flux)) then st
    else if Py.truthy_list (models.includeKeywords flux)
            && negb (match_keywords full_text (models.includeKeywords flux)) then st
    else if Py.truthy_list (models.excludeKeywords flux)
            && match_keywords full_text (models.excludeKeywords flux) then st
    else if Py.truthy_list (models.regexInclude flux)
            && negb (match_regex full_text (models.regexInclude flux)) then st
    else if Py.truthy_list (models.regexExclude flux)
            && match_regex full_text (models.regexExclude flux) then st
    else if negb (match_domains link (Py.or_nil (models.domainWhitelist flux))
                    (Py.or_nil (models.domainBlacklist flux))) then st
    else
      let w := world st in
      let n := calls w in
      let message := build_message flux title link in
      match send_to_discord o n message with
      | Raise _ =>
          {| sent_this_run := sent_this_run st;
             seen_items := seen_items st;
             world := {| database := database w; collection := collection w;
                         delivered := delivered w; calls := S n |} |}
      | Ok _ =>
          let database' :=
            db.mark_as_sent (current_timestamp o n) (models.id flux) link (database w) in
          let sent_count := sent_this_run st + 1 in
          let collection' :=
            match extract_item_date e with
            | Ok pub =>
                if update_one_raises o n then collection w
                else update_one (models.id flux)
                       (set_metadata link pub (models.totalSent flux + sent_count))
                       (collection w)
            | Raise _ => collection w
            end in
          {| sent_this_run := sent_count;
             seen_items := seen_items st;
             world := {| database := database'; collection := collection';
                         delivered := delivered w ++ [(e, message)]; calls := S n |} |}
      end.

(** The dictionary [check_and_send_flux] returns. *)
Record check_result := {
  sent_count : Z;
  error : option exn
}.

(** [check_and_send_flux(flux, collection)]: [feed] is what
    [parse_feed] returned or raised; the result is the dictionary and
    the shared state the cycle leaves. *)
Definition check_and_send_flux (flux : models.FluxInDB) (now : datetime.datetime)
    (feed : result (list entry)) (w : shared) : check_result * shared :=
  match feed with
  | Raise e => ({| sent_count := 0; error := Some e |}, w)
  | Ok [] => ({| sent_count := 0; error := None |}, w)
  | Ok feed_entries =>
      match sort_entries_by_date feed_entries with
      | Raise e => ({| sent_count := 0; error := Some e |}, w)
      | Ok entries =>
          let st :=
            for_entries (process_entry flux now) (max_per_run_of flux)
              {| sent_this_run := 0; seen_items := ∅; world := w |} entries in
          ({| sent_count := sent_this_run st; error := None |}, world st)
      end
  end.

End Service.

End RSSService.

(** ** app/services/scheduler_service.py *)

Module SchedulerService.

(** A job of the scheduler: the seconds of its [IntervalTrigger] and
    the feed it was given as argument. *)
Record job := {
  trigger_seconds : Z;
  job_args : models.FluxInDB
}.

(** The service object: its scheduler ([None] before [init]) with the
    jobs by identifier, the flag, and whether [self.collection] is set.
    The collection itself is the shared MongoDB collection; its
    documents are passed to the method that reads them.  A scheduler
    that exists is a running one: the application starts it right
    after [init] ([main.py]), and the state in between, in which a job
    that is added stays pending, is not modelled. *)
Record SchedulerService := {
  scheduler : option (gmap string job);
  aggressive_mode : bool;
  collection_set : bool
}.

(** [__init__] *)
Definition new : SchedulerService :=
  {| scheduler := None; aggressive_mode := false; collection_set := false |}.

(** [init(collection)], followed by [start()]. *)
Definition init (self : SchedulerService) : SchedulerService :=
  {| scheduler := Some ∅;
     aggressive_mode := aggressive_mode self;
     collection_set := true |}.

(** The dictionary [schedule_flux] returns, without [next_run]. *)
Record schedule_info := {
  info_job_id : string;
  info_interval : Z
}.

(** The interval [schedule_flux] gives to the trigger:
    [flux.checkInterval or settings.default_check_interval] unless the
    flag is set. *)
Definition interval_seconds (settings : config.Settings) (aggressive : bool)
    (flux : models.FluxInDB) : Z :=
  if aggressive then 10
  else if models.checkInterval flux =? 0 then config.default_check_interval settings
  else models.checkInterval flux.

(** [schedule_flux(flux)]: the service after the call and what the call
    returned or raised.  [trigger_raises seconds] tells whether
    [IntervalTrigger(seconds=seconds)] raises [OverflowError], which it
    does when the present time plus the interval is no date that the
    platform can represent; the job that was there is removed before
    the trigger is built. *)
Definition schedule_flux (settings : config.Settings) (trigger_raises : Z -> bool)
    (self : SchedulerService) (flux : models.FluxInDB)
    : SchedulerService * result schedule_info :=
  match scheduler self with
  | None => (self, Raise RuntimeError)
  | Some jobs =>
      let job_id := "flux_" ++ models.id flux in
      let seconds := interval_seconds settings (aggressive_mode self) flux in
      let jobs := match jobs !! job_id with
                  | Some _ => delete job_id jobs
                  | None => jobs
                  end in
      if trigger_raises seconds
      then ({| scheduler := Some jobs;
               aggressive_mode := aggressive_mode self;
               collection_set := collection_set self |},
            Raise OverflowError)
      else
        let jobs := <[job_id := {| trigger_seconds := seconds; job_args := flux |}]> jobs in
        ({| scheduler := Some jobs;
            aggressive_mode := aggressive_mode self;
            collection_set := collection_set self |},
         Ok {| info_job_id := job_id; info_interval := seconds |})
  end.

(** [unschedule_flux(flux_id)] *)
Definition unschedule_flux (self : SchedulerService) (flux_id : string)
    : SchedulerService * result bool :=
  match scheduler self with
  | None => (self, Raise RuntimeError)
  | Some jobs =>
      let job_id := "flux_" ++ flux_id in
      match jobs !! job_id with
      | Some _ =>
          ({| scheduler := Some (delete job_id jobs);
              aggressive_mode := aggressive_mode self;
              collection_set := collection_set self |}, Ok true)
      | None => (self, Ok false)
      end
  end.

(** [FluxInDB] built from the keys of a document of the collection: the
    document has the key [_id] and no key [id], so the field [id] takes
    its default, a fresh [uuid4]. *)
Definition FluxInDB_of_document (uuid : string) (d : document) : models.FluxInDB :=
  {| models.base := doc_base d;
     models.id := uuid;
     models.lastError := None;
     models.lastItem := doc_lastItem d;
     models.lastPubDate := doc_lastPubDate d;
     models.totalSent := doc_totalSent d |}.

(** The dictionary [reload_all_schedules] returns. *)
Record reload_info := {
  scheduled_count : Z;
  errors : list (string * exn)
}.

(** The loop of [reload_all_schedules] over the documents of the
    cursor; [n] numbers the documents, [uuid4 n] is the identifier
    drawn for the n-th. *)
Fixpoint reload_loop (settings : config.Settings) (trigger_raises : Z -> bool)
    (uuid4 : nat -> string) (n : nat) (cursor : list document)
    (self : SchedulerService) (acc : reload_info) : SchedulerService * reload_info :=
  match cursor with
  | [] => (self, acc)
  | flux_data :: rest =>
      let flux := FluxInDB_of_document (uuid4 n) flux_data in
      match schedule_flux settings trigger_raises self flux with
      | (self', Ok _) =>
          reload_loop settings trigger_raises uuid4 (S n) rest self'
            {| scheduled_count := scheduled_count acc + 1; errors := errors acc |}
      | (self', Raise e) =>
          reload_loop settings trigger_raises uuid4 (S n) rest self'
            {| scheduled_count := scheduled_count acc;
               errors := errors acc ++ [(_id flux_data, e)] |}
      end
  end.

(** [reload_all_schedules()]: [docs] are the documents of the
    collection when the method runs. *)
Definition reload_all_schedules (settings : config.Settings)
    (trigger_raises : Z -> bool) (uuid4 : nat -> string)
    (docs : list document) (self : SchedulerService)
    : SchedulerService * result reload_info :=
  if negb (collection_set self) then (self, Raise RuntimeError)
  else
    match scheduler self with
    | None => (self, Raise RuntimeError)
    | Some _ =>
        let self :=
          {| scheduler := Some ∅;
             aggressive_mode := aggressive_mode self;
             collection_set := collection_set self |} in
        let cursor := List.filter (fun d => models.active (doc_base d)) docs in
        let '(self, info) :=
          reload_loop settings trigger_raises uuid4 O cursor self
            {| scheduled_count := 0; errors := [] |} in
        (self, Ok info)
    end.

(** The dictionary [set_aggressive_mode] returns. *)
Record aggressive_info := {
  info_aggressive_mode : bool;
  info_scheduled_count : Z
}.

(** [set_aggressive_mode(enabled)] *)
Definition set_aggressive_mode (settings : config.Settings)
    (trigger_raises : Z -> bool) (uuid4 : nat -> string)
    (docs : list document) (self : SchedulerService) (enabled : bool)
    : SchedulerService * result aggressive_info :=
  let self :=
    {| scheduler := scheduler self;
       aggressive_mode := enabled;
       collection_set := collection_set self |} in
  match reload_all_schedules settings trigger_raises uuid4 docs self with
  | (self, Ok result) =>
      (self, Ok {| info_aggressive_mode := aggressive_mode self;
                   info_scheduled_count := scheduled_count result |})
  | (self, Raise e) => (self, Raise e)
  end.

(** [_check_flux_job(flux)], the job of a feed: nothing for a feed
    object that is not active; else one cycle of the service, whose
    result is logged and whose exceptions are caught. [flux] is the
    object the job was given when it was scheduled. *)
Definition _check_flux_job (re_search : string -> string -> re_outcome)
    (mktime : struct_time -> result Z) (o : outside) (flux : models.FluxInDB)
    (now : datetime.datetime) (feed : result (list entry)) (w : shared) : shared :=
  if negb (models.active flux) then w
  else snd (RSSService.check_and_send_flux re_search mktime o flux now feed w).

End SchedulerService.

(** ** discord_utils.py *)

Module discord_utils.

(** [bool(re.fullmatch(r"\d{17,20}", str(value)))] on a text of ASCII
    characters, where [\d] is one of the digits 0 to 9. *)
Definition isValidDiscordId (value : string) : bool :=
  let n := String.length value in
  (17 <=? n)%nat && (n <=? 20)%nat
  && forallb datetime.is_digit (list_ascii_of_string value).

End discord_utils.

(** ** app/routers/fluxes.py *)

Module fluxes.

(** The state the route works on: the collection and the scheduler
    service. *)
Record app := {
  app_collection : list document;
  scheduler_service : SchedulerService.SchedulerService
}.

(** [create_flux(flux)]: [inserted_id] is the identifier the collection
    gives to the new document.  The request body has passed the
    validation of [FluxCreate], which checks the types of the fields
    and nothing else.  The route answers with the identifier or raises;
    the state is the one it leaves. *)
Definition create_flux (settings : config.Settings) (trigger_raises : Z -> bool)
    (inserted_id : string) (flux : models.FluxBase) (a : app) : app * result string :=
  if negb (discord_utils.isValidDiscordId (models.discordTarget flux))
  then (a, Raise (HTTPException 400))
  else
    let resolved_url :=
      URLResolver.resolve settings (models.rssUrl flux)
        (if String.eqb (models.sourceType flux) "" then "rss" else models.sourceType flux) in
    let doc_fields :=
      {| models.name := models.name flux;
         models.category := models.category flux;
         models.rssUrl := resolved_url;
         models.sourceType := models.sourceType flux;
         models.discordTarget := models.discordTarget flux;
         models.interval := models.interval flux;
         models.mode := models.mode flux;
         models.active := models.active flux;
         models.allowEmbeds := models.allowEmbeds flux;
         models.messageTemplate := models.messageTemplate flux;
         models.mentionUserId := models.mentionUserId flux;
         models.mentionRoleId := models.mentionRoleId flux;
         models.includeKeywords := models.includeKeywords flux;
         models.excludeKeywords := models.excludeKeywords flux;
         models.regexInclude := models.regexInclude flux;
         models.regexExclude := models.regexExclude flux;
         models.domainWhitelist := models.domainWhitelist flux;
         models.domainBlacklist := models.domainBlacklist flux;
         models.language := models.language flux;
         models.dedupeWindowHours := models.dedupeWindowHours flux;
         models.maxPerRun := models.maxPerRun flux;
         models.quietHoursStart := models.quietHoursStart flux;
         models.quietHoursEnd := models.quietHoursEnd flux;
         models.dailyCap := models.dailyCap flux |} in
    let doc :=
      {| _id := inserted_id; doc_base := doc_fields; doc_lastItem := None;
         doc_lastPubDate := None; doc_totalSent := 0; doc_newRssUrl := None |} in
    let coll := (app_collection a ++ [doc])%list in
    let flux_id := inserted_id in
    if models.active doc_fields then
      let flux_db :=
        {| models.base := doc_fields; models.id := flux_id;
           models.lastError := None; models.lastItem := None;
           models.lastPubDate := None; models.totalSent := 0 |} in
      match SchedulerService.schedule_flux settings trigger_raises
              (scheduler_service a) flux_db with
      | (svc, Ok _) =>
          ({| app_collection := coll; scheduler_service := svc |}, Ok flux_id)
      | (svc, Raise e) =>
          ({| app_collection := coll; scheduler_service := svc |}, Raise e)
      end
    else
      ({| app_collection := coll; scheduler_service := scheduler_service a |}, Ok flux_id).

(** The identifiers of the documents are kept as the strings the
    routes receive and answer with; [ObjectId(flux_id)] and
    [str(inserted_id)] are not modelled apart. *)

(** [collection.find_one({"_id": key})] *)
Definition find_one (key : string) (c : list document) : option document :=
  List.find (fun d => String.eqb (_id d) key) c.

(** [collection.delete_one({"_id": key})]: the first document with that
    [_id] is removed. *)
Fixpoint delete_one (key : string) (c : list document) : list document :=
  match c with
  | [] => []
  | d :: r => if String.eqb (_id d) key then r else d :: delete_one key r
  end.

(** [FluxInDB] built from the keys of a document but [_id], with
    [id=flux_id]. *)
Definition FluxInDB_of (flux_id : string) (d : document) : models.FluxInDB :=
  {| models.base := doc_base d;
     models.id := flux_id;
     models.lastError := None;
     models.lastItem := doc_lastItem d;
     models.lastPubDate := doc_lastPubDate d;
     models.totalSent := doc_totalSent d |}.

(** [delete_flux(flux_id)] *)
Definition delete_flux (flux_id : string) (a : app) : app * result string :=
  match find_one flux_id (app_collection a) with
  | None => (a, Raise (HTTPException 404))
  | Some _ =>
      let coll := delete_one flux_id (app_collection a) in
      match SchedulerService.unschedule_flux (scheduler_service a) flux_id with
      | (svc, Ok _) => ({| app_collection := coll; scheduler_service := svc |}, Ok flux_id)
      | (svc, Raise e) => ({| app_collection := coll; scheduler_service := svc |}, Raise e)
      end
  end.

(** [FluxUpdate]: [None] is a field the request does not set, so a
    field left out of [model_dump(exclude_unset=True)]; a request that
    sets a field to [null] is not modelled. *)
Record FluxUpdate := {
  upd_name : option string;
  upd_newRssUrl : option string;
  upd_sourceType : option string;
  upd_discordTarget : option string;
  upd_interval : option Z;
  upd_mode : option string;
  upd_active : option bool;
  upd_allowEmbeds : option bool;
  upd_messageTemplate : option string;
  upd_mentionUserId : option string;
  upd_mentionRoleId : option string
}.

(** [{"$set": update_data}] on the fields of a document. The key
    [newRssUrl] is written as it is, under its own name, which no code
    reads; [update_data] never has the key [rssUrl], which [FluxUpdate]
    does not declare. *)
Definition set_fields (u : FluxUpdate) (d : document) : document :=
  let b := doc_base d in
  {| _id := _id d;
     doc_base :=
       {| models.name :=
            match upd_name u with Some v => Some v | None => models.name b end;
          models.category := models.category b;
          models.rssUrl := models.rssUrl b;
          models.sourceType := default (models.sourceType b) (upd_sourceType u);
          models.discordTarget := default (models.discordTarget b) (upd_discordTarget u);
          models.interval := default (models.interval b) (upd_interval u);
          models.mode := default (models.mode b) (upd_mode u);
          models.active := default (models.active b) (upd_active u);
          models.allowEmbeds := default (models.allowEmbeds b) (upd_allowEmbeds u);
          models.messageTemplate :=
            match upd_messageTemplate u with
            | Some v => Some v
            | None => models.messageTemplate b
            end;
          models.mentionUserId :=
            match upd_mentionUserId u with
            | Some v => Some v
            | None => models.mentionUserId b
            end;
          models.mentionRoleId :=
            match upd_mentionRoleId u with
            | Some v => Some v
            | None => models.mentionRoleId b
            end;
          models.includeKeywords := models.includeKeywords b;
          models.excludeKeywords := models.excludeKeywords b;
          models.regexInclude := models.regexInclude b;
          models.regexExclude := models.regexExclude b;
          models.domainWhitelist := models.domainWhitelist b;
          models.domainBlacklist := models.domainBlacklist b;
          models.language := models.language b;
          models.dedupeWindowHours := models.dedupeWindowHours b;
          models.maxPerRun := models.maxPerRun b;
          models.quietHoursStart := models.quietHoursStart b;
          models.quietHoursEnd := models.quietHoursEnd b;
          models.dailyCap := models.dailyCap b |};
     doc_lastItem := doc_lastItem d;
     doc_lastPubDate := doc_lastPubDate d;
     doc_totalSent := doc_totalSent d;
     doc_newRssUrl :=
       match upd_newRssUrl u with Some v => Some v | None => doc_newRssUrl d end |}.

(** Whether [update_data] is the empty dictionary. *)
Definition no_field_set (u : FluxUpdate) : bool :=
  match upd_name u, upd_newRssUrl u, upd_sourceType u, upd_discordTarget u,
        upd_interval u, upd_mode u, upd_active u, upd_allowEmbeds u,
        upd_messageTemplate u, upd_mentionUserId u, upd_mentionRoleId u with
  | None, None, None, None, None, None, None, None, None, None, None => true
  | _, _, _, _, _, _, _, _, _, _, _ => false
  end.

(** [update_flux(flux_id, flux_update)]. [refuses_empty_set] tells
    whether the server raises on [{"$set": {}}] (MongoDB before 5.0
    does). *)
Definition update_flux (settings : config.Settings) (trigger_raises : Z -> bool)
    (refuses_empty_set : bool) (flux_id : string) (flux_update : FluxUpdate) (a : app)
    : app * result string :=
  match find_one flux_id (app_collection a) with
  | None => (a, Raise (HTTPException 404))
  | Some _ =>
      if match upd_discordTarget flux_update with
         | Some target => negb (discord_utils.isValidDiscordId target)
         | None => false
         end
      then (a, Raise (HTTPException 400))
      else if no_field_set flux_update && refuses_empty_set
      then (a, Raise OtherException)
      else
        let coll := update_one flux_id (set_fields flux_update) (app_collection a) in
        match find_one flux_id coll with
        | Some updated_doc =>
            let flux_db := FluxInDB_of flux_id updated_doc in
            if models.active flux_db then
              match SchedulerService.schedule_flux settings trigger_raises
              (scheduler_service a) flux_db with
              | (svc, Ok _) =>
                  ({| app_collection := coll; scheduler_service := svc |}, Ok flux_id)
              | (svc, Raise e) =>
                  ({| app_collection := coll; scheduler_service := svc |}, Raise e)
              end
            else
              match SchedulerService.unschedule_flux (scheduler_service a) flux_id with
              | (svc, Ok _) =>
                  ({| app_collection := coll; scheduler_service := svc |}, Ok flux_id)
              | (svc, Raise e) =>
                  ({| app_collection := coll; scheduler_service := svc |}, Raise e)
              end
        | None =>
            ({| app_collection := coll; scheduler_service := scheduler_service a |},
             Ok flux_id)
        end
  end.

(** What [bulk_actions] records for an identifier it could not treat. *)
Inductive bulk_error :=
| NonTrouve
| Raised (e : exn).

(** The dictionary [results] of [bulk_actions]. *)
Record bulk_results := {
  success : list string;
  bulk_errors : list (string * bulk_error)
}.

(** The body of the loop of [bulk_actions] for one identifier, for an
    action among [activate], [deactivate] and [delete]. *)
Definition bulk_one (settings : config.Settings) (trigger_raises : Z -> bool)
    (action : string)
    (a : app) (results : bulk_results) (flux_id : string) : app * bulk_results :=
  let succeeded (a' : app) :=
    (a', {| success := success results ++ [flux_id];
            bulk_errors := bulk_errors results |}) in
  let failed (a' : app) (err : bulk_error) :=
    (a', {| success := success results;
            bulk_errors := bulk_errors results ++ [(flux_id, err)] |}) in
  if String.eqb action "delete" then
    match find_one flux_id (app_collection a) with
    | Some _ =>
        let coll := delete_one flux_id (app_collection a) in
        match SchedulerService.unschedule_flux (scheduler_service a) flux_id with
        | (svc, Ok _) => succeeded {| app_collection := coll; scheduler_service := svc |}
        | (svc, Raise e) =>
            failed {| app_collection := coll; scheduler_service := svc |} (Raised e)
        end
    | None => failed a NonTrouve
    end
  else
    let active := String.eqb action "activate" in
    match find_one flux_id (app_collection a) with
    | Some _ =>
        let coll :=
          update_one flux_id
            (set_fields {| upd_name := None; upd_newRssUrl := None;
                           upd_sourceType := None; upd_discordTarget := None;
                           upd_interval := None; upd_mode := None;
                           upd_active := Some active; upd_allowEmbeds := None;
                           upd_messageTemplate := None; upd_mentionUserId := None;
                           upd_mentionRoleId := None |})
            (app_collection a) in
        if active then
          match find_one flux_id coll with
          | Some doc =>
              match SchedulerService.schedule_flux settings trigger_raises
                      (scheduler_service a) (FluxInDB_of flux_id doc) with
              | (svc, Ok _) => succeeded {| app_collection := coll; scheduler_service := svc |}
              | (svc, Raise e) =>
                  failed {| app_collection := coll; scheduler_service := svc |} (Raised e)
              end
          | None => succeeded {| app_collection := coll; scheduler_service := scheduler_service a |}
          end
        else
          match SchedulerService.unschedule_flux (scheduler_service a) flux_id with
          | (svc, Ok _) => succeeded {| app_collection := coll; scheduler_service := svc |}
          | (svc, Raise e) =>
              failed {| app_collection := coll; scheduler_service := svc |} (Raised e)
          end
    | None => failed a NonTrouve
    end.

Fixpoint bulk_loop (settings : config.Settings) (trigger_raises : Z -> bool)
    (action : string) (flux_ids : list string) (a : app) (results : bulk_results)
    : app * bulk_results :=
  match flux_ids with
  | [] => (a, results)
  | flux_id :: rest =>
      let '(a', results') := bulk_one settings trigger_raises action a results flux_id in
      bulk_loop settings trigger_raises action rest a' results'
  end.

(** The dictionary [bulk_actions] returns. *)
Record bulk_info := {
  bulk_total : Z;
  success_count : Z;
  error_count : Z;
  bulk_results_of : bulk_results
}.

(** [bulk_actions(action, flux_ids)] *)
Definition bulk_actions (settings : config.Settings) (trigger_raises : Z -> bool)
    (action : string) (flux_ids : list string) (a : app) : app * result bulk_info :=
  if negb (rss_checker.str_in action ["activate"; "deactivate"; "delete"])
  then (a, Raise (HTTPException 400))
  else
    let '(a', results) :=
      bulk_loop settings trigger_raises action flux_ids a
        {| success := []; bulk_errors := [] |} in
    (a', Ok {| bulk_total := Z.of_nat (List.length flux_ids);
               success_count := Z.of_nat (List.length (success results));
               error_count := Z.of_nat (List.length (bulk_errors results));
               bulk_results_of := results |}).

End fluxes.

(** ** main.py *)

Module main.

(** Step 5 of the start of the application:
    [cleanup_old_entries(settings.sent_items_retention_days)], run at
    every start, at the time [now] in seconds; the count it returns is
    logged. *)
Definition startup_sweep (settings : config.Settings) (now : Z) (w : shared)
    : Z * shared :=
  let '(deleted, database') :=
    db.cleanup_old_entries now (config.sent_items_retention_days settings) (database w) in
  (deleted,
   {| database := database'; collection := collection w;
      delivered := delivered w; calls := calls w |}).

End main.

(** ** Notions used to state the properties *)

(** The microseconds from midnight to a time of the day. *)
Definition microseconds_of (t : datetime.time) : Z :=
  ((datetime.hour t * 60 + datetime.minute t) * 60 + datetime.second t) * 1000000
  + datetime.microsecond t.

(** The ranges of the fields of a [datetime.time]. *)
Definition valid_time (t : datetime.time) : Prop :=
  0 <= datetime.hour t < 24 /\ 0 <= datetime.minute t < 60
  /\ 0 <= datetime.second t < 60 /\ 0 <= datetime.microsecond t < 1000000.

(** The quiet-hours window as the specification words it: the half-open
    interval from [st] to [en], wrapping past midnight when [st] is
    after [en]. *)
Definition half_open_window (st en t : datetime.time) : Prop :=
  let S := microseconds_of st in
  let E := microseconds_of en in
  let T := microseconds_of t in
  (S < E /\ S <= T < E) \/ (E < S /\ (S <= T \/ T < E)).

(** The window the code tests: both ends included, and the wrapping
    branch taken when [st] is not before [en]. *)
Definition closed_window (st en t : datetime.time) : Prop :=
  let S := microseconds_of st in
  let E := microseconds_of en in
  let T := microseconds_of t in
  (S < E /\ S <= T <= E) \/ (E <= S /\ (S <= T \/ T <= E)).

(** A moment of the first of January 2025. *)
Definition at_time (h m s us : Z) : datetime.datetime :=
  {| datetime.year := 2025; datetime.month := 1; datetime.day := 1;
     datetime.time_of_day :=
       {| datetime.hour := h; datetime.minute := m;
          datetime.second := s; datetime.microsecond := us |} |}.

(** A regular-expression engine for the examples: the pattern [(] does
    not compile, any other pattern matches the texts that contain it. *)
Definition literal_search (pattern text : string) : re_outcome :=
  if String.eqb pattern "(" then ReInvalid
  else if Py.contains pattern text then ReMatch else ReNoMatch.


(** The seconds that the flag commands for a feed configuration: 10
    when it is set; else the interval of the feed, or the default when
    the feed has none (a zero). *)
Definition effective_interval (settings : config.Settings) (flag : bool)
    (b : models.FluxBase) : Z :=
  if flag then 10
  else if models.interval b =? 0 then config.default_check_interval settings
  else models.interval b.

(** A platform for the examples: [IntervalTrigger] raises for an
    interval beyond a milliard of seconds. *)
Definition sample_trigger_raises (seconds : Z) : bool := 1000000000 <? seconds.

(** Identifiers drawn for the examples: [u0], [u1], ... *)
Definition sample_uuid4 (n : nat) : string :=
  String "u" (String (ascii_of_nat (48 + n)) EmptyString).

(** A request body for the examples: the defaults of [FluxBase] but for
    the destination, the source, the interval, the cap and the exclude
    patterns. *)
Definition sample_base (interval : Z) (maxPerRun : option Z)
    (regexExclude : option (list string)) : models.FluxBase :=
  {| models.name := Some "Example";
     models.category := Some "general";
     models.rssUrl := Some "https://example.org/feed.xml";
     models.sourceType := "web";
     models.discordTarget := "123456789012345678";
     models.interval := interval;
     models.mode := "direct";
     models.active := true;
     models.allowEmbeds := false;
     models.messageTemplate := None;
     models.mentionUserId := None;
     models.mentionRoleId := None;
     models.includeKeywords := Some [];
     models.excludeKeywords := Some [];
     models.regexInclude := Some [];
     models.regexExclude := regexExclude;
     models.domainWhitelist := Some [];
     models.domainBlacklist := Some [];
     models.language := None;
     models.dedupeWindowHours := Some 24;
     models.maxPerRun := maxPerRun;
     models.quietHoursStart := None;
     models.quietHoursEnd := None;
     models.dailyCap := None |}.

(** The feed of the examples, as the scheduler holds it. *)
Definition sample_flux (interval : Z) (maxPerRun : option Z)
    (regexExclude : option (list string)) (totalSent : Z) : models.FluxInDB :=
  {| models.base := sample_base interval maxPerRun regexExclude;
     models.id := "f1";
     models.lastError := None;
     models.lastItem := None;
     models.lastPubDate := None;
     models.totalSent := totalSent |}.

(** The key under which an entry is deduplicated: its link, or its
    identifier, stripped, as the loop computes it. *)
Definition item_key (e : entry) : string :=
  rss_checker.normalize_text (Some (rss_checker.getItemLinkOrGuid e)).

(** The state in which a cycle enters its loop. *)
Definition initial_state (w : shared) : cycle_state :=
  {| sent_this_run := 0; seen_items := ∅; world := w |}.

(** What a cycle added to the deliveries and to the rows of the store. *)
Definition new_deliveries (w w' : shared) : list (entry * message) :=
  drop (List.length (delivered w)) (delivered w').

Definition new_rows (w w' : shared) : list db.sent_item :=
  drop (List.length (db.sent_items (database w))) (db.sent_items (database w')).

(** The qualifying items of a sequence: those that the body of the loop
    of [check_flux] delivers when every item of the sequence is
    evaluated in turn, with no cap. *)
Definition qualifying (re_search : string -> string -> re_outcome)
    (mktime : struct_time -> result Z) (o : outside) (flux : models.FluxInDB)
    (now : datetime.datetime) (w : shared) (entries : list entry)
    : list (entry * message) :=
  new_deliveries w
    (world (fold_left (rss_checker.process_entry re_search mktime o flux now)
              entries (initial_state w))).

(** What one turn of the loop may do, seen from the deliveries, the
    rows of the store and the counter: nothing; or one delivery of the
    entry, made when its key was not in the store, with one row for
    that key added and the counter incremented. *)
Definition one_turn (flux_id : string)
    (body : cycle_state -> entry -> cycle_state) : Prop :=
  forall st e,
    (sent_this_run (body st e) = sent_this_run st
     /\ delivered (world (body st e)) = delivered (world st)
     /\ database (world (body st e)) = database (world st))
    \/
    (exists m now,
       sent_this_run (body st e) = sent_this_run st + 1
       /\ delivered (world (body st e)) = (delivered (world st) ++ [(e, m)])%list
       /\ db.already_sent (item_key e) (database (world st)) = false
       /\ database (world (body st e))
          = db.mark_as_sent now flux_id (item_key e) (database (world st))).

(** A sink that accepts every message, a collection that takes every
    update, a clock that ticks with the calls. *)
Definition accepting : outside :=
  {| send_to_discord := fun _ _ => Ok tt;
     update_one_raises := fun _ => false;
     current_timestamp := fun n => Z.of_nat n |}.

(** A conversion of times for the examples: the seconds since the start
    of the year. *)
Definition sample_mktime (t : struct_time) : result Z :=
  Ok (((tm_yday t * 24 + tm_hour t) * 60 + tm_min t) * 60 + tm_sec t).

(** An entry published on the given day of 2025 at noon. *)
Definition sample_entry (title link : string) (yday : Z) : entry :=
  {| entry_title := Some title;
     entry_link := Some link;
     entry_id := None;
     entry_summary := Some "";
     entry_description := None;
     published_parsed :=
       Some {| tm_year := 2025; tm_mon := 1; tm_mday := yday; tm_hour := 12;
               tm_min := 0; tm_sec := 0; tm_wday := 0; tm_yday := yday;
               tm_isdst := 0 |};
     updated_parsed := None |}.

(** The document of the feed of the examples in the collection. *)
Definition sample_document (totalSent : Z) : document :=
  {| _id := "f1";
     doc_base := sample_base 300 None None;
     doc_lastItem := None;
     doc_lastPubDate := None;
     doc_totalSent := totalSent;
     doc_newRssUrl := None |}.

(** Two more documents for the examples: a feed checked every hour and
    one with an interval of two milliards of seconds. *)
Definition hourly_document : document :=
  {| _id := "f2";
     doc_base := sample_base 3600 None None;
     doc_lastItem := None;
     doc_lastPubDate := None;
     doc_totalSent := 0;
     doc_newRssUrl := None |}.

Definition slow_document : document :=
  {| _id := "f3";
     doc_base := sample_base 2000000000 None None;
     doc_lastItem := None;
     doc_lastPubDate := None;
     doc_totalSent := 0;
     doc_newRssUrl := None |}.

(** A shared state with an empty store and the document of the feed. *)
Definition sample_shared (totalSent : Z) : shared :=
  {| database := db.init_db;
     collection := [sample_document totalSent];
     delivered := [];
     calls := O |}.

(** The entries a cycle of [check_flux] goes through: none when the
    feed could not be read, else the entries sorted, or as they came
    when the sort raised. *)
Definition cycle_entries (mktime : struct_time -> result Z)
    (feed : result (list entry)) : list entry :=
  match feed with
  | Raise _ => []
  | Ok feed_entries =>
      try_except (rss_checker._sort_items mktime feed_entries) (fun _ => feed_entries)
  end.

(** [st'] comes after [st] in a cycle that went through the entries [l]:
    the deliveries [d] and the rows [r] were added, the counter counted
    the deliveries, which were made in the order of [l], each for a key
    that the store did not hold and now holds under the feed's
    identifier; keys that the store held are still held and were not
    delivered again, and the UNIQUE constraint is kept. *)
Record extension (flux_id : string) (st st' : cycle_state) (l : list entry)
    (d : list (entry * message)) (r : list db.sent_item) : Prop := {
  ext_delivered : delivered (world st') = (delivered (world st) ++ d)%list;
  ext_rows :
    db.sent_items (database (world st'))
    = (db.sent_items (database (world st)) ++ r)%list;
  ext_sent : sent_this_run st' = sent_this_run st + Z.of_nat (List.length d);
  ext_sublist : sublist (fst <$> d) l;
  ext_keys : db.item_url <$> r = item_key <$> (fst <$> d);
  ext_flux : Forall (fun x => db.flux_id x = flux_id) r;
  ext_held :
    forall k, db.already_sent k (database (world st)) = true ->
      db.already_sent k (database (world st')) = true
      /\ k ∉ item_key <$> (fst <$> d);
  ext_unique :
    db.unique_urls (database (world st)) -> db.unique_urls (database (world st'))
}.

(** Six entries of the examples, one a day, the newest first. *)
Definition sample_entries : list entry :=
  [sample_entry "F" "https://example.org/f" 6;
   sample_entry "E" "https://example.org/e" 5;
   sample_entry "D" "https://example.org/d" 4;
   sample_entry "C" "https://example.org/c" 3;
   sample_entry "B" "https://example.org/b" 2;
   sample_entry "A" "https://example.org/a" 1].

(** One cycle of some feed: the feed as its job holds it, the time, what
    the fetch gave and what the outside does during the cycle. *)
Record cycle_input := {
  ci_flux : models.FluxInDB;
  ci_now : datetime.datetime;
  ci_feed : result (list entry);
  ci_outside : outside
}.

(** Cycles of [check_flux] run one after the other on the shared
    state. *)
Definition run_cycles (re_search : string -> string -> re_outcome)
    (mktime : struct_time -> result Z) (cycles : list cycle_input)
    (w : shared) : shared :=
  fold_left
    (fun w c =>
       rss_checker.check_flux re_search mktime (ci_outside c) (ci_flux c)
         (ci_now c) (ci_feed c) w)
    cycles w.

(** A second feed for the examples, with the same rules. *)
Definition other_flux : models.FluxInDB :=
  {| models.base := sample_base 300 None None;
     models.id := "f2";
     models.lastError := None;
     models.lastItem := None;
     models.lastPubDate := None;
     models.totalSent := 0 |}.

(** A cycle of the examples: the given feed sees the given entries at
    noon, the outside accepting everything. *)
Definition sample_cycle (flux : models.FluxInDB) (entries : list entry) : cycle_input :=
  {| ci_flux := flux; ci_now := at_time 12 0 0 0; ci_feed := Ok entries;
     ci_outside := accepting |}.

(** Two states of a cycle that differ by the collection at most. *)
Definition same_but_collection (st1 st2 : cycle_state) : Prop :=
  sent_this_run st1 = sent_this_run st2
  /\ seen_items st1 = seen_items st2
  /\ database (world st1) = database (world st2)
  /\ delivered (world st1) = delivered (world st2)
  /\ calls (world st1) = calls (world st2).

(** The counter stored for a feed: the [totalSent] of the first
    document with its identifier. *)
Definition stored_total (key : string) (c : list document) : option Z :=
  doc_totalSent <$> List.find (fun d => String.eqb (_id d) key) c.

(** A profile address: the marker of a platform, written as [sep0]
    followed by its last character [c], occurs once, after [pre]; a
    name follows it and ends with the address, at a slash or at a
    question mark. *)
Record profile_url (sep0 : string) (c : ascii) (pre name rest : string) : Prop := {
  name_no_slash : Py.contains "/" name = false;
  name_no_query : Py.contains "?" name = false;
  name_ends :
    rest = EmptyString \/ (exists r, rest = String "/" r) \/ (exists r, rest = String "?" r);
  marker_not_after : Py.contains (sep0 ++ String c EmptyString) (name ++ rest) = false;
  marker_not_before : Py.contains (sep0 ++ String c EmptyString) (pre ++ sep0) = false
}.

(** The address of a page: a scheme, [www.] or not, the domain and
    what follows it. *)
Definition page_url (scheme : string) (www : bool) (domain rest : string) : string :=
  scheme ++ (if www then "www." else "") ++ domain ++ rest.

(** A number below 100 written with two digits, and a time of the day
    written as [HH:MM]. *)
Definition two_digits (n : Z) : string :=
  String (ascii_of_nat (48 + Z.to_nat (n / 10)))
    (String (ascii_of_nat (48 + Z.to_nat (n mod 10))) EmptyString).

Definition format_HM (h m : Z) : string := two_digits h ++ ":" ++ two_digits m.

(** Whether the sort key of an entry is [k]. *)
Definition has_key (mktime : struct_time -> result Z) (k : Z) (e : entry) : bool :=
  match rss_checker.sort_key mktime e with
  | Ok k' => k' =? k
  | Raise _ => false
  end.

(** A conversion of times that raises, as [time.mktime] does with
    [OverflowError], for the years it cannot represent; here those after
    9999. *)
Definition bounded_mktime (t : struct_time) : result Z :=
  if 9999 <? tm_year t then Raise OtherException else sample_mktime t.

(** An entry with a publication date that cannot be converted. *)
Definition undatable_entry (title link : string) : entry :=
  {| entry_title := Some title;
     entry_link := Some link;
     entry_id := None;
     entry_summary := Some "";
     entry_description := None;
     published_parsed :=
       Some {| tm_year := 10000; tm_mon := 1; tm_mday := 1; tm_hour := 0;
               tm_min := 0; tm_sec := 0; tm_wday := 0; tm_yday := 1;
               tm_isdst := 0 |};
     updated_parsed := None |}.

(** A sink that refuses every message. *)
Definition refusing : outside :=
  {| send_to_discord := fun _ _ => Raise ConnectionError;
     update_one_raises := fun _ => false;
     current_timestamp := fun n => Z.of_nat n |}.

(** The title, the summary and the text of an entry, as the loop of a
    cycle computes them. *)
Definition entry_title_of (e : entry) : string :=
  Py.strip (Py.or_str (entry_title e) "Sans titre").

Definition entry_summary_of (e : entry) : string :=
  Py.strip (Py.or_str (entry_summary e) (default "" (entry_description e))).

Definition entry_text (e : entry) : string :=
  entry_title_of e ++ nl ++ entry_summary_of e.

(** The rules of a feed that an entry meets or not by itself, whatever
    was sent before: a key, no quiet hours, the language, the keywords,
    the patterns and the domains. *)
Definition passes_filters (re_search : string -> string -> re_outcome)
    (flux : models.FluxInDB) (now : datetime.datetime) (e : entry) : bool :=
  negb (String.eqb (item_key e) "")
  && negb (rss_checker.within_quiet_hours now (models.quietHoursStart flux)
             (models.quietHoursEnd flux))
  && rss_checker.language_filter (entry_text e) (models.language flux)
  && negb (Py.truthy_list (models.includeKeywords flux)
           && negb (rss_checker.match_keywords (entry_text e) (models.includeKeywords flux)))
  && negb (Py.truthy_list (models.excludeKeywords flux)
           && rss_checker.match_keywords (entry_text e) (models.excludeKeywords flux))
  && negb (Py.truthy_list (models.regexInclude flux)
           && negb (rss_checker.match_regex re_search (entry_text e)
                      (models.regexInclude flux) true))
  && negb (Py.truthy_list (models.regexExclude flux)
           && rss_checker.match_regex re_search (entry_text e)
                (models.regexExclude flux) true)
  && rss_checker.match_domains (item_key e) (Py.or_nil (models.domainWhitelist flux))
       (Py.or_nil (models.domainBlacklist flux)).

(** The feed of the examples with quiet hours from 22:00 to 06:00. *)
Definition quiet_flux : models.FluxInDB :=
  {| models.base :=
       {| models.name := Some "Example";
          models.category := Some "general";
          models.rssUrl := Some "https://example.org/feed.xml";
          models.sourceType := "web";
          models.discordTarget := "123456789012345678";
          models.interval := 300;
          models.mode := "direct";
          models.active := true;
          models.allowEmbeds := false;
          models.messageTemplate := None;
          models.mentionUserId := None;
          models.mentionRoleId := None;
          models.includeKeywords := Some [];
          models.excludeKeywords := Some [];
          models.regexInclude := Some [];
          models.regexExclude := Some [];
          models.domainWhitelist := Some [];
          models.domainBlacklist := Some [];
          models.language := None;
          models.dedupeWindowHours := Some 24;
          models.maxPerRun := Some 5;
          models.quietHoursStart := Some "22:00";
          models.quietHoursEnd := Some "06:00";
          models.dailyCap := None |};
     models.id := "f1";
     models.lastError := None;
     models.lastItem := None;
     models.lastPubDate := None;
     models.totalSent := 0 |}.

(** An outside that accepts every message and loses every update of
    the collection. *)
Definition losing_updates : outside :=
  {| send_to_discord := fun _ _ => Ok tt;
     update_one_raises := fun _ => true;
     current_timestamp := fun n => Z.of_nat n |}.

(** The mention that [build_message] puts before a message for an
    identifier that is set. *)
Definition mention (opening : string) (id : option string) : string :=
  if Py.truthy id then opening ++ default "" id ++ "> " else "".

(** The request of an update that sets the new address and nothing
    else. *)
Definition only_new_url (url : string) : fluxes.FluxUpdate :=
  {| fluxes.upd_name := None; fluxes.upd_newRssUrl := Some url;
     fluxes.upd_sourceType := None; fluxes.upd_discordTarget := None;
     fluxes.upd_interval := None; fluxes.upd_mode := None;
     fluxes.upd_active := None; fluxes.upd_allowEmbeds := None;
     fluxes.upd_messageTemplate := None; fluxes.upd_mentionUserId := None;
     fluxes.upd_mentionRoleId := None |}.

(** A text of ASCII characters. *)
Definition is_ascii_text (s : string) : bool :=
  forallb (fun c => (nat_of_ascii c <? 128)%nat) (list_ascii_of_string s).

(** ** Tactics *)

(** Splits the tests of the body of the loop, closing the branches where
    the entry is passed over. *)
Ltac pass_over :=
  repeat match goal with
         | |- context [if ?c then _ else _] =>
             destruct c eqn:?; [by left | ]
         end.

(** Destructs the tests that the two sides of a goal share. *)
Ltac same_tests :=
  repeat match goal with
         | |- context [if ?c then _ else _] => destruct c; try done
         end.

(** * Properties *)

Local Open Scope list_scope.

(** ** The store of dispatched items *)

Section DedupStore.

Implicit Types (d : db.database) (k f : string) (now : Z).

Lemma already_sent_elem k d :
  db.already_sent k d = true <-> k ∈ db.item_url <$> db.sent_items d.
Proof.
  unfold db.already_sent. rewrite existsb_exists, list_elem_of_fmap.
  split.
  - intros (r & Hin & Heq). apply String.eqb_eq in Heq.
    exists r. split; [congruence | by apply list_elem_of_In].
  - intros (r & -> & Hin). exists r.
    split; [by apply list_elem_of_In | apply String.eqb_refl].
Qed.

Lemma mark_as_sent_rows now f k d :
  db.sent_items (db.mark_as_sent now f k d) =
  if db.already_sent k d then db.sent_items d
  else db.sent_items d ++
       [{| db.id := db.sequence d + 1; db.flux_id := f;
           db.item_url := k; db.sent_at := now |}].
Proof. unfold db.mark_as_sent. by destruct (db.already_sent k d). Qed.

Lemma already_sent_mark now f k d :
  db.already_sent k (db.mark_as_sent now f k d) = true.
Proof.
  apply already_sent_elem. rewrite mark_as_sent_rows.
  destruct (db.already_sent k d) eqn:E.
  - by apply already_sent_elem.
  - rewrite fmap_app. apply elem_of_app. right. simpl. apply list_elem_of_here.
Qed.

Lemma already_sent_mono now f k k' d :
  db.already_sent k d = true ->
  db.already_sent k (db.mark_as_sent now f k' d) = true.
Proof.
  rewrite !already_sent_elem, mark_as_sent_rows. intros H.
  destruct (db.already_sent k' d); [done |].
  rewrite fmap_app. apply elem_of_app. by left.
Qed.

Lemma mark_as_sent_again now now' f f' k d :
  db.mark_as_sent now' f' k (db.mark_as_sent now f k d) = db.mark_as_sent now f k d.
Proof.
  unfold db.mark_as_sent at 1. by rewrite already_sent_mark.
Qed.

Lemma unique_urls_mark now f k d :
  db.unique_urls d -> db.unique_urls (db.mark_as_sent now f k d).
Proof.
  unfold db.unique_urls. rewrite mark_as_sent_rows. intros Hd.
  destruct (db.already_sent k d) eqn:E; [done |].
  rewrite fmap_app. apply NoDup_app. split; [done |]. split.
  - intros x Hx. simpl. intros Hk%list_elem_of_singleton. subst x.
    apply already_sent_elem in Hx. congruence.
  - simpl. apply NoDup_singleton.
Qed.

Lemma unique_urls_init : db.unique_urls db.init_db.
Proof. apply NoDup_nil_2. Qed.

Lemma records_for_absent k d :
  db.already_sent k d = false -> db.records_for k d = [].
Proof.
  unfold db.already_sent, db.records_for.
  induction (db.sent_items d) as [| r rows IH]; simpl; [done |].
  destruct (String.eqb (db.item_url r) k); simpl; [done | exact IH].
Qed.

Lemma records_for_unique k d :
  db.unique_urls d -> (List.length (db.records_for k d) <= 1)%nat.
Proof.
  unfold db.unique_urls, db.records_for.
  induction (db.sent_items d) as [| r rows IH]; simpl; [lia |].
  intros [Hr Hrows]%NoDup_cons.
  destruct (String.eqb (db.item_url r) k) eqn:E; [| by apply IH].
  apply String.eqb_eq in E. simpl.
  assert (List.filter (fun r0 => String.eqb (db.item_url r0) k) rows = []) as ->; [| simpl; lia].
  clear IH Hrows. induction rows as [| r' rows IH]; simpl; [done |].
  destruct (String.eqb (db.item_url r') k) eqn:E'.
  - apply String.eqb_eq in E'. exfalso. apply Hr. rewrite E, <- E'.
    simpl. apply list_elem_of_here.
  - apply IH. intros H. apply Hr. simpl. by apply list_elem_of_further.
Qed.

Lemma records_for_present k d :
  db.already_sent k d = true -> (1 <= List.length (db.records_for k d))%nat.
Proof.
  unfold db.already_sent, db.records_for.
  induction (db.sent_items d) as [| r rows IH]; simpl; [done |].
  destruct (String.eqb (db.item_url r) k); simpl; [lia | exact IH].
Qed.

(** C1. After [mark_as_sent] with a key, [already_sent] answers true for
    that key; a second [mark_as_sent] with the same key (by whatever
    feed, at whatever time) changes nothing, and a store that satisfies
    the UNIQUE constraint holds exactly one record for the key. *)
Theorem mark_as_sent_then_already_sent (now now' : Z) (f f' k : string)
    (d : db.database) (Hd : db.unique_urls d) :
  db.already_sent k (db.mark_as_sent now f k d) = true
  /\ db.mark_as_sent now' f' k (db.mark_as_sent now f k d) = db.mark_as_sent now f k d
  /\ List.length
       (db.records_for k (db.mark_as_sent now' f' k (db.mark_as_sent now f k d))) = 1%nat
  /\ db.unique_urls (db.mark_as_sent now' f' k (db.mark_as_sent now f k d)).
Proof.
  split; [apply already_sent_mark |].
  split; [apply mark_as_sent_again |].
  rewrite mark_as_sent_again.
  pose proof (unique_urls_mark now f k d Hd) as Hu.
  split; [| exact Hu].
  pose proof (records_for_unique k _ Hu).
  pose proof (records_for_present k _ (already_sent_mark now f k d)).
  lia.
Qed.

Lemma mark_as_sent_then_already_sent_witness :
  db.already_sent "https://example.org/a"
    (db.mark_as_sent 10 "feed-1" "https://example.org/a" db.init_db) = true
  /\ db.mark_as_sent 20 "feed-2" "https://example.org/a"
       (db.mark_as_sent 10 "feed-1" "https://example.org/a" db.init_db)
     = db.mark_as_sent 10 "feed-1" "https://example.org/a" db.init_db
  /\ List.length
       (db.records_for "https://example.org/a"
          (db.mark_as_sent 20 "feed-2" "https://example.org/a"
             (db.mark_as_sent 10 "feed-1" "https://example.org/a" db.init_db))) = 1%nat
  /\ db.unique_urls
       (db.mark_as_sent 20 "feed-2" "https://example.org/a"
          (db.mark_as_sent 10 "feed-1" "https://example.org/a" db.init_db)).
Proof.
  apply (mark_as_sent_then_already_sent 10 20 "feed-1" "feed-2"
           "https://example.org/a" db.init_db).
  apply (bool_decide_unpack _). vm_compute. exact I.
Defined.

End DedupStore.

(** ** The source resolver *)

Section Resolver.

Variable settings : config.Settings.

Lemma resolve_string (u source_type : string) :
  exists r, URLResolver.resolve settings (Some u) source_type = Some r.
Proof.
  unfold URLResolver.resolve, URLResolver.resolve_body.
  repeat match goal with
         | |- context [if ?c then _ else _] => destruct c
         end;
    unfold URLResolver._resolve_youtube, URLResolver._resolve_facebook,
      URLResolver._resolve_instagram, URLResolver._resolve_tiktok,
      URLResolver.py_in; simpl;
    repeat match goal with
           | |- context [if ?c then _ else _] => destruct c
           end; simpl; eauto.
Qed.

Lemma resolve_other_kind (url : option string) (source_type : string) :
  source_type <> "youtube" -> source_type <> "facebook" ->
  source_type <> "instagram" -> source_type <> "tiktok" ->
  URLResolver.resolve settings url source_type = url.
Proof.
  intros H1 H2 H3 H4.
  unfold URLResolver.resolve, URLResolver.resolve_body.
  apply String.eqb_neq in H1, H2, H3, H4.
  by rewrite H1, H2, H3, H4.
Qed.

Lemma resolve_on_exception (url : option string) (source_type : string) (e : exn) :
  URLResolver.resolve_body settings url source_type = Raise e ->
  URLResolver.resolve settings url source_type = url.
Proof. unfold URLResolver.resolve. by intros ->. Qed.

(** C9. [resolve] always returns: its handler catches every exception of
    its body.  A string gives a string; a kind other than the four
    social kinds gives the input back unchanged; and when the body
    raises, the input is given back. *)
Theorem resolve_never_fails (url : option string) (source_type : string) :
  (forall u, url = Some u ->
     exists r, URLResolver.resolve settings url source_type = Some r)
  /\ (source_type <> "youtube" -> source_type <> "facebook" ->
      source_type <> "instagram" -> source_type <> "tiktok" ->
      URLResolver.resolve settings url source_type = url)
  /\ (forall e, URLResolver.resolve_body settings url source_type = Raise e ->
        URLResolver.resolve settings url source_type = url).
Proof.
  split; [intros u ->; apply resolve_string |].
  split; [apply resolve_other_kind | apply resolve_on_exception].
Qed.

End Resolver.

Lemma resolve_never_fails_witness :
  URLResolver.resolve config.default_settings (Some "https://example.org/feed.xml") "rss"
    = Some "https://example.org/feed.xml"
  /\ URLResolver.resolve config.default_settings None "youtube" = None.
Proof.
  split.
  - apply (proj1 (proj2 (resolve_never_fails config.default_settings
                           (Some "https://example.org/feed.xml") "rss")));
      intros H; discriminate H.
  - apply (proj2 (proj2 (resolve_never_fails config.default_settings None "youtube"))
             TypeError).
    reflexivity.
Defined.

(** C8. The three resolutions of the specification: a channel URL, a
    handle URL (a feed query by user name) and an Instagram profile
    (a path under the bridging base, whose trailing slashes are removed
    first; the default base has none). *)
Theorem resolve_examples (settings : config.Settings) :
  URLResolver.resolve settings (Some "https://youtube.com/channel/UCabc") "youtube"
    = Some "https://www.youtube.com/feeds/videos.xml?channel_id=UCabc"
  /\ URLResolver.resolve settings (Some "https://youtube.com/@name") "youtube"
    = Some "https://www.youtube.com/feeds/videos.xml?user=name"
  /\ URLResolver.resolve settings (Some "https://instagram.com/alice") "instagram"
    = Some (Py.rstrip_slash (config.rsshub_base settings) ++ "/instagram/user/alice")%string
  /\ URLResolver.resolve config.default_settings (Some "https://instagram.com/alice")
       "instagram"
    = Some (config.rsshub_base config.default_settings ++ "/instagram/user/alice")%string.
Proof. repeat split; reflexivity. Qed.

(** ** The regular-expression filters *)

Section Regex.

Variable re_search : string -> string -> re_outcome.

Lemma service_match_regex_eq (text : string) (patterns : option (list string)) :
  RSSService.match_regex re_search text patterns
  = rss_checker.match_regex re_search text patterns true.
Proof. reflexivity. Qed.

Lemma search_any_match (text : string) (patterns : list string) :
  (exists pat, pat ∈ patterns /\ re_search pat text = ReMatch) ->
  rss_checker.search_any re_search text patterns <> Ok false.
Proof.
  induction patterns as [| p ps IH]; intros (pat & Hin & Hm).
  - by apply elem_of_nil in Hin.
  - simpl. apply elem_of_cons in Hin as [<- | Hin].
    + by rewrite Hm.
    + destruct (re_search p text); [done | | done]. apply IH. eauto.
Qed.

(** A pattern of the exclude list that matches has the item rejected,
    wherever it stands in the list. *)
Lemma exclude_regex_match_rejects (text : string) (patterns : list string) :
  (exists pat, pat ∈ patterns /\ re_search pat text = ReMatch) ->
  Py.truthy_list (Some patterns)
    && rss_checker.match_regex re_search text (Some patterns) true = true.
Proof.
  intros H. pose proof (search_any_match text patterns H) as Hne.
  destruct H as (pat & Hin & _).
  destruct patterns as [| p ps]; [by apply elem_of_nil in Hin |].
  unfold rss_checker.match_regex. cbn [Py.truthy_list negb andb Py.or_nil].
  destruct (rss_checker.search_any re_search text (p :: ps)) as [[] | e]; try done.
Qed.

(** C3. The code at the failing input: when the evaluation of a
    non-empty exclude list raises [re.error], [match_regex] answers
    true, in the checker (called with [expect=True]) and in the
    service, so the guard of the [continue] holds and the item is
    rejected, where the specification asks that it is not. *)
Theorem exclude_regex_error_rejects (text : string) (patterns : option (list string)) :
  Py.truthy_list patterns = true ->
  rss_checker.search_any re_search text (Py.or_nil patterns) = Raise ReError ->
  Py.truthy_list patterns && rss_checker.match_regex re_search text patterns true = true
  /\ Py.truthy_list patterns && RSSService.match_regex re_search text patterns = true.
Proof.
  intros Ht Herr. rewrite service_match_regex_eq.
  unfold rss_checker.match_regex. rewrite Ht, Herr. by split.
Qed.

End Regex.

Lemma exclude_regex_error_rejects_witness :
  Py.truthy_list (Some ["("])
    && rss_checker.match_regex literal_search "hello" (Some ["("]) true = true
  /\ Py.truthy_list (Some ["("])
     && RSSService.match_regex literal_search "hello" (Some ["("]) = true.
Proof.
  apply (exclude_regex_error_rejects literal_search "hello" (Some ["("]));
    reflexivity.
Defined.

(** ** Quiet hours *)

Section QuietHours.

Implicit Types (now : datetime.datetime) (start : option string).

Lemma strptime_HM_empty : datetime.strptime_HM "" = Raise ValueError.
Proof. reflexivity. Qed.

Lemma service_quiet_hours_eq now start (end_ : option string) :
  RSSService.is_in_quiet_hours now start end_
  = rss_checker.within_quiet_hours now start end_.
Proof. reflexivity. Qed.

(** X27. A missing or empty bound, or one that does not parse,
    disables the quiet hours: the filter answers that the moment is not
    quiet, whatever the other bound and the time. *)
Lemma within_quiet_hours_disabled now start (end_ : option string) :
  start = None \/ end_ = None
  \/ (exists s, start = Some s /\ datetime.strptime_HM s = Raise ValueError)
  \/ (exists e, end_ = Some e /\ datetime.strptime_HM e = Raise ValueError) ->
  rss_checker.within_quiet_hours now start end_ = false.
Proof.
  unfold rss_checker.within_quiet_hours.
  intros [-> | [-> | [(s & -> & Hs) | (e & -> & He)]]].
  - reflexivity.
  - by rewrite orb_true_r.
  - destruct (negb (Py.truthy (Some s)) || negb (Py.truthy end_)); [done |].
    simpl. by rewrite Hs.
  - destruct (negb (Py.truthy start) || negb (Py.truthy (Some e))); [done |].
    simpl. rewrite He. by destruct (datetime.strptime_HM (default "" start)).
Qed.

Lemma digit_val_range (lo hi : nat) (c : ascii) :
  datetime.in_range lo hi c = true ->
  Z.of_nat lo - 48 <= datetime.digit_val c <= Z.of_nat hi - 48.
Proof.
  unfold datetime.in_range, datetime.digit_val.
  intros [H1 H2]%andb_true_iff. apply Nat.leb_le in H1, H2. lia.
Qed.

Lemma digit_val_digit (c : ascii) :
  datetime.is_digit c = true -> 0 <= datetime.digit_val c <= 9.
Proof. intros H. apply (digit_val_range 48 57 c H). Qed.

Lemma parse_H_range (s r : string) (h : Z) :
  datetime.parse_H s = Some (h, r) -> 0 <= h < 24.
Proof.
  unfold datetime.parse_H.
  destruct s as [| a [| b s]]; [done | |].
  - destruct (datetime.is_digit a) eqn:Ha; [| done]. intros [= <- _].
    apply digit_val_digit in Ha. lia.
  - destruct ((Ascii.eqb a "2" && datetime.in_range 48 51 b)
              || (datetime.in_range 48 49 a && datetime.is_digit b)) eqn:Hab.
    + intros [= <- _]. apply orb_true_iff in Hab as [Hab | Hab];
        apply andb_true_iff in Hab as [H1 H2].
      * apply Ascii.eqb_eq in H1. subst a. apply (digit_val_range 48 51) in H2.
        change (datetime.digit_val "2") with 2. simpl in H2. lia.
      * apply (digit_val_range 48 49) in H1. apply digit_val_digit in H2.
        simpl in H1. lia.
    + destruct (datetime.is_digit a) eqn:Ha; [| done]. intros [= <- _].
      apply digit_val_digit in Ha. lia.
Qed.

Lemma parse_M_range (s r : string) (m : Z) :
  datetime.parse_M s = Some (m, r) -> 0 <= m < 60.
Proof.
  unfold datetime.parse_M.
  destruct s as [| a [| b s]]; [done | |].
  - destruct (datetime.is_digit a) eqn:Ha; [| done]. intros [= <- _].
    apply digit_val_digit in Ha. lia.
  - destruct (datetime.in_range 48 53 a && datetime.is_digit b) eqn:Hab.
    + intros [= <- _]. apply andb_true_iff in Hab as [H1 H2].
      apply (digit_val_range 48 53) in H1. apply digit_val_digit in H2.
      simpl in H1. lia.
    + destruct (datetime.is_digit a) eqn:Ha; [| done]. intros [= <- _].
      apply digit_val_digit in Ha. lia.
Qed.

(** What [strptime] gives for the format [%H:%M] is a time of the day,
    a whole minute. *)
Lemma strptime_HM_valid (s : string) (t : datetime.time) :
  datetime.strptime_HM s = Ok t ->
  valid_time t /\ datetime.second t = 0 /\ datetime.microsecond t = 0.
Proof.
  unfold datetime.strptime_HM.
  destruct (datetime.parse_H s) as [[h r] |] eqn:Hh; [| done].
  destruct r as [| c r]; [done |].
  destruct (Ascii.eqb_spec c ":") as [-> |]; [| by destruct c as [[] [] [] [] [] [] [] []]].
  destruct (datetime.parse_M r) as [[m r'] |] eqn:Hm; [| done].
  destruct r'; [| done]. intros [= <-].
  apply parse_H_range in Hh. apply parse_M_range in Hm.
  unfold valid_time. simpl. lia.
Qed.

(** The order of the times of the day is the order of their
    microseconds. *)
Lemma time_compare_microseconds (a b : datetime.time) :
  valid_time a -> valid_time b ->
  datetime.time_compare a b = (microseconds_of a ?= microseconds_of b).
Proof.
  unfold valid_time, datetime.time_compare, microseconds_of.
  intros (? & ? & ? & ?) (? & ? & ? & ?).
  symmetry.
  destruct (Z.compare_spec (datetime.hour a) (datetime.hour b));
    [| apply Z.compare_lt_iff; lia | apply Z.compare_gt_iff; lia].
  destruct (Z.compare_spec (datetime.minute a) (datetime.minute b));
    [| apply Z.compare_lt_iff; lia | apply Z.compare_gt_iff; lia].
  destruct (Z.compare_spec (datetime.second a) (datetime.second b));
    [| apply Z.compare_lt_iff; lia | apply Z.compare_gt_iff; lia].
  destruct (Z.compare_spec (datetime.microsecond a) (datetime.microsecond b));
    [apply Z.compare_eq_iff; lia | apply Z.compare_lt_iff; lia
    | apply Z.compare_gt_iff; lia].
Qed.

Lemma time_lt_microseconds (a b : datetime.time) :
  valid_time a -> valid_time b ->
  datetime.time_lt a b = true <-> microseconds_of a < microseconds_of b.
Proof.
  intros Ha Hb. unfold datetime.time_lt. rewrite (time_compare_microseconds a b Ha Hb).
  destruct (Z.compare_spec (microseconds_of a) (microseconds_of b)); split; (done || lia).
Qed.

Lemma time_le_microseconds (a b : datetime.time) :
  valid_time a -> valid_time b ->
  datetime.time_le a b = true <-> microseconds_of a <= microseconds_of b.
Proof.
  intros Ha Hb. unfold datetime.time_le. rewrite (time_compare_microseconds a b Ha Hb).
  destruct (Z.compare_spec (microseconds_of a) (microseconds_of b)); split; (done || lia).
Qed.

(** C4, as the code has it. The predicate rejects exactly when both
    bounds parse with the format [%H:%M] and the local time lies in the
    closed window between them, the window wrapping past midnight when
    the start is not before the end; so with 22:00 and 06:00 it rejects
    at 23:30 and accepts at 12:00. The service's predicate is the same
    function. *)
Theorem within_quiet_hours_closed_window now start (end_ : option string) :
  valid_time (datetime.time_of_day now) ->
  (rss_checker.within_quiet_hours now start end_ = true <->
   exists s e st en,
     start = Some s /\ end_ = Some e
     /\ datetime.strptime_HM s = Ok st /\ datetime.strptime_HM e = Ok en
     /\ closed_window st en (datetime.time_of_day now))
  /\ RSSService.is_in_quiet_hours now start end_
     = rss_checker.within_quiet_hours now start end_
  /\ rss_checker.within_quiet_hours (at_time 23 30 0 0) (Some "22:00") (Some "06:00") = true
  /\ rss_checker.within_quiet_hours (at_time 12 0 0 0) (Some "22:00") (Some "06:00") = false.
Proof.
  intros Hnow. split; [| by repeat split].
  assert (forall st en, valid_time st -> valid_time en ->
            (if datetime.time_lt st en
             then datetime.time_le st (datetime.time_of_day now)
                  && datetime.time_le (datetime.time_of_day now) en
             else datetime.time_le st (datetime.time_of_day now)
                  || datetime.time_le (datetime.time_of_day now) en) = true
            <-> closed_window st en (datetime.time_of_day now)) as Hwin.
  { intros st en Hst Hen. unfold closed_window. cbv zeta.
    pose proof (time_lt_microseconds st en Hst Hen) as Hlt.
    pose proof (time_le_microseconds st _ Hst Hnow) as Hle1.
    pose proof (time_le_microseconds _ en Hnow Hen) as Hle2.
    destruct (datetime.time_lt st en).
    - rewrite andb_true_iff, Hle1, Hle2. split; [intros; left; lia |].
      intros [? | [? _]]; [lia |]. assert (true = true) as Ht by done.
      apply Hlt in Ht. lia.
    - rewrite orb_true_iff, Hle1, Hle2. split.
      + intros H. right. split; [| done].
        destruct (Z.lt_ge_cases (microseconds_of st) (microseconds_of en)) as [Hc | Hc];
          [by apply Hlt in Hc | lia].
      + intros [[Hc _] | [_ H]]; [by apply Hlt in Hc | done]. }
  unfold rss_checker.within_quiet_hours. split.
  - destruct start as [s |]; [| done]. destruct end_ as [e |]; [| by rewrite orb_true_r].
    destruct (negb (Py.truthy (Some s)) || negb (Py.truthy (Some e))); [done |].
    simpl. destruct (datetime.strptime_HM s) as [st |] eqn:Hs; [| done].
    destruct (datetime.strptime_HM e) as [en |] eqn:He; [| done].
    intros H. exists s, e, st, en. repeat split; try done.
    apply Hwin; [by apply (strptime_HM_valid s) | by apply (strptime_HM_valid e) | done].
  - intros (s & e & st & en & -> & -> & Hs & He & Hw).
    assert (Py.truthy (Some s) = true) as ->.
    { simpl. destruct (String.eqb_spec s ""); [subst; by rewrite strptime_HM_empty in Hs | done]. }
    assert (Py.truthy (Some e) = true) as ->.
    { simpl. destruct (String.eqb_spec e ""); [subst; by rewrite strptime_HM_empty in He | done]. }
    simpl. rewrite Hs, He.
    apply Hwin; [by apply (strptime_HM_valid s) | by apply (strptime_HM_valid e) | done].
Qed.

End QuietHours.

Lemma within_quiet_hours_closed_window_witness :
  rss_checker.within_quiet_hours (at_time 5 59 59 999999) (Some "22:00") (Some "06:00") = true.
Proof.
  assert (valid_time (datetime.time_of_day (at_time 5 59 59 999999))) as Hv.
  { unfold valid_time. simpl. lia. }
  apply (proj2 (proj1 (within_quiet_hours_closed_window
                         (at_time 5 59 59 999999) (Some "22:00") (Some "06:00") Hv))).
  exists "22:00", "06:00",
    {| datetime.hour := 22; datetime.minute := 0; datetime.second := 0;
       datetime.microsecond := 0 |},
    {| datetime.hour := 6; datetime.minute := 0; datetime.second := 0;
       datetime.microsecond := 0 |}.
  repeat split; try reflexivity.
  unfold closed_window, microseconds_of. simpl. lia.
Defined.

(** C4 as stated fails at the end of the window: with 22:00 and 06:00
    the code rejects at 06:00:00 exactly, a time outside the half-open
    window; and with equal bounds it rejects at any time, where the
    half-open window is empty. *)
Lemma quiet_hours_not_half_open :
  datetime.strptime_HM "22:00"
    = Ok {| datetime.hour := 22; datetime.minute := 0; datetime.second := 0;
            datetime.microsecond := 0 |}
  /\ datetime.strptime_HM "06:00"
    = Ok {| datetime.hour := 6; datetime.minute := 0; datetime.second := 0;
            datetime.microsecond := 0 |}
  /\ rss_checker.within_quiet_hours (at_time 6 0 0 0) (Some "22:00") (Some "06:00") = true
  /\ ~ half_open_window
       {| datetime.hour := 22; datetime.minute := 0; datetime.second := 0;
          datetime.microsecond := 0 |}
       {| datetime.hour := 6; datetime.minute := 0; datetime.second := 0;
          datetime.microsecond := 0 |}
       (datetime.time_of_day (at_time 6 0 0 0))
  /\ rss_checker.within_quiet_hours (at_time 12 0 0 0) (Some "06:00") (Some "06:00") = true
  /\ ~ half_open_window
       {| datetime.hour := 6; datetime.minute := 0; datetime.second := 0;
          datetime.microsecond := 0 |}
       {| datetime.hour := 6; datetime.minute := 0; datetime.second := 0;
          datetime.microsecond := 0 |}
       (datetime.time_of_day (at_time 12 0 0 0)).
Proof.
  repeat split; try reflexivity;
    unfold half_open_window, microseconds_of; simpl; lia.
Qed.

(** ** The scheduler *)

Section Scheduler.

Import SchedulerService.

Variable settings : config.Settings.
Variable trigger_raises : Z -> bool.

(** The interval a feed asks for: its own, or the default when it has
    none (a zero). *)
Lemma interval_seconds_cases (aggressive : bool) (flux : models.FluxInDB) :
  interval_seconds settings aggressive flux =
  if aggressive then 10
  else if models.interval flux =? 0 then config.default_check_interval settings
  else models.interval flux.
Proof. reflexivity. Qed.

Lemma interval_seconds_effective (aggressive : bool) (flux : models.FluxInDB) :
  interval_seconds settings aggressive flux = effective_interval settings aggressive flux.
Proof. reflexivity. Qed.

(** [schedule_flux] on a scheduler that exists: the job of the feed is
    replaced, or removed when the trigger cannot be built. *)
Lemma schedule_flux_initialised (self : SchedulerService) (flux : models.FluxInDB)
    (jobs : gmap string job) :
  scheduler self = Some jobs ->
  schedule_flux settings trigger_raises self flux =
  if trigger_raises (interval_seconds settings (aggressive_mode self) flux)
  then ({| scheduler := Some (delete ("flux_" ++ models.id flux)%string jobs);
           aggressive_mode := aggressive_mode self;
           collection_set := collection_set self |},
        Raise OverflowError)
  else ({| scheduler :=
             Some (<[("flux_" ++ models.id flux)%string :=
                      {| trigger_seconds :=
                           interval_seconds settings (aggressive_mode self) flux;
                         job_args := flux |}]> jobs);
           aggressive_mode := aggressive_mode self;
           collection_set := collection_set self |},
        Ok {| info_job_id := ("flux_" ++ models.id flux)%string;
              info_interval := interval_seconds settings (aggressive_mode self) flux |}).
Proof.
  intros Hs. unfold schedule_flux. rewrite Hs.
  destruct (jobs !! _) eqn:E; destruct (trigger_raises _); try done.
  - by rewrite insert_delete_eq.
  - by rewrite delete_id.
Qed.

Lemma job_id_inj (a b : string) : ("flux_" ++ a)%string = ("flux_" ++ b)%string -> a = b.
Proof. intros H. by injection H. Qed.

(** What the loop of [reload_all_schedules] leaves: the count of the
    documents whose trigger could be built, an error for each of the
    others, the jobs of the other identifiers as they were, and for a
    document whose identifier is not drawn again after it, its job,
    made from its fields, or none when its trigger could not be
    built. *)
Lemma reload_loop_exact (uuid4 : nat -> string) (cursor : list document) :
  forall (n : nat) (self : SchedulerService) (acc : reload_info) (jobs : gmap string job),
    scheduler self = Some jobs ->
    let raises (d : document) :=
      trigger_raises (effective_interval settings (aggressive_mode self) (doc_base d)) in
    exists jobs',
      reload_loop settings trigger_raises uuid4 n cursor self acc =
      ({| scheduler := Some jobs';
          aggressive_mode := aggressive_mode self;
          collection_set := collection_set self |},
       {| scheduled_count :=
            scheduled_count acc
            + Z.of_nat (List.length (List.filter (fun d => negb (raises d)) cursor));
          errors :=
            errors acc ++ ((fun d => (_id d, OverflowError)) <$> List.filter raises cursor) |})
      /\ (forall id,
            (forall i, (i < List.length cursor)%nat ->
               id <> ("flux_" ++ uuid4 (n + i)%nat)%string) ->
            jobs' !! id = jobs !! id)
      /\ (forall i d, cursor !! i = Some d ->
            (forall k, (i < k < List.length cursor)%nat ->
               uuid4 (n + k)%nat <> uuid4 (n + i)%nat) ->
            jobs' !! ("flux_" ++ uuid4 (n + i)%nat)%string
            = if raises d then None
              else Some {| trigger_seconds :=
                             effective_interval settings (aggressive_mode self) (doc_base d);
                           job_args := FluxInDB_of_document (uuid4 (n + i)%nat) d |})
      /\ (forall id j, jobs' !! id = Some j ->
            jobs !! id = Some j
            \/ exists i d, cursor !! i = Some d /\ raises d = false
                 /\ id = ("flux_" ++ uuid4 (n + i)%nat)%string
                 /\ j = {| trigger_seconds :=
                             effective_interval settings (aggressive_mode self) (doc_base d);
                           job_args := FluxInDB_of_document (uuid4 (n + i)%nat) d |}).
Proof.
  induction cursor as [| d rest IH]; intros n self acc jobs Hs; cbv zeta.
  - exists jobs. cbn. split.
    + destruct self, acc; cbn in *. subst. by rewrite Z.add_0_r, app_nil_r.
    + split; [done |]. split; [intros i d' H; by rewrite lookup_nil in H |].
      intros id j Hj. by left.
  - cbn [reload_loop].
    rewrite (schedule_flux_initialised self _ jobs Hs).
    change (interval_seconds settings (aggressive_mode self)
              (FluxInDB_of_document (uuid4 n) d)) with
      (effective_interval settings (aggressive_mode self) (doc_base d)).
    change (models.id (FluxInDB_of_document (uuid4 n) d)) with (uuid4 n).
    cbn [List.filter].
    destruct (trigger_raises (effective_interval settings (aggressive_mode self) (doc_base d)))
      eqn:Hd; cbn [negb].
    + set (jobs1 := delete ("flux_" ++ uuid4 n)%string jobs).
      destruct (IH (S n)
                  {| scheduler := Some jobs1; aggressive_mode := aggressive_mode self;
                     collection_set := collection_set self |}
                  {| scheduled_count := scheduled_count acc;
                     errors := errors acc ++ [(_id d, OverflowError)] |}
                  jobs1 eq_refl) as (jobs' & Heq & Hother & Hmine & Hfrom).
      cbv zeta in Heq, Hmine, Hfrom.
      cbn [aggressive_mode collection_set scheduled_count errors] in Heq, Hmine, Hfrom.
      exists jobs'. split.
      { rewrite Heq. f_equal. f_equal. by rewrite fmap_cons, <- app_assoc. }
      split; [| split].
      * intros id Hid. rewrite Hother.
        -- apply lookup_delete_ne. specialize (Hid O ltac:(cbn; lia)).
           rewrite Nat.add_0_r in Hid. done.
        -- intros i Hi. replace (S n + i)%nat with (n + S i)%nat by lia.
           apply Hid. cbn. lia.
      * intros [| i] d' Hi Hfresh.
        -- injection Hi as <-. rewrite Nat.add_0_r, Hd. rewrite Hother.
           ++ apply lookup_delete_eq.
           ++ intros i Hi Heq'. apply job_id_inj in Heq'.
              apply (Hfresh (S i)); [cbn; lia |].
              rewrite Nat.add_0_r. replace (n + S i)%nat with (S n + i)%nat by lia. done.
        -- replace (n + S i)%nat with (S n + i)%nat by lia. apply (Hmine i d' Hi).
           intros k Hk. replace (S n + k)%nat with (n + S k)%nat by lia.
           replace (S n + i)%nat with (n + S i)%nat by lia.
           apply Hfresh. cbn. lia.
      * intros id j Hj. destruct (Hfrom id j Hj) as [H1 | (i & d' & Hi & Hr & -> & ->)].
        -- left. unfold jobs1 in H1. by apply lookup_delete_Some in H1 as [_ H1].
        -- right. exists (S i), d'. replace (n + S i)%nat with (S n + i)%nat by lia.
           by repeat split.
    + set (job0 := {| trigger_seconds :=
                        effective_interval settings (aggressive_mode self) (doc_base d);
                      job_args := FluxInDB_of_document (uuid4 n) d |}).
      set (jobs1 := <[("flux_" ++ uuid4 n)%string := job0]> jobs).
      destruct (IH (S n)
                  {| scheduler := Some jobs1; aggressive_mode := aggressive_mode self;
                     collection_set := collection_set self |}
                  {| scheduled_count := scheduled_count acc + 1; errors := errors acc |}
                  jobs1 eq_refl) as (jobs' & Heq & Hother & Hmine & Hfrom).
      cbv zeta in Heq, Hmine, Hfrom.
      cbn [aggressive_mode collection_set scheduled_count errors] in Heq, Hmine, Hfrom.
      exists jobs'. split.
      { rewrite Heq. f_equal. f_equal. cbn [List.length]. lia. }
      split; [| split].
      * intros id Hid. rewrite Hother.
        -- apply lookup_insert_ne. specialize (Hid O ltac:(cbn; lia)).
           rewrite Nat.add_0_r in Hid. done.
        -- intros i Hi. replace (S n + i)%nat with (n + S i)%nat by lia.
           apply Hid. cbn. lia.
      * intros [| i] d' Hi Hfresh.
        -- injection Hi as <-. rewrite Nat.add_0_r, Hd. rewrite Hother.
           ++ apply lookup_insert_eq.
           ++ intros i Hi Heq'. apply job_id_inj in Heq'.
              apply (Hfresh (S i)); [cbn; lia |].
              rewrite Nat.add_0_r. replace (n + S i)%nat with (S n + i)%nat by lia. done.
        -- replace (n + S i)%nat with (S n + i)%nat by lia. apply (Hmine i d' Hi).
           intros k Hk. replace (S n + k)%nat with (n + S k)%nat by lia.
           replace (S n + i)%nat with (n + S i)%nat by lia.
           apply Hfresh. cbn. lia.
      * intros id j Hj. destruct (Hfrom id j Hj) as [H1 | (i & d' & Hi & Hr & -> & ->)].
        -- unfold jobs1 in H1. apply lookup_insert_Some in H1 as [[<- <-] | [_ H1]].
           ++ right. exists O, d. rewrite Nat.add_0_r. by repeat split.
           ++ by left.
        -- right. exists (S i), d'. replace (n + S i)%nat with (S n + i)%nat by lia.
           by repeat split.
Qed.

(** Identifiers that are all different are not drawn again. *)
Lemma drawn_once (uuid4 : nat -> string) (n i k : nat) :
  NoDup (uuid4 <$> seq 0 n) -> (i < k < n)%nat -> uuid4 k <> uuid4 i.
Proof.
  intros Hnd Hik Heq.
  assert (k = i) as Hki; [| lia].
  apply (NoDup_lookup _ k i (uuid4 k) Hnd).
  - rewrite list_lookup_fmap, lookup_seq_lt; [done | lia].
  - rewrite list_lookup_fmap, lookup_seq_lt; [by rewrite Heq | lia].
Qed.

(** C7. With the flag set, [schedule_flux] installs a timer of 10
    seconds whatever the interval of the feed; with the flag cleared the
    timer has the feed's interval, or the default when the feed has none
    (a zero); when the platform cannot build a trigger of that length,
    no timer is installed and the call raises. [set_aggressive_mode]
    stores the flag and reloads: the identifiers drawn being all
    different, every active document of the collection gets a job whose
    interval is the one that the new flag commands for the interval
    stored in that document, 10 seconds or its own, and whose feed
    object has the fields of that document; the documents whose trigger
    cannot be built get none and are not counted; and no other job is
    left. *)
Theorem aggressive_mode_intervals (uuid4 : nat -> string) (docs : list document)
    (self : SchedulerService) (jobs : gmap string job) (flux : models.FluxInDB)
    (enabled : bool) :
  scheduler self = Some jobs ->
  collection_set self = true ->
  NoDup (uuid4 <$> seq 0 (List.length
                            (List.filter (fun d => models.active (doc_base d)) docs))) ->
  ((trigger_raises (effective_interval settings (aggressive_mode self) flux) = false ->
    exists self' jobs',
      schedule_flux settings trigger_raises self flux =
        (self', Ok {| info_job_id := ("flux_" ++ models.id flux)%string;
                      info_interval :=
                        if aggressive_mode self then 10
                        else if models.interval flux =? 0
                             then config.default_check_interval settings
                             else models.interval flux |})
      /\ scheduler self' = Some jobs'
      /\ jobs' !! ("flux_" ++ models.id flux)%string
         = Some {| trigger_seconds :=
                     if aggressive_mode self then 10
                     else if models.interval flux =? 0
                          then config.default_check_interval settings
                          else models.interval flux;
                   job_args := flux |})
   /\ (trigger_raises (effective_interval settings (aggressive_mode self) flux) = true ->
       exists self' jobs',
         schedule_flux settings trigger_raises self flux = (self', Raise OverflowError)
         /\ scheduler self' = Some jobs'
         /\ jobs' !! ("flux_" ++ models.id flux)%string = None))
  /\ (exists jobs',
        set_aggressive_mode settings trigger_raises uuid4 docs self enabled =
          ({| scheduler := Some jobs'; aggressive_mode := enabled; collection_set := true |},
           Ok {| info_aggressive_mode := enabled;
                 info_scheduled_count :=
                   Z.of_nat
                     (List.length
                        (List.filter
                           (fun d => negb (trigger_raises
                                             (effective_interval settings enabled (doc_base d))))
                           (List.filter (fun d => models.active (doc_base d)) docs))) |})
        /\ (forall i d,
              List.filter (fun d => models.active (doc_base d)) docs !! i = Some d ->
              trigger_raises (effective_interval settings enabled (doc_base d)) = false ->
              exists j,
                jobs' !! ("flux_" ++ uuid4 i)%string = Some j
                /\ trigger_seconds j
                   = (if enabled then 10
                      else if models.interval (doc_base d) =? 0
                           then config.default_check_interval settings
                           else models.interval (doc_base d))
                /\ models.base (job_args j) = doc_base d
                /\ models.id (job_args j) = uuid4 i)
        /\ (forall i d,
              List.filter (fun d => models.active (doc_base d)) docs !! i = Some d ->
              trigger_raises (effective_interval settings enabled (doc_base d)) = true ->
              jobs' !! ("flux_" ++ uuid4 i)%string = None)
        /\ (forall id j, jobs' !! id = Some j ->
              exists i d,
                List.filter (fun d => models.active (doc_base d)) docs !! i = Some d
                /\ id = ("flux_" ++ uuid4 i)%string
                /\ trigger_seconds j
                   = (if enabled then 10
                      else if models.interval (doc_base d) =? 0
                           then config.default_check_interval settings
                           else models.interval (doc_base d))
                /\ models.base (job_args j) = doc_base d)).
Proof.
  intros Hs Hc Hnd. split.
  - rewrite (schedule_flux_initialised self flux jobs Hs), interval_seconds_effective.
    split; intros ->.
    + eexists _, _. split; [reflexivity |]. split; [reflexivity |].
      apply lookup_insert_eq.
    + eexists _, _. split; [reflexivity |]. split; [reflexivity |].
      apply lookup_delete_eq.
  - unfold set_aggressive_mode, reload_all_schedules.
    cbn [collection_set scheduler aggressive_mode]. rewrite Hc, Hs. cbn [negb].
    set (active := List.filter (fun d => models.active (doc_base d)) docs) in *.
    destruct (reload_loop_exact uuid4 active O
                {| scheduler := Some ∅; aggressive_mode := enabled;
                   collection_set := true |}
                {| scheduled_count := 0; errors := [] |} ∅ eq_refl)
      as (jobs' & Heq & _ & Hmine & Hfrom).
    cbv zeta in Heq, Hmine, Hfrom.
    cbn [aggressive_mode collection_set scheduled_count errors Nat.add]
      in Heq, Hmine, Hfrom.
    exists jobs'. rewrite Heq. cbn. split; [done |]. split; [| split].
    + intros i d Hi Hacc.
      assert (i < List.length active)%nat as Hlt by (by eapply lookup_lt_Some).
      rewrite (Hmine i d Hi), Hacc.
      * eexists. split; [reflexivity |]. by repeat split.
      * intros k Hk. cbn. apply (drawn_once uuid4 _ i k Hnd). lia.
    + intros i d Hi Hrej. rewrite (Hmine i d Hi), Hrej; [done |].
      intros k Hk. cbn. apply (drawn_once uuid4 _ i k Hnd). lia.
    + intros id j Hj. destruct (Hfrom id j Hj) as [H0 | (i & d & Hi & _ & -> & ->)].
      * by rewrite lookup_empty in H0.
      * exists i, d. by repeat split.
Qed.

End Scheduler.

Lemma aggressive_mode_intervals_witness :
  exists jobs',
    SchedulerService.set_aggressive_mode config.default_settings sample_trigger_raises
      sample_uuid4 [sample_document 0; hourly_document; slow_document]
      {| SchedulerService.scheduler := Some ∅;
         SchedulerService.aggressive_mode := true;
         SchedulerService.collection_set := true |} false
    = ({| SchedulerService.scheduler := Some jobs';
          SchedulerService.aggressive_mode := false;
          SchedulerService.collection_set := true |},
       Ok {| SchedulerService.info_aggressive_mode := false;
             SchedulerService.info_scheduled_count := 2 |})
    /\ SchedulerService.trigger_seconds <$> jobs' !! "flux_u0" = Some 300
    /\ SchedulerService.trigger_seconds <$> jobs' !! "flux_u1" = Some 3600
    /\ jobs' !! "flux_u2" = None.
Proof.
  destruct (aggressive_mode_intervals config.default_settings sample_trigger_raises
              sample_uuid4 [sample_document 0; hourly_document; slow_document]
              {| SchedulerService.scheduler := Some ∅;
                 SchedulerService.aggressive_mode := true;
                 SchedulerService.collection_set := true |} ∅
              (sample_flux 3600 None None 0) false eq_refl eq_refl)
    as [_ (jobs' & Heq & Hjob & Hnone & _)].
  - apply (bool_decide_unpack _). vm_compute. exact I.
  - exists jobs'. split; [exact Heq |].
    destruct (Hjob 0%nat (sample_document 0) eq_refl eq_refl) as (j0 & Hj0 & H0 & _).
    destruct (Hjob 1%nat hourly_document eq_refl eq_refl) as (j1 & Hj1 & H1 & _).
    change (jobs' !! "flux_u0" = Some j0) in Hj0.
    change (jobs' !! "flux_u1" = Some j1) in Hj1.
    rewrite Hj0, Hj1. cbn [fmap option_fmap option_map]. rewrite H0, H1.
    split; [reflexivity |]. split; [reflexivity |].
    apply (Hnone 2%nat slow_document eq_refl eq_refl).
Defined.

(** ** Creation of a feed *)

(** C6. The code at the failing input: a request whose interval is
    below 60 seconds passes [create_flux]; the document is stored with
    that interval and, aggressive mode being off and the platform
    building a trigger of that length, the timer of the feed gets it
    too. Nothing enforces the minimum that the description of the field
    announces. *)
Theorem create_flux_accepts_short_interval (settings : config.Settings)
    (trigger_raises : Z -> bool) (inserted_id : string) (flux : models.FluxBase)
    (a : fluxes.app) (jobs : gmap string SchedulerService.job) :
  discord_utils.isValidDiscordId (models.discordTarget flux) = true ->
  SchedulerService.scheduler (fluxes.scheduler_service a) = Some jobs ->
  SchedulerService.aggressive_mode (fluxes.scheduler_service a) = false ->
  models.active flux = true ->
  0 < models.interval flux < 60 ->
  trigger_raises (models.interval flux) = false ->
  exists a' d jobs',
    fluxes.create_flux settings trigger_raises inserted_id flux a = (a', Ok inserted_id)
    /\ fluxes.app_collection a' = fluxes.app_collection a ++ [d]
    /\ _id d = inserted_id
    /\ models.interval (doc_base d) = models.interval flux
    /\ SchedulerService.scheduler (fluxes.scheduler_service a') = Some jobs'
    /\ SchedulerService.trigger_seconds <$> jobs' !! ("flux_" ++ inserted_id)%string
       = Some (models.interval flux).
Proof.
  intros Hid Hs Hagg Hact Hint Htrigger.
  assert (forall f : models.FluxInDB,
            models.interval f = models.interval flux ->
            SchedulerService.interval_seconds settings
              (SchedulerService.aggressive_mode (fluxes.scheduler_service a)) f
            = models.interval flux) as Hseconds.
  { intros f Hf. unfold SchedulerService.interval_seconds. rewrite Hagg.
    unfold models.checkInterval. rewrite Hf.
    destruct (Z.eqb_spec (models.interval flux) 0); [lia | done]. }
  unfold fluxes.create_flux. rewrite Hid. cbn [negb models.active]. rewrite Hact.
  rewrite (schedule_flux_initialised settings trigger_raises _ _ jobs Hs).
  rewrite !Hseconds by reflexivity. rewrite Htrigger.
  eexists _, _, _. split; [reflexivity |]. cbn.
  split; [reflexivity |]. split; [reflexivity |]. split; [reflexivity |].
  split; [reflexivity |].
  by rewrite lookup_insert_eq.
Qed.

Lemma create_flux_accepts_short_interval_witness :
  exists a' d jobs',
    fluxes.create_flux config.default_settings sample_trigger_raises "id1"
      (sample_base 5 None None)
      {| fluxes.app_collection := [];
         fluxes.scheduler_service := SchedulerService.init SchedulerService.new |}
    = (a', Ok "id1")
    /\ fluxes.app_collection a' = [] ++ [d]
    /\ _id d = "id1"
    /\ models.interval (doc_base d) = 5
    /\ SchedulerService.scheduler (fluxes.scheduler_service a') = Some jobs'
    /\ SchedulerService.trigger_seconds <$> jobs' !! "flux_id1" = Some 5.
Proof.
  apply (create_flux_accepts_short_interval config.default_settings sample_trigger_raises
           "id1" (sample_base 5 None None)
           {| fluxes.app_collection := [];
              fluxes.scheduler_service := SchedulerService.init SchedulerService.new |}
           ∅);
    [reflexivity | reflexivity | reflexivity | reflexivity | simpl; lia | reflexivity].
Defined.

(** ** One turn of the loop of a cycle *)

Section Turn.

Variable re_search : string -> string -> re_outcome.
Variable mktime : struct_time -> result Z.
Variable o : outside.
Variable flux : models.FluxInDB.
Variable now : datetime.datetime.

Lemma service_item_key (e : entry) :
  Py.strip (RSSService.extract_item_link e) = item_key e.
Proof.
  unfold item_key, rss_checker.normalize_text, rss_checker.getItemLinkOrGuid,
    RSSService.extract_item_link.
  generalize (Py.or_str (Py.or_else (entry_link e) (entry_id e)) ""). intros s.
  simpl. by destruct (String.eqb_spec s "") as [-> |].
Qed.

Lemma checker_one_turn :
  one_turn (models.id flux) (rss_checker.process_entry re_search mktime o flux now).
Proof.
  intros st e. unfold rss_checker.process_entry. cbv zeta.
  fold (item_key e).
  destruct (String.eqb (item_key e) "") eqn:Hk; [by left |].
  destruct (rss_checker.within_quiet_hours _ _ _); [by left |].
  destruct (bool_decide (item_key e ∈ seen_items st)
            || db.already_sent (item_key e) (database (world st))) eqn:Hseen; [by left |].
  apply orb_false_elim in Hseen as [_ Hsent].
  pass_over.
  cbn [world sent_this_run seen_items].
  destruct (send_to_discord o _ _); [| by left].
  right. eexists _, _. cbn. by repeat split.
Qed.

Lemma service_one_turn :
  one_turn (models.id flux) (RSSService.process_entry re_search mktime o flux now).
Proof.
  intros st e. unfold RSSService.process_entry. cbv zeta.
  rewrite service_item_key.
  destruct (String.eqb (item_key e) "") eqn:Hk; [by left |].
  destruct (RSSService.is_in_quiet_hours _ _ _); [by left |].
  destruct (bool_decide (item_key e ∈ seen_items st)
            || db.already_sent (item_key e) (database (world st))) eqn:Hseen; [by left |].
  apply orb_false_elim in Hseen as [_ Hsent].
  pass_over.
  cbn [world sent_this_run seen_items].
  destruct (send_to_discord o _ _); [| by left].
  right. eexists _, _. cbn. by repeat split.
Qed.

End Turn.

(** ** The loop of a cycle *)

Section Loop.

Variable flux_id : string.
Variable body : cycle_state -> entry -> cycle_state.
Hypothesis Hturn : one_turn flux_id body.
Variable cap : Z.

Lemma extension_refl (st : cycle_state) (l : list entry) :
  extension flux_id st st l [] [].
Proof.
  split; simpl; try done.
  - by rewrite app_nil_r.
  - by rewrite app_nil_r.
  - lia.
  - apply sublist_nil_l.
  - intros k Hk. split; [done | apply not_elem_of_nil].
Qed.

Lemma extension_trans (st0 st1 st2 : cycle_state) (l1 l2 : list entry)
    (d1 d2 : list (entry * message)) (r1 r2 : list db.sent_item) :
  extension flux_id st0 st1 l1 d1 r1 ->
  extension flux_id st1 st2 l2 d2 r2 ->
  extension flux_id st0 st2 (l1 ++ l2) (d1 ++ d2) (r1 ++ r2).
Proof.
  intros [Ha1 Ha2 Ha3 Ha4 Ha5 Ha6 Ha7 Ha8] [Hb1 Hb2 Hb3 Hb4 Hb5 Hb6 Hb7 Hb8].
  split.
  - by rewrite Hb1, Ha1, app_assoc.
  - by rewrite Hb2, Ha2, app_assoc.
  - rewrite Hb3, Ha3, length_app. lia.
  - rewrite fmap_app. by apply sublist_app.
  - by rewrite !fmap_app, Ha5, Hb5.
  - by apply Forall_app.
  - intros k Hk. destruct (Ha7 k Hk) as [Hk1 Hn1]. destruct (Hb7 k Hk1) as [Hk2 Hn2].
    split; [done |]. rewrite !fmap_app. by apply not_elem_of_app.
  - auto.
Qed.

(** One turn adds at most one delivery. *)
Lemma extension_turn (st : cycle_state) (e : entry) :
  exists d r, extension flux_id st (body st e) [e] d r /\ (List.length d <= 1)%nat.
Proof.
  destruct (Hturn st e) as [(Hs & Hd & Hdb) | (m & now & Hs & Hd & Hfresh & Hdb)].
  - exists [], []. split; [| simpl; lia]. split; simpl.
    + by rewrite Hd, app_nil_r.
    + by rewrite Hdb, app_nil_r.
    + lia.
    + apply sublist_nil_l.
    + done.
    + done.
    + intros k Hk. rewrite Hdb. split; [done | apply not_elem_of_nil].
    + by rewrite Hdb.
  - exists [(e, m)], [{| db.id := db.sequence (database (world st)) + 1;
                         db.flux_id := flux_id; db.item_url := item_key e;
                         db.sent_at := now |}].
    split; [| simpl; lia]. split; simpl.
    + done.
    + by rewrite Hdb, mark_as_sent_rows, Hfresh.
    + lia.
    + done.
    + done.
    + by constructor.
    + intros k Hk. rewrite Hdb. split; [by apply already_sent_mono |].
      intros ->%list_elem_of_singleton. congruence.
    + rewrite Hdb. apply unique_urls_mark.
Qed.

(** Every item evaluated in turn, with no cap. *)
Lemma extension_fold (l : list entry) :
  forall st, exists d r, extension flux_id st (fold_left body l st) l d r.
Proof.
  induction l as [| e l IH]; intros st.
  - exists [], []. apply extension_refl.
  - destruct (extension_turn st e) as (d1 & r1 & H1 & _).
    destruct (IH (body st e)) as (d2 & r2 & H2).
    exists (d1 ++ d2), (r1 ++ r2). apply (extension_trans _ _ _ [e] l _ _ _ _ H1 H2).
Qed.

(** The loop with its cap. *)
Lemma extension_for_entries (l : list entry) :
  forall st, exists d r, extension flux_id st (for_entries body cap st l) l d r.
Proof.
  induction l as [| e l IH]; intros st.
  - exists [], []. apply extension_refl.
  - cbn [for_entries]. destruct (sent_this_run st >=? cap).
    + exists [], []. apply extension_refl.
    + destruct (extension_turn st e) as (d1 & r1 & H1 & _).
      destruct (IH (body st e)) as (d2 & r2 & H2).
      exists (d1 ++ d2), (r1 ++ r2). apply (extension_trans _ _ _ [e] l _ _ _ _ H1 H2).
Qed.

(** The loop never counts beyond its cap. *)
Lemma for_entries_bounded (l : list entry) :
  forall st, sent_this_run st <= cap ->
    sent_this_run (for_entries body cap st l) <= cap.
Proof.
  induction l as [| e l IH]; intros st Hle; [done |].
  cbn [for_entries]. destruct (Z.geb_spec (sent_this_run st) cap) as [Hge | Hlt]; [done |].
  apply IH. destruct (extension_turn st e) as (d & r & [_ _ Hs _ _ _ _ _] & Hlen). lia.
Qed.

(** Once the cap is reached nothing that follows is looked at. *)
Lemma for_entries_stop (pre rest : list entry) :
  forall st, sent_this_run (for_entries body cap st pre) >= cap ->
    for_entries body cap st (pre ++ rest) = for_entries body cap st pre.
Proof.
  induction pre as [| e pre IH]; intros st Hge.
  - simpl in *. destruct rest as [| e' rest]; [done |].
    cbn [for_entries]. destruct (Z.geb_spec (sent_this_run st) cap); [done | lia].
  - cbn [for_entries app] in *.
    destruct (sent_this_run st >=? cap); [done | by apply IH].
Qed.

(** The deliveries and the rows of the loop are the first ones of the
    evaluation of every item, as many as the cap leaves room for. *)
Lemma for_entries_take (l : list entry) :
  forall st dall rall,
    extension flux_id st (fold_left body l st) l dall rall ->
    extension flux_id st (for_entries body cap st l) l
      (take (Z.to_nat (cap - sent_this_run st)) dall)
      (take (Z.to_nat (cap - sent_this_run st)) rall).
Proof.
  induction l as [| e l IH]; intros st dall rall Hall.
  - pose proof (ext_delivered _ _ _ _ _ _ Hall) as Hd.
    pose proof (ext_rows _ _ _ _ _ _ Hall) as Hr. simpl in Hd, Hr.
    assert (dall = []) as -> by (by apply (app_inv_head (delivered (world st))); rewrite app_nil_r).
    assert (rall = []) as ->
      by (by apply (app_inv_head (db.sent_items (database (world st)))); rewrite app_nil_r).
    rewrite !take_nil. apply extension_refl.
  - cbn [for_entries]. destruct (Z.geb_spec (sent_this_run st) cap) as [Hge | Hlt].
    + replace (Z.to_nat (cap - sent_this_run st)) with O by lia. apply extension_refl.
    + destruct (extension_turn st e) as (d1 & r1 & H1 & Hlen).
      destruct (extension_fold l (body st e)) as (d2 & r2 & H2).
      pose proof (extension_trans _ _ _ [e] l _ _ _ _ H1 H2) as H12.
      cbn [fold_left] in Hall.
      assert (dall = d1 ++ d2) as ->.
      { apply (app_inv_head (delivered (world st))).
        by rewrite <- (ext_delivered _ _ _ _ _ _ Hall), <- (ext_delivered _ _ _ _ _ _ H12). }
      assert (rall = r1 ++ r2) as ->.
      { apply (app_inv_head (db.sent_items (database (world st)))).
        by rewrite <- (ext_rows _ _ _ _ _ _ Hall), <- (ext_rows _ _ _ _ _ _ H12). }
      specialize (IH (body st e) d2 r2 H2).
      pose proof (ext_sent _ _ _ _ _ _ H1) as Hs.
      assert (List.length r1 = List.length d1) as Hlr.
      { rewrite <- (length_fmap db.item_url), (ext_keys _ _ _ _ _ _ H1), !length_fmap. done. }
      assert (take (Z.to_nat (cap - sent_this_run st)) (d1 ++ d2)
              = d1 ++ take (Z.to_nat (cap - sent_this_run (body st e))) d2) as ->.
      { rewrite Hs. destruct d1 as [| x [| y d1]]; simpl in Hlen; [| | lia].
        - simpl. f_equal. f_equal. lia.
        - replace (Z.to_nat (cap - sent_this_run st))
            with (S (Z.to_nat (cap - (sent_this_run st + Z.of_nat (List.length [x])))))
            by (simpl; lia).
          done. }
      assert (take (Z.to_nat (cap - sent_this_run st)) (r1 ++ r2)
              = r1 ++ take (Z.to_nat (cap - sent_this_run (body st e))) r2) as ->.
      { rewrite Hs. destruct r1 as [| x [| y r1]], d1 as [| x' [| y' d1]];
          simpl in Hlen, Hlr; try lia.
        - simpl. f_equal. f_equal. lia.
        - replace (Z.to_nat (cap - sent_this_run st))
            with (S (Z.to_nat (cap - (sent_this_run st + Z.of_nat (List.length [x'])))))
            by (simpl; lia).
          done. }
      apply (extension_trans _ _ _ [e] l _ _ _ _ H1 IH).
Qed.

End Loop.

(** ** The order of the entries *)

Section Sorting.

Context {A : Type}.

Implicit Types (l : list (Z * A)) (k : Z) (x : A).

Lemma insert_desc_perm k x l : insert_desc k x l ≡ₚ (k, x) :: l.
Proof.
  induction l as [| [k' y] r IH]; simpl; [done |].
  destruct (k <? k'); [| done].
  rewrite IH. apply Permutation_swap.
Qed.

Lemma sorted_reverse_perm l : sorted_reverse l ≡ₚ l.
Proof.
  induction l as [| [k x] r IH]; simpl; [done |].
  by rewrite insert_desc_perm, IH.
Qed.

Lemma insert_desc_sorted k x l :
  StronglySorted (fun a b : Z * A => fst a >= fst b) l -> StronglySorted (fun a b : Z * A => fst a >= fst b) (insert_desc k x l).
Proof.
  induction l as [| [k' y] r IH]; simpl; intros Hs.
  - by repeat constructor.
  - apply StronglySorted_inv in Hs as [Hr Hy].
    destruct (Z.ltb_spec k k') as [Hlt | Hge].
    + constructor; [by apply IH |].
      rewrite insert_desc_perm. constructor; [simpl; lia | done].
    + constructor; [by constructor |].
      constructor; [simpl; lia |].
      eapply Forall_impl; [exact Hy |]. simpl. intros [k'' z]. simpl. lia.
Qed.

Lemma sorted_reverse_sorted l : StronglySorted (fun a b : Z * A => fst a >= fst b) (sorted_reverse l).
Proof.
  induction l as [| [k x] r IH]; simpl; [constructor | by apply insert_desc_sorted].
Qed.

Lemma strongly_sorted_fst l :
  StronglySorted (fun a b : Z * A => fst a >= fst b) l -> StronglySorted Z.ge (fst <$> l).
Proof.
  induction 1 as [| a l Hl IH Ha]; simpl; constructor; [done |].
  by apply Forall_fmap.
Qed.

End Sorting.

Lemma strongly_sorted_sublist {A : Type} (R : relation A) (l1 l2 : list A) :
  sublist l1 l2 -> StronglySorted R l2 -> StronglySorted R l1.
Proof.
  induction 1 as [| x l1 l2 Hsub IH | x l1 l2 Hsub IH]; intros Hs.
  - constructor.
  - apply StronglySorted_inv in Hs as [Hs Hx]. constructor; [by apply IH |].
    apply Forall_forall. intros y Hy. rewrite Forall_forall in Hx.
    apply Hx. by eapply elem_of_sublist.
  - apply StronglySorted_inv in Hs as [Hs _]. by apply IH.
Qed.

Section MapResult.

Context {A B : Type} (f : A -> result B).

Lemma map_result_Forall2 (l : list A) (ys : list B) :
  map_result f l = Ok ys <-> Forall2 (fun x y => f x = Ok y) l ys.
Proof.
  revert ys. induction l as [| x l IH]; intros ys; simpl.
  - split; [intros [= <-]; constructor | by intros ->%Forall2_nil_inv_l].
  - split.
    + destruct (f x) as [y |] eqn:Hx; [| done]. simpl.
      destruct (map_result f l) as [ys' |] eqn:Hl; [| done]. simpl.
      intros [= <-]. constructor; [done | by apply IH].
    + intros (y & ys' & Hx & Hl & ->)%Forall2_cons_inv_l.
      rewrite Hx. simpl. apply IH in Hl. by rewrite Hl.
Qed.

Lemma map_result_decorated (l : list (B * A)) :
  Forall (fun p => f (snd p) = Ok (fst p)) l ->
  map_result f (snd <$> l) = Ok (fst <$> l).
Proof.
  induction 1 as [| [b a] l Ha Hl IH]; [done |].
  simpl in Ha. rewrite !fmap_cons. cbn [map_result snd fst]. by rewrite Ha, IH.
Qed.

Lemma map_result_sublist (l1 l2 : list A) (ys2 : list B) :
  sublist l1 l2 -> map_result f l2 = Ok ys2 ->
  exists ys1, map_result f l1 = Ok ys1 /\ sublist ys1 ys2.
Proof.
  intros Hsub. revert ys2.
  induction Hsub as [| x l1 l2 Hsub IH | x l1 l2 Hsub IH]; intros ys2 H2.
  - exists []. split; [done | apply sublist_nil_l].
  - apply map_result_Forall2 in H2.
    apply Forall2_cons_inv_l in H2 as (y & ys' & Hx & Hl & ->).
    apply map_result_Forall2 in Hl. destruct (IH _ Hl) as (ys1 & H1 & Hs).
    exists (y :: ys1). simpl. rewrite Hx, H1. split; [done | by constructor].
  - apply map_result_Forall2 in H2.
    apply Forall2_cons_inv_l in H2 as (y & ys' & Hx & Hl & ->).
    apply map_result_Forall2 in Hl. destruct (IH _ Hl) as (ys1 & H1 & Hs).
    exists ys1. split; [done | by constructor].
Qed.

End MapResult.

Section SortItems.

Variable mktime : struct_time -> result Z.

(** [_sort_items], when no conversion of a date raises, gives the
    entries back in another order, the sort keys descending. *)
Lemma sort_items_sorted (entries sorted : list entry) :
  rss_checker._sort_items mktime entries = Ok sorted ->
  sorted ≡ₚ entries
  /\ exists ks, map_result (rss_checker.sort_key mktime) sorted = Ok ks
                /\ StronglySorted Z.ge ks.
Proof.
  unfold rss_checker._sort_items.
  destruct (map_result (rss_checker.sort_key mktime) entries) as [keys |] eqn:Hk; [| done].
  simpl. intros [= <-].
  apply map_result_Forall2 in Hk.
  set (dec := List.combine keys entries).
  assert (Forall (fun p => rss_checker.sort_key mktime (snd p) = Ok (fst p)) dec) as Hdec.
  { unfold dec. clear dec. induction Hk; simpl; constructor; done. }
  assert (snd <$> dec = entries) as Hsnd.
  { unfold dec. clear dec Hdec. induction Hk; simpl; [done | by f_equal]. }
  change (List.map snd (sorted_reverse dec)) with (snd <$> sorted_reverse dec).
  split.
  - etransitivity; [apply fmap_Permutation, sorted_reverse_perm | by rewrite Hsnd].
  - exists (fst <$> sorted_reverse dec). split.
    + apply map_result_decorated.
      by rewrite sorted_reverse_perm.
    + apply strongly_sorted_fst, sorted_reverse_sorted.
Qed.

End SortItems.

(** ** The cap of a cycle *)

Lemma max_per_run_of_cases (flux : models.FluxInDB) (m : Z) :
  models.maxPerRun flux = Some m /\ m <> 0
  \/ m = 5 /\ (models.maxPerRun flux = None \/ models.maxPerRun flux = Some 0) ->
  max_per_run_of flux = m.
Proof.
  unfold max_per_run_of. intros [[-> Hm] | [-> [-> | ->]]]; try done.
  by destruct (Z.eqb_spec m 0).
Qed.

(** A loop that reaches its cap has gone through a prefix of the
    entries, every item of which it evaluated; nothing after the prefix
    bears on its result. *)
Lemma for_entries_prefix (body : cycle_state -> entry -> cycle_state) (cap : Z)
    (l : list entry) :
  forall st,
    sent_this_run st < cap ->
    cap <= sent_this_run (for_entries body cap st l) ->
    exists pre post,
      l = pre ++ post
      /\ for_entries body cap st l = fold_left body pre st
      /\ forall rest, for_entries body cap st (pre ++ rest) = fold_left body pre st.
Proof.
  induction l as [| e l IH]; intros st Hlt Hge; [simpl in Hge; lia |].
  cbn [for_entries] in Hge |- *.
  destruct (Z.geb_spec (sent_this_run st) cap) as [Habs | _]; [lia |].
  destruct (Z.lt_ge_cases (sent_this_run (body st e)) cap) as [Hlt' | Hge'].
  - destruct (IH (body st e) Hlt' Hge) as (pre & post & -> & Heq & Hrest).
    exists (e :: pre), post. split; [done |]. split; [done |].
    intros rest. cbn [app for_entries fold_left].
    destruct (Z.geb_spec (sent_this_run st) cap); [lia | apply Hrest].
  - exists [e], l. split; [done |].
    assert (forall rest, for_entries body cap (body st e) rest = body st e) as Hstop.
    { intros [| e' rest]; [done |]. cbn [for_entries].
      destruct (Z.geb_spec (sent_this_run (body st e)) cap); [done | lia]. }
    split; [apply Hstop |].
    intros rest. cbn [app for_entries fold_left].
    destruct (Z.geb_spec (sent_this_run st) cap); [lia | apply Hstop].
Qed.

Section Cap.

Variable re_search : string -> string -> re_outcome.
Variable mktime : struct_time -> result Z.
Variable o : outside.
Variable flux : models.FluxInDB.
Variable now : datetime.datetime.

Lemma check_flux_loop (feed : result (list entry)) (w : shared) :
  rss_checker.check_flux re_search mktime o flux now feed w
  = world (for_entries (rss_checker.process_entry re_search mktime o flux now)
             (max_per_run_of flux) (initial_state w) (cycle_entries mktime feed)).
Proof. by destruct feed as [[| e l] | err]. Qed.

Lemma new_deliveries_extension (flux_id : string) (w : shared) (st' : cycle_state)
    (l : list entry) (d : list (entry * message)) (r : list db.sent_item) :
  extension flux_id (initial_state w) st' l d r ->
  new_deliveries w (world st') = d /\ new_rows w (world st') = r.
Proof.
  intros [Hd Hr _ _ _ _ _ _]. unfold new_deliveries, new_rows.
  simpl in Hd, Hr. rewrite Hd, Hr. by rewrite !drop_app_length.
Qed.

(** C2, as the code has it. Let the cap of the feed be [m >= 1]: its
    configured max-per-run, or 5 when that is unset or 0. When the
    sorted sequence holds more than [m] qualifying items, the cycle
    delivers exactly the first [m] of them, in the order of the
    sequence, whose sort keys descend; it records exactly their keys in
    the store; the qualifying items that follow are neither delivered
    nor recorded; and the cycle has gone through a prefix of the
    sequence only: the remaining qualifying items stand after it, and
    whatever stands there leaves the result unchanged. *)
Theorem max_per_run_cap (entries sorted : list entry) (w : shared) (m : Z) :
  (models.maxPerRun flux = Some m
   \/ m = 5 /\ (models.maxPerRun flux = None \/ models.maxPerRun flux = Some 0)) ->
  1 <= m ->
  rss_checker._sort_items mktime entries = Ok sorted ->
  db.unique_urls (database w) ->
  (Z.to_nat m < List.length (qualifying re_search mktime o flux now w sorted))%nat ->
  let w' := rss_checker.check_flux re_search mktime o flux now (Ok entries) w in
  let q := qualifying re_search mktime o flux now w sorted in
  new_deliveries w w' = take (Z.to_nat m) q
  /\ List.length (new_deliveries w w') = Z.to_nat m
  /\ (db.item_url <$> new_rows w w') = (item_key <$> (fst <$> new_deliveries w w'))
  /\ (forall e msg, (e, msg) ∈ drop (Z.to_nat m) q ->
        ((e, msg) ∉ new_deliveries w w')
        /\ db.already_sent (item_key e) (database w') = false)
  /\ sublist (fst <$> new_deliveries w w') sorted
  /\ (exists ks, map_result (rss_checker.sort_key mktime) (fst <$> new_deliveries w w') = Ok ks
                 /\ StronglySorted Z.ge ks)
  /\ exists pre post,
       sorted = pre ++ post
       /\ sublist (fst <$> drop (Z.to_nat m) q) post
       /\ forall rest,
            world (for_entries (rss_checker.process_entry re_search mktime o flux now)
                     m (initial_state w) (pre ++ rest)) = w'.
Proof.
  intros Hcap Hm Hsort Huniq Hmore w' q.
  assert (max_per_run_of flux = m) as Hmax.
  { apply max_per_run_of_cases. destruct Hcap as [H | H]; [left; split; [done | lia] | by right]. }
  unfold qualifying in q, Hmore.
  set (body := rss_checker.process_entry re_search mktime o flux now) in *.
  fold q in Hmore.
  pose proof (checker_one_turn re_search mktime o flux now) as Hturn. fold body in Hturn.
  assert (w' = world (for_entries body m (initial_state w) sorted)) as Hw'.
  { unfold w'. rewrite check_flux_loop, Hmax. unfold cycle_entries. by rewrite Hsort. }
  destruct (extension_fold _ body Hturn sorted (initial_state w)) as (dall & rall & Hall).
  pose proof (for_entries_take _ body Hturn m sorted _ _ _ Hall) as Htake.
  change (sent_this_run (initial_state w)) with 0 in Htake. rewrite Z.sub_0_r in Htake.
  destruct (new_deliveries_extension _ _ _ _ _ _ Hall) as [Hq _].
  fold q in Hq. subst dall.
  destruct (new_deliveries_extension _ _ _ _ _ _ Htake) as [Hnd Hnr].
  rewrite <- Hw' in Hnd, Hnr.
  pose proof (ext_keys _ _ _ _ _ _ Htake) as Hkeys.
  pose proof (ext_keys _ _ _ _ _ _ Hall) as Hkeys_all.
  pose proof (ext_sublist _ _ _ _ _ _ Htake) as Hsub.
  pose proof (ext_unique _ _ _ _ _ _ Hall Huniq) as Huniq_all.
  unfold db.unique_urls in Huniq_all. rewrite (ext_rows _ _ _ _ _ _ Hall) in Huniq_all.
  cbn [initial_state world] in Huniq_all.
  rewrite <- (take_drop (Z.to_nat m) rall), !fmap_app in Huniq_all.
  assert (db.item_url <$> drop (Z.to_nat m) rall
          = item_key <$> (fst <$> drop (Z.to_nat m) q)) as Hkeys_drop.
  { by rewrite !fmap_drop, Hkeys_all. }
  assert (List.length (take (Z.to_nat m) q) = Z.to_nat m) as Hlen.
  { rewrite length_take. lia. }
  split; [done |]. rewrite Hnd, Hnr.
  split; [done |]. split; [done |]. split.
  { intros e msg Hin.
    assert (item_key e ∈ db.item_url <$> drop (Z.to_nat m) rall) as Hk.
    { rewrite Hkeys_drop. apply list_elem_of_fmap. exists e. split; [done |].
      apply list_elem_of_fmap. by exists (e, msg). }
    rewrite app_assoc in Huniq_all.
    apply NoDup_app in Huniq_all as (_ & Hdisj & _).
    assert (item_key e ∉ (db.item_url <$> db.sent_items (database w))
                         ++ (db.item_url <$> take (Z.to_nat m) rall)) as Hnot.
    { intros Hin'. by apply (Hdisj _ Hin'). }
    split.
    - intros Hin'. apply Hnot, elem_of_app. right. rewrite Hkeys.
      apply list_elem_of_fmap. exists e. split; [done |].
      apply list_elem_of_fmap. by exists (e, msg).
    - apply not_true_is_false. intros Hsent%already_sent_elem. apply Hnot.
      rewrite Hw', (ext_rows _ _ _ _ _ _ Htake), fmap_app in Hsent. done. }
  split; [done |]. split.
  { destruct (sort_items_sorted mktime entries sorted Hsort) as (_ & ks & Hks & Hdesc).
    destruct (map_result_sublist _ _ _ _ Hsub Hks) as (ks1 & Hks1 & Hsub1).
    exists ks1. split; [done |]. by eapply strongly_sorted_sublist. }
  pose proof (ext_sent _ _ _ _ _ _ Htake) as Hsent.
  change (sent_this_run (initial_state w)) with 0 in Hsent. rewrite Hlen in Hsent.
  destruct (for_entries_prefix body m sorted (initial_state w)) as (pre & post & Hpp & Heq & Hrest).
  { simpl. lia. }
  { lia. }
  exists pre, post. split; [done |]. split.
  - destruct (extension_fold _ body Hturn pre (initial_state w)) as (d1 & r1 & H1).
    destruct (extension_fold _ body Hturn post (fold_left body pre (initial_state w)))
      as (d2 & r2 & H2).
    pose proof (extension_trans _ _ _ _ _ _ _ _ _ _ H1 H2) as H12.
    rewrite <- fold_left_app, <- Hpp in H12.
    destruct (new_deliveries_extension _ _ _ _ _ _ H12) as [Hq12 _].
    fold q in Hq12.
    rewrite <- Heq in H1.
    destruct (new_deliveries_extension _ _ _ _ _ _ H1) as [Hd1 _].
    rewrite <- Hw', Hnd in Hd1.
    assert (drop (Z.to_nat m) q = d2) as ->.
    { rewrite Hq12, <- Hd1. rewrite <- Hlen at 1. rewrite Hd1. by rewrite drop_app_length. }
    apply (ext_sublist _ _ _ _ _ _ H2).
  - intros rest. by rewrite Hrest, <- Heq.
Qed.

End Cap.

Lemma max_per_run_cap_witness :
  List.length
    (new_deliveries (sample_shared 0)
       (rss_checker.check_flux literal_search sample_mktime accepting
          (sample_flux 300 (Some 2) None 0) (at_time 12 0 0 0)
          (Ok sample_entries) (sample_shared 0))) = 2%nat.
Proof.
  pose proof (max_per_run_cap literal_search sample_mktime accepting
                (sample_flux 300 (Some 2) None 0) (at_time 12 0 0 0)
                sample_entries sample_entries (sample_shared 0) 2) as H.
  cbv zeta in H. apply H.
  - left. reflexivity.
  - lia.
  - reflexivity.
  - apply (bool_decide_unpack _). vm_compute. exact I.
  - vm_compute. lia.
Defined.

(** C2 as stated fails for a configured max-per-run of 0: the code takes
    the 0 for an unset value and caps the cycle at 5. Six items
    qualify; five are delivered, not none. *)
Lemma max_per_run_zero_sends_five :
  models.maxPerRun (sample_flux 300 (Some 0) None 0) = Some 0
  /\ List.length
       (qualifying literal_search sample_mktime accepting
          (sample_flux 300 (Some 0) None 0) (at_time 12 0 0 0)
          (sample_shared 0) sample_entries) = 6%nat
  /\ List.length
       (new_deliveries (sample_shared 0)
          (rss_checker.check_flux literal_search sample_mktime accepting
             (sample_flux 300 (Some 0) None 0) (at_time 12 0 0 0)
             (Ok sample_entries) (sample_shared 0))) = 5%nat.
Proof. repeat split; vm_compute; reflexivity. Qed.

(** ** The counter of a feed *)

(** C5. The code at the failing inputs. [check_flux] with two items
    delivered, every update succeeding, leaves the stored counter one
    above its previous value, not two: each update writes the counter
    of the feed object plus one. The service writes the counter of the
    feed object plus the count of the cycle, so two items delivered in
    one cycle do add two; but the job of a feed keeps the feed object
    it was scheduled with, so on its second cycle, one more item
    delivered, the stored counter stays where the first cycle left
    it. *)
Theorem sent_counter_not_cumulative :
  let flux := sample_flux 300 None None 0 in
  let noon := at_time 12 0 0 0 in
  let a := sample_entry "A" "https://example.org/a" 1 in
  let b := sample_entry "B" "https://example.org/b" 2 in
  let w := sample_shared 0 in
  let w' :=
    rss_checker.check_flux literal_search sample_mktime accepting flux noon (Ok [b; a]) w in
  let both :=
    RSSService.check_and_send_flux literal_search sample_mktime accepting flux noon
      (Ok [b; a]) w in
  let first :=
    RSSService.check_and_send_flux literal_search sample_mktime accepting flux noon
      (Ok [a]) w in
  let second :=
    RSSService.check_and_send_flux literal_search sample_mktime accepting flux noon
      (Ok [b; a]) (snd first) in
  (stored_total "f1" (collection w) = Some 0
   /\ List.length (new_deliveries w w') = 2%nat
   /\ stored_total "f1" (collection w') = Some 1)
  /\ (RSSService.sent_count (fst both) = 2
      /\ stored_total "f1" (collection (snd both)) = Some 2)
  /\ (RSSService.sent_count (fst first) = 1
      /\ stored_total "f1" (collection (snd first)) = Some 1
      /\ RSSService.sent_count (fst second) = 1
      /\ List.length (new_deliveries (snd first) (snd second)) = 1%nat
      /\ stored_total "f1" (collection (snd second)) = Some 1).
Proof. vm_compute. repeat split; reflexivity. Qed.

Section Counter.

Variable re_search : string -> string -> re_outcome.
Variable mktime : struct_time -> result Z.
Variable o : outside.
Variable flux : models.FluxInDB.
Variable now : datetime.datetime.

Lemma stored_total_update_one (key item : string) (pub : option Z) (total : Z)
    (c : list document) :
  stored_total key (update_one key (set_metadata item pub total) c)
  = (fun _ => total) <$> stored_total key c.
Proof.
  unfold stored_total. induction c as [| d c IH]; simpl; [done |].
  destruct (String.eqb (_id d) key) eqn:E; simpl.
  - by rewrite E.
  - by rewrite E.
Qed.

(** One turn of the loop of [check_flux] leaves the stored counter of
    the feed as it was or sets it to the counter of the feed object
    plus one. *)
Lemma checker_turn_counter (st : cycle_state) (e : entry) :
  let st' := rss_checker.process_entry re_search mktime o flux now st e in
  stored_total (models.id flux) (collection (world st'))
  = stored_total (models.id flux) (collection (world st))
  \/ stored_total (models.id flux) (collection (world st'))
     = Some (models.totalSent flux + 1).
Proof.
  cbv zeta. unfold rss_checker.process_entry. cbv zeta.
  repeat match goal with
         | |- context [if ?c then _ else _] => destruct c; [by left |]
         end.
  cbn [world].
  destruct (send_to_discord o _ _); [| by left].
  cbn [world collection].
  destruct (rss_checker.getItemDate mktime e); [| by left].
  destruct (update_one_raises o _); [by left |].
  rewrite stored_total_update_one.
  destruct (stored_total (models.id flux) (collection (world st))); [by right | by left].
Qed.

(** X28. However many items a cycle of [check_flux] delivers, the
    stored counter of the feed ends as it was or at the counter of the
    feed object plus one. *)
Lemma check_flux_counter (feed : result (list entry)) (w : shared) :
  let w' := rss_checker.check_flux re_search mktime o flux now feed w in
  stored_total (models.id flux) (collection w')
  = stored_total (models.id flux) (collection w)
  \/ stored_total (models.id flux) (collection w') = Some (models.totalSent flux + 1).
Proof.
  cbv zeta. rewrite check_flux_loop.
  change (collection w) with (collection (world (initial_state w))).
  generalize (initial_state w) as st.
  induction (cycle_entries mktime feed) as [| e l IH]; intros st; [by left |].
  cbn [for_entries]. destruct (sent_this_run st >=? max_per_run_of flux); [by left |].
  destruct (IH (rss_checker.process_entry re_search mktime o flux now st e)) as [H | H];
    [| by right].
  rewrite H. apply checker_turn_counter.
Qed.

End Counter.

(** ** Deduplication across feeds *)

Section Dedup.

Variable re_search : string -> string -> re_outcome.
Variable mktime : struct_time -> result Z.

Lemma already_sent_urls (k : string) (d d' : db.database) :
  db.item_url <$> db.sent_items d = db.item_url <$> db.sent_items d' ->
  db.already_sent k d = db.already_sent k d'.
Proof.
  intros Heq. apply eq_true_iff_eq. by rewrite !already_sent_elem, Heq.
Qed.

Lemma run_cycles_cons (c : cycle_input) (cycles : list cycle_input) (w : shared) :
  run_cycles re_search mktime (c :: cycles) w
  = run_cycles re_search mktime cycles
      (rss_checker.check_flux re_search mktime (ci_outside c) (ci_flux c)
         (ci_now c) (ci_feed c) w).
Proof. reflexivity. Qed.

Lemma run_cycles_extension (cycles : list cycle_input) :
  forall w, exists d r,
    delivered (run_cycles re_search mktime cycles w) = delivered w ++ d
    /\ db.sent_items (database (run_cycles re_search mktime cycles w))
       = db.sent_items (database w) ++ r
    /\ db.item_url <$> r = item_key <$> (fst <$> d)
    /\ (forall k, db.already_sent k (database w) = true ->
          db.already_sent k (database (run_cycles re_search mktime cycles w)) = true
          /\ k ∉ item_key <$> (fst <$> d))
    /\ (db.unique_urls (database w) ->
        db.unique_urls (database (run_cycles re_search mktime cycles w))).
Proof.
  induction cycles as [| c cycles IH]; intros w.
  - exists [], []. simpl. rewrite !app_nil_r. repeat split; try done.
    apply not_elem_of_nil.
  - rewrite run_cycles_cons.
    set (w1 := rss_checker.check_flux re_search mktime (ci_outside c) (ci_flux c)
                 (ci_now c) (ci_feed c) w).
    destruct (extension_for_entries _ _
                (checker_one_turn re_search mktime (ci_outside c) (ci_flux c) (ci_now c))
                (max_per_run_of (ci_flux c)) (cycle_entries mktime (ci_feed c))
                (initial_state w))
      as (d1 & r1 & [Hd1 Hr1 _ _ Hk1 _ Hh1 Hu1]).
    rewrite <- check_flux_loop in Hd1, Hr1, Hh1, Hu1. fold w1 in Hd1, Hr1, Hh1, Hu1.
    cbn [initial_state world] in Hd1, Hr1, Hh1, Hu1.
    destruct (IH w1) as (d2 & r2 & Hd2 & Hr2 & Hk2 & Hh2 & Hu2).
    exists (d1 ++ d2), (r1 ++ r2).
    split; [by rewrite Hd2, Hd1, app_assoc |].
    split; [by rewrite Hr2, Hr1, app_assoc |].
    split; [by rewrite !fmap_app, Hk1, Hk2 |].
    split; [| auto].
    intros k Hk. destruct (Hh1 k Hk) as [Hk1' Hn1]. destruct (Hh2 k Hk1') as [Hk2' Hn2].
    split; [done |]. rewrite !fmap_app. by apply not_elem_of_app.
Qed.

(** C10. The store is keyed by the item URL alone: [already_sent] takes
    no feed, its answer depends on the URLs of the rows only, and a
    second [mark_as_sent] of a URL by another feed changes nothing.
    So over any cycles of any feeds that run one after the other, none
    beginning before the one before it has ended, and with no retention
    sweep in between, a URL the store held at the start is held at the
    end and is delivered by no cycle, each delivery adds the row of its
    URL, and no URL is delivered twice. *)
Theorem dedup_across_feeds (cycles : list cycle_input) (w : shared) :
  db.unique_urls (database w) ->
  let w' := run_cycles re_search mktime cycles w in
  (forall k d d',
     db.item_url <$> db.sent_items d = db.item_url <$> db.sent_items d' ->
     db.already_sent k d = db.already_sent k d')
  /\ (forall now now' f f' k d,
        db.already_sent k (db.mark_as_sent now f k d) = true
        /\ db.mark_as_sent now' f' k (db.mark_as_sent now f k d)
           = db.mark_as_sent now f k d)
  /\ (forall k, db.already_sent k (database w) = true ->
        db.already_sent k (database w') = true
        /\ forall e msg, (e, msg) ∈ new_deliveries w w' -> item_key e <> k)
  /\ (db.item_url <$> new_rows w w') = (item_key <$> (fst <$> new_deliveries w w'))
  /\ NoDup (item_key <$> (fst <$> new_deliveries w w')).
Proof.
  intros Hu w'.
  destruct (run_cycles_extension cycles w) as (d & r & Hd & Hr & Hk & Hh & Hu').
  fold w' in Hd, Hr, Hh, Hu'.
  assert (new_deliveries w w' = d) as ->.
  { unfold new_deliveries. by rewrite Hd, drop_app_length. }
  assert (new_rows w w' = r) as ->.
  { unfold new_rows. by rewrite Hr, drop_app_length. }
  split; [apply already_sent_urls |].
  split; [intros; split; [apply already_sent_mark | apply mark_as_sent_again] |].
  split.
  { intros k Hsent. destruct (Hh k Hsent) as [Hsent' Hnot]. split; [done |].
    intros e msg Hin <-. apply Hnot.
    apply list_elem_of_fmap. exists e. split; [done |].
    apply list_elem_of_fmap. by exists (e, msg). }
  split; [done |].
  specialize (Hu' Hu). unfold db.unique_urls in Hu'.
  rewrite Hr, fmap_app in Hu'. apply NoDup_app in Hu' as (_ & _ & Hnd).
  by rewrite <- Hk.
Qed.

End Dedup.

Lemma dedup_across_feeds_witness :
  (item_key <$> (fst <$> new_deliveries (sample_shared 0)
      (run_cycles literal_search sample_mktime
         [sample_cycle (sample_flux 300 None None 0)
            [sample_entry "A" "https://example.org/a" 1];
          sample_cycle other_flux
            [sample_entry "A in another feed" "https://example.org/a" 1;
             sample_entry "B" "https://example.org/b" 2]]
         (sample_shared 0))))
  = ["https://example.org/a"; "https://example.org/b"]
  /\ NoDup (item_key <$> (fst <$> new_deliveries (sample_shared 0)
      (run_cycles literal_search sample_mktime
         [sample_cycle (sample_flux 300 None None 0)
            [sample_entry "A" "https://example.org/a" 1];
          sample_cycle other_flux
            [sample_entry "A in another feed" "https://example.org/a" 1;
             sample_entry "B" "https://example.org/b" 2]]
         (sample_shared 0)))).
Proof.
  split; [vm_compute; reflexivity |].
  pose proof (dedup_across_feeds literal_search sample_mktime
                [sample_cycle (sample_flux 300 None None 0)
                   [sample_entry "A" "https://example.org/a" 1];
                 sample_cycle other_flux
                   [sample_entry "A in another feed" "https://example.org/a" 1;
                    sample_entry "B" "https://example.org/b" 2]]
                (sample_shared 0)) as H.
  cbv zeta in H. apply H.
  apply (bool_decide_unpack _). vm_compute. exact I.
Defined.

(** The claim of C10 without its scope, at a failing input: a feed
    delivers an item and the store holds its URL; eight days later the
    application starts again and its sweep, which keeps seven days,
    removes the row; the item, still in the feed of another feed
    object, is delivered a second time. *)
Lemma dedup_lost_after_sweep :
  let a := sample_entry "A" "https://example.org/a" 1 in
  let w1 :=
    rss_checker.check_flux literal_search sample_mktime accepting
      (sample_flux 300 None None 0) (at_time 12 0 0 0) (Ok [a]) (sample_shared 0) in
  let swept := main.startup_sweep config.default_settings (8 * 86400) w1 in
  let w2 :=
    rss_checker.check_flux literal_search sample_mktime accepting
      other_flux (at_time 12 0 0 0) (Ok [a]) (snd swept) in
  db.already_sent "https://example.org/a" (database w1) = true
  /\ fst swept = 1
  /\ db.already_sent "https://example.org/a" (database (snd swept)) = false
  /\ (item_key <$> (fst <$> delivered w2))
     = ["https://example.org/a"; "https://example.org/a"].
Proof. vm_compute. repeat split; reflexivity. Qed.

(** The cycle at the failing input of C3: the exclude list holds one
    pattern, which does not compile; no entry is delivered, though none
    of them matches anything. *)
Lemma invalid_exclude_pattern_blocks_cycle :
  new_deliveries (sample_shared 0)
    (rss_checker.check_flux literal_search sample_mktime accepting
       (sample_flux 300 None (Some ["("]) 0) (at_time 12 0 0 0)
       (Ok sample_entries) (sample_shared 0)) = []
  /\ RSSService.sent_count
       (fst (RSSService.check_and_send_flux literal_search sample_mktime accepting
               (sample_flux 300 None (Some ["("]) 0) (at_time 12 0 0 0)
               (Ok sample_entries) (sample_shared 0))) = 0
  /\ List.length
       (new_deliveries (sample_shared 0)
          (rss_checker.check_flux literal_search sample_mktime accepting
             (sample_flux 300 None None 0) (at_time 12 0 0 0)
             (Ok sample_entries) (sample_shared 0))) = 5%nat.
Proof. vm_compute. repeat split; reflexivity. Qed.

(** ** Failures of the metadata update *)

Section Swallow.

Variable re_search : string -> string -> re_outcome.
Variable mktime : struct_time -> result Z.
Variables o1 o2 : outside.
Variable flux : models.FluxInDB.
Variable now : datetime.datetime.

Hypothesis Hsend : forall n m, send_to_discord o1 n m = send_to_discord o2 n m.
Hypothesis Hclock : forall n, current_timestamp o1 n = current_timestamp o2 n.

Lemma checker_turn_same (st1 st2 : cycle_state) (e : entry) :
  same_but_collection st1 st2 ->
  same_but_collection (rss_checker.process_entry re_search mktime o1 flux now st1 e)
    (rss_checker.process_entry re_search mktime o2 flux now st2 e).
Proof.
  destruct st1 as [s1 seen1 [d1 c1 l1 n1]], st2 as [s2 seen2 [d2 c2 l2 n2]].
  unfold same_but_collection. simpl. intros (-> & -> & -> & -> & ->).
  unfold rss_checker.process_entry. cbn -[rss_checker.within_quiet_hours
    rss_checker.language_filter rss_checker.match_keywords rss_checker.match_regex
    rss_checker.match_domains rss_checker.normalize_text build_message
    db.already_sent db.mark_as_sent rss_checker.getItemDate update_one String.eqb].
  rewrite Hsend, Hclock.
  same_tests; try (destruct (send_to_discord o2 _ _); simpl; done).
Qed.

Lemma service_turn_same (st1 st2 : cycle_state) (e : entry) :
  same_but_collection st1 st2 ->
  same_but_collection (RSSService.process_entry re_search mktime o1 flux now st1 e)
    (RSSService.process_entry re_search mktime o2 flux now st2 e).
Proof.
  destruct st1 as [s1 seen1 [d1 c1 l1 n1]], st2 as [s2 seen2 [d2 c2 l2 n2]].
  unfold same_but_collection. simpl. intros (-> & -> & -> & -> & ->).
  unfold RSSService.process_entry. cbn -[RSSService.is_in_quiet_hours
    RSSService.filter_by_language RSSService.match_keywords RSSService.match_regex
    RSSService.match_domains Py.strip build_message
    db.already_sent db.mark_as_sent RSSService.extract_item_date update_one String.eqb].
  rewrite Hsend, Hclock.
  same_tests; try (destruct (send_to_discord o2 _ _); simpl; done).
Qed.

Lemma for_entries_same (body1 body2 : cycle_state -> entry -> cycle_state) (cap : Z) :
  (forall st1 st2 e, same_but_collection st1 st2 ->
     same_but_collection (body1 st1 e) (body2 st2 e)) ->
  forall l st1 st2, same_but_collection st1 st2 ->
    same_but_collection (for_entries body1 cap st1 l) (for_entries body2 cap st2 l).
Proof.
  intros Hbody. induction l as [| e l IH]; intros st1 st2 Hsame; [done |].
  cbn [for_entries]. destruct Hsame as (Hs & Hrest). rewrite Hs.
  destruct (sent_this_run st2 >=? cap); [by split |].
  apply IH, Hbody. by split.
Qed.

(** X29. Whether the updates of the metadata succeed or raise, a cycle
    makes the same deliveries, in the same order, and leaves the same
    store: a failed update sends nothing again and stops nothing. *)
Lemma metadata_failure_swallowed (feed : result (list entry)) (w : shared) :
  let w1 := rss_checker.check_flux re_search mktime o1 flux now feed w in
  let w2 := rss_checker.check_flux re_search mktime o2 flux now feed w in
  let r1 := RSSService.check_and_send_flux re_search mktime o1 flux now feed w in
  let r2 := RSSService.check_and_send_flux re_search mktime o2 flux now feed w in
  (database w1 = database w2 /\ delivered w1 = delivered w2 /\ calls w1 = calls w2)
  /\ (fst r1 = fst r2 /\ database (snd r1) = database (snd r2)
      /\ delivered (snd r1) = delivered (snd r2)).
Proof.
  cbv zeta. split.
  - rewrite !check_flux_loop.
    destruct (for_entries_same _ _ (max_per_run_of flux) checker_turn_same
                (cycle_entries mktime feed) (initial_state w) (initial_state w))
      as (_ & _ & H1 & H2 & H3); done.
  - unfold RSSService.check_and_send_flux.
    destruct feed as [[| e l] | err]; [done | | done].
    destruct (RSSService.sort_entries_by_date mktime (e :: l)) as [entries | err]; [| done].
    destruct (for_entries_same _ _ (max_per_run_of flux) service_turn_same
                entries (initial_state w) (initial_state w))
      as (H0 & _ & H1 & H2 & _); [done |].
    cbn [fst snd]. unfold initial_state in *. by rewrite H0, H1, H2.
Qed.

End Swallow.

(** * Further properties *)

(** ** The store of dispatched items, continued *)

Section DedupStoreMore.

Implicit Types (d : db.database) (k : string) (now days : Z).

(** X1. Marking one key is invisible to every other key: the answer of
    [already_sent] and the rows recorded for another key are what they
    were. *)
Theorem mark_as_sent_other_key now (f k k' : string) d :
  k <> k' ->
  db.already_sent k' (db.mark_as_sent now f k d) = db.already_sent k' d
  /\ db.records_for k' (db.mark_as_sent now f k d) = db.records_for k' d.
Proof.
  intros Hne. apply String.eqb_neq in Hne.
  unfold db.already_sent, db.records_for. rewrite mark_as_sent_rows.
  destruct (db.already_sent k d); [done |].
  rewrite existsb_app, List.filter_app. simpl. rewrite Hne. simpl.
  by rewrite orb_false_r, app_nil_r.
Qed.

Lemma mark_as_sent_other_key_witness :
  db.already_sent "https://example.org/b"
    (db.mark_as_sent 10 "f1" "https://example.org/a" db.init_db) = false.
Proof.
  rewrite (proj1 (mark_as_sent_other_key 10 "f1" "https://example.org/a"
                    "https://example.org/b" db.init_db ltac:(discriminate))).
  reflexivity.
Defined.

Lemma cleanup_rows now days d :
  db.sent_items (snd (db.cleanup_old_entries now days d))
  = List.filter (fun r => negb (db.sent_at r <? now - days * 86400)) (db.sent_items d).
Proof. reflexivity. Qed.

Lemma filter_elem_of {A} (p : A -> bool) (l : list A) (x : A) :
  x ∈ List.filter p l <-> x ∈ l /\ p x = true.
Proof. rewrite !list_elem_of_In. apply filter_In. Qed.

Lemma filter_sublist {A} (p : A -> bool) (l : list A) : sublist (List.filter p l) l.
Proof.
  induction l as [| x l IH]; simpl; [constructor |].
  destruct (p x); by constructor.
Qed.

(** X2. The retention sweep keeps exactly the rows that are not older
    than the cutoff, in their order, and answers with the number of
    rows it removed; it keeps the UNIQUE constraint, and afterwards a
    key is known exactly when one of its rows was recent enough. *)
Theorem cleanup_old_entries_keeps_recent now days d :
  0 <= days ->
  let cutoff := now - days * 86400 in
  let deleted := fst (db.cleanup_old_entries now days d) in
  let d' := snd (db.cleanup_old_entries now days d) in
  (forall r, r ∈ db.sent_items d' <-> r ∈ db.sent_items d /\ cutoff <= db.sent_at r)
  /\ sublist (db.sent_items d') (db.sent_items d)
  /\ 0 <= deleted
  /\ deleted + Z.of_nat (List.length (db.sent_items d'))
     = Z.of_nat (List.length (db.sent_items d))
  /\ (db.unique_urls d -> db.unique_urls d')
  /\ (forall k, db.already_sent k d' = true <->
        exists r, r ∈ db.sent_items d /\ db.item_url r = k /\ cutoff <= db.sent_at r).
Proof.
  intros _. cbv zeta.
  assert (forall r, r ∈ db.sent_items (snd (db.cleanup_old_entries now days d))
                    <-> r ∈ db.sent_items d /\ now - days * 86400 <= db.sent_at r) as Hin.
  { intros r. rewrite cleanup_rows, filter_elem_of.
    destruct (Z.ltb_spec (db.sent_at r) (now - days * 86400)); simpl;
      split; intros [? ?]; (done || split; (done || lia)). }
  pose proof (filter_sublist (fun r => negb (db.sent_at r <? now - days * 86400))
                (db.sent_items d)) as Hsub.
  split; [exact Hin |]. rewrite cleanup_rows. split; [exact Hsub |].
  pose proof (sublist_length _ _ Hsub) as Hlen.
  split; [simpl; lia |]. split; [simpl; lia |]. split.
  - unfold db.unique_urls. rewrite cleanup_rows.
    intros Hu. apply (sublist_NoDup _ _ Hu (fmap_sublist db.item_url _ _ Hsub)).
  - intros k. rewrite already_sent_elem, list_elem_of_fmap. split.
    + intros (r & -> & Hr). apply Hin in Hr as [Hr Hc]. by exists r.
    + intros (r & Hr & <- & Hc). exists r. split; [done |]. apply Hin. by split.
Qed.

Lemma cleanup_old_entries_keeps_recent_witness :
  db.already_sent "https://example.org/new"
    (snd (db.cleanup_old_entries 1000000 7
            (db.mark_as_sent 999999 "f1" "https://example.org/new"
               (db.mark_as_sent 10 "f1" "https://example.org/old" db.init_db)))) = true.
Proof.
  apply (proj2 (proj2 (proj2 (proj2 (proj2
           (cleanup_old_entries_keeps_recent 1000000 7
              (db.mark_as_sent 999999 "f1" "https://example.org/new"
                 (db.mark_as_sent 10 "f1" "https://example.org/old" db.init_db))
              ltac:(lia)))))) "https://example.org/new").
  exists {| db.id := 2; db.flux_id := "f1"; db.item_url := "https://example.org/new";
            db.sent_at := 999999 |}.
  split; [| split; [reflexivity | simpl; lia]].
  vm_compute. apply list_elem_of_further, list_elem_of_here.
Defined.

(** X3. A second sweep with the same clock and the same retention
    finds nothing to remove and changes nothing. *)
Theorem cleanup_old_entries_twice now days d :
  0 <= days ->
  db.cleanup_old_entries now days (snd (db.cleanup_old_entries now days d))
  = (0, snd (db.cleanup_old_entries now days d)).
Proof.
  intros _. unfold db.cleanup_old_entries. cbn [snd db.sent_items db.sequence].
  set (keep := fun r => negb (db.sent_at r <? now - days * 86400)).
  assert (List.filter keep (List.filter keep (db.sent_items d))
          = List.filter keep (db.sent_items d)) as ->.
  { induction (db.sent_items d) as [| r l IH]; simpl; [done |].
    destruct (keep r) eqn:E; simpl; [by rewrite E, IH | done]. }
  f_equal. lia.
Qed.

Lemma cleanup_old_entries_twice_witness :
  db.cleanup_old_entries 1000000 7
    (snd (db.cleanup_old_entries 1000000 7
            (db.mark_as_sent 10 "f1" "https://example.org/old" db.init_db)))
  = (0, snd (db.cleanup_old_entries 1000000 7
               (db.mark_as_sent 10 "f1" "https://example.org/old" db.init_db))).
Proof.
  apply (cleanup_old_entries_twice 1000000 7
           (db.mark_as_sent 10 "f1" "https://example.org/old" db.init_db)).
  lia.
Defined.

End DedupStoreMore.

(** ** Strings *)

Section Strings.

Implicit Types (s t u x : string) (c a : ascii).

Lemma append_empty_r s : (s ++ "")%string = s.
Proof.
  induction s as [| a s IH]; [done |].
  change (String a s ++ "")%string with (String a (s ++ "")%string). by rewrite IH.
Qed.

Lemma prefix_char c a s :
  String.prefix (String c EmptyString) (String a s) = Ascii.eqb c a.
Proof.
  simpl. destruct (ascii_dec c a) as [-> | Hne].
  - rewrite Ascii.eqb_refl. by destruct s.
  - symmetry. by apply Ascii.eqb_neq.
Qed.

Lemma contains_char_cons c a s :
  Py.contains (String c EmptyString) (String a s)
  = Ascii.eqb c a || Py.contains (String c EmptyString) s.
Proof. cbn [Py.contains]. by rewrite prefix_char. Qed.

Lemma contains_char_app c s t :
  Py.contains (String c EmptyString) (s ++ t)
  = Py.contains (String c EmptyString) s || Py.contains (String c EmptyString) t.
Proof.
  induction s as [| a s IH].
  - simpl. by destruct t.
  - change (String a s ++ t)%string with (String a (s ++ t)%string).
    by rewrite !contains_char_cons, IH, orb_assoc.
Qed.

(** A piece cut before the first occurrence of a character does not
    hold that character, and holds no character that the text did not
    hold. *)
Lemma split_first_char_free c s :
  Py.contains (String c EmptyString) (Py.split_first (String c EmptyString) s) = false.
Proof.
  unfold Py.split_first. induction s as [| a s IH]; [done |].
  cbn [Py.split_go]. rewrite prefix_char.
  destruct (Py.split_go (String c EmptyString) s
              (String.length (String c EmptyString) - 1)) as [h' t'].
  destruct (Py.split_go (String c EmptyString) s 0) as [h t]. simpl in IH.
  destruct (Ascii.eqb c a) eqn:E; [done |].
  cbn [fst]. by rewrite contains_char_cons, E, IH.
Qed.

Lemma split_go_keeps_free c sep s :
  Py.contains (String c EmptyString) s = false ->
  forall k, Py.contains (String c EmptyString) (fst (Py.split_go sep s k)) = false.
Proof.
  induction s as [| a s IH]; intros Hs k; [done |].
  rewrite contains_char_cons in Hs. apply orb_false_elim in Hs as [Ha Hs].
  cbn [Py.split_go]. destruct k as [| k]; [| by apply IH].
  pose proof (IH Hs 0%nat) as IH0.
  destruct (Py.split_go sep s (String.length sep - 1)) as [h' t'].
  destruct (Py.split_go sep s 0) as [h t]. simpl in IH0.
  destruct (String.prefix sep (String a s)); [done |].
  cbn [fst]. by rewrite contains_char_cons, Ha, IH0.
Qed.

(** The segment the resolvers cut out of a URL holds neither a slash
    nor a question mark. *)
Lemma segment_after_clean (marker url : string) :
  Py.contains "/" (URLResolver.segment_after marker url) = false
  /\ Py.contains "?" (URLResolver.segment_after marker url) = false.
Proof.
  unfold URLResolver.segment_after. split; [| apply split_first_char_free].
  apply split_go_keeps_free, split_first_char_free.
Qed.

(** Without an occurrence of the separator a text is its own single
    piece. *)
Lemma split_go_absent sep s :
  Py.contains sep s = false -> Py.split_go sep s 0 = (s, []).
Proof.
  induction s as [| a s IH]; intros Hs; [done |].
  cbn [Py.contains] in Hs. apply orb_false_elim in Hs as [Hp Hs].
  cbn [Py.split_go]. rewrite Hp, (IH Hs). done.
Qed.

Lemma split_first_char_app c u x :
  Py.contains (String c EmptyString) u = false ->
  Py.split_first (String c EmptyString) (u ++ x)
  = (u ++ Py.split_first (String c EmptyString) x)%string.
Proof.
  unfold Py.split_first. induction u as [| a u IH]; intros Hu; [done |].
  rewrite contains_char_cons in Hu. apply orb_false_elim in Hu as [Ha Hu].
  change (String a u ++ x)%string with (String a (u ++ x)%string).
  cbn [Py.split_go]. rewrite prefix_char, Ha.
  specialize (IH Hu).
  destruct (Py.split_go (String c EmptyString) (u ++ x) 0) as [h t].
  simpl in IH. simpl. by rewrite IH.
Qed.

Lemma split_first_char_here c x :
  Py.split_first (String c EmptyString) (String c x) = EmptyString.
Proof.
  unfold Py.split_first. cbn [Py.split_go]. rewrite prefix_char, Ascii.eqb_refl.
  by destruct (Py.split_go (String c EmptyString) x _).
Qed.

Lemma split_first_char_absent c u :
  Py.contains (String c EmptyString) u = false ->
  Py.split_first (String c EmptyString) u = u.
Proof.
  intros Hu. unfold Py.split_first. by rewrite split_go_absent.
Qed.

(** The name that starts a text and ends at its first slash or
    question mark, or at the end of the text. *)
Lemma name_segment (u rest : string) :
  Py.contains "/" u = false -> Py.contains "?" u = false ->
  rest = EmptyString \/ (exists r, rest = String "/" r) \/ (exists r, rest = String "?" r) ->
  Py.split_first "?" (Py.split_first "/" (u ++ rest)) = u.
Proof.
  intros Hs Hq [-> | [[r ->] | [r ->]]].
  - rewrite append_empty_r.
    by rewrite (split_first_char_absent "/" u Hs), (split_first_char_absent "?" u Hq).
  - rewrite (split_first_char_app "/" u _ Hs), split_first_char_here.
    rewrite append_empty_r. by rewrite (split_first_char_absent "?" u Hq).
  - rewrite (split_first_char_app "/" u _ Hs).
    rewrite (split_first_char_app "?" u _ Hq).
    assert (Py.contains "?" (String "?" r) = true) as Hc by (by rewrite contains_char_cons).
    assert (Py.split_first "/" (String "?" r)
            = String "?" (Py.split_first "/" r)) as ->.
    { change (String "?" r) with ("?" ++ r)%string.
      by rewrite (split_first_char_app "/" "?" r). }
    rewrite split_first_char_here. apply append_empty_r.
Qed.

End Strings.

Section Markers.

Implicit Types (s t u x sep pre tail : string) (c a : ascii).

Lemma prefix_empty s : String.prefix EmptyString s = true.
Proof. by destruct s. Qed.

Lemma prefix_cons a sep b s :
  String.prefix (String a sep) (String b s) = Ascii.eqb a b && String.prefix sep s.
Proof.
  simpl. destruct (ascii_dec a b) as [-> | Hne].
  - by rewrite Ascii.eqb_refl.
  - apply Ascii.eqb_neq in Hne. by rewrite Hne.
Qed.

Lemma append_cons a s t : (String a s ++ t)%string = String a (s ++ t)%string.
Proof. reflexivity. Qed.

Lemma append_assoc s t u : ((s ++ t) ++ u)%string = (s ++ t ++ u)%string.
Proof.
  induction s as [| a s IH]; [done |]. by rewrite !append_cons, IH.
Qed.

Lemma length_append s t :
  String.length (s ++ t) = (String.length s + String.length t)%nat.
Proof.
  induction s as [| a s IH]; [done |]. rewrite append_cons. simpl. by rewrite IH.
Qed.

Lemma prefix_append_self sep tail : String.prefix sep (sep ++ tail) = true.
Proof.
  induction sep as [| a sep IH]; [apply prefix_empty |].
  by rewrite append_cons, prefix_cons, Ascii.eqb_refl, IH.
Qed.

(** Whether [sep] starts a text is settled by as many characters of the
    text as [sep] has. *)
Lemma prefix_append_long sep :
  forall s t, (String.length sep <= String.length s)%nat ->
    String.prefix sep (s ++ t) = String.prefix sep s.
Proof.
  induction sep as [| a sep IH]; intros s t Hlen.
  - by rewrite !prefix_empty.
  - destruct s as [| b s]; [simpl in Hlen; lia |].
    rewrite append_cons, !prefix_cons. rewrite IH; [done | simpl in Hlen; lia].
Qed.

Lemma contains_append_self pre sep tail :
  Py.contains sep (pre ++ sep ++ tail) = true.
Proof.
  induction pre as [| a pre IH].
  - change (EmptyString ++ sep ++ tail)%string with (sep ++ tail)%string.
    destruct (sep ++ tail)%string eqn:E; cbn [Py.contains];
      rewrite <- E, prefix_append_self; done.
  - rewrite append_cons. cbn [Py.contains]. rewrite IH. apply orb_true_r.
Qed.

Lemma split_go_skip sep s :
  forall x, Py.split_go sep (s ++ x) (String.length s) = Py.split_go sep x 0.
Proof.
  induction s as [| a s IH]; intros x; [done |].
  rewrite append_cons. cbn [String.length Py.split_go]. apply IH.
Qed.

(** A text in which the separator occurs once, after [pre], splits in
    two pieces: [pre] and what follows the separator. [sep0] is the
    separator without its last character [c]. *)
Lemma split_go_once sep0 c tail :
  let sep := (sep0 ++ String c EmptyString)%string in
  Py.contains sep tail = false ->
  forall pre, Py.contains sep (pre ++ sep0) = false ->
    Py.split_go sep (pre ++ sep ++ tail) 0 = (pre, [tail]).
Proof.
  intros sep. generalize (eq_refl : sep = (sep0 ++ String c EmptyString)%string).
  generalize sep. clear sep. intros sep Hdef Htail.
  induction pre as [| a pre IH]; intros Hpre.
  - change (EmptyString ++ sep ++ tail)%string with (sep ++ tail)%string.
    assert (exists b sep', sep = String b sep') as (b & sep' & Hsep).
    { rewrite Hdef. destruct sep0; simpl; eauto. }
    pose proof (prefix_append_self sep tail) as Hp.
    rewrite Hsep in Hp |- *. rewrite append_cons in Hp |- *.
    cbn [Py.split_go]. rewrite Hp.
    cbn [String.length]. rewrite Nat.sub_1_r. cbn [Nat.pred].
    rewrite split_go_skip. rewrite <- Hsep.
    by rewrite (split_go_absent _ _ Htail).
  - rewrite append_cons in Hpre. cbn [Py.contains] in Hpre.
    apply orb_false_elim in Hpre as [Hhere Hrest].
    rewrite append_cons. cbn [Py.split_go].
    assert (String.prefix sep (String a (pre ++ sep ++ tail)) = false) as ->.
    { rewrite <- Hhere.
      replace (String a (pre ++ sep ++ tail))%string
        with (String a (pre ++ sep0) ++ String c tail)%string.
      - apply prefix_append_long. rewrite Hdef. cbn [String.length].
        rewrite !length_append. simpl. lia.
      - rewrite Hdef, append_cons, !append_assoc. done. }
    by rewrite (IH Hrest).
Qed.

Lemma split_last_once sep0 c pre tail :
  let sep := (sep0 ++ String c EmptyString)%string in
  Py.contains sep tail = false ->
  Py.contains sep (pre ++ sep0) = false ->
  Py.split_last sep (pre ++ sep ++ tail) = tail.
Proof.
  cbv zeta. intros Htail Hpre. unfold Py.split_last.
  by rewrite (split_go_once sep0 c tail Htail pre Hpre).
Qed.

(** The segment cut out of a URL in which the marker occurs once, a
    name following it. *)
Lemma segment_after_once sep0 c pre name rest :
  let marker := (sep0 ++ String c EmptyString)%string in
  Py.contains "/" name = false -> Py.contains "?" name = false ->
  rest = EmptyString \/ (exists r, rest = String "/" r) \/ (exists r, rest = String "?" r) ->
  Py.contains marker (name ++ rest) = false ->
  Py.contains marker (pre ++ sep0) = false ->
  URLResolver.segment_after marker (pre ++ marker ++ name ++ rest) = name.
Proof.
  cbv zeta. intros Hs Hq Hrest Htail Hpre. unfold URLResolver.segment_after.
  rewrite (split_last_once sep0 c pre _ Htail Hpre). by apply name_segment.
Qed.

End Markers.

(** ** The source resolver, continued *)

Section ResolverMore.

Variable settings : config.Settings.

Lemma segment_after_profile sep0 c pre name rest :
  profile_url sep0 c pre name rest ->
  URLResolver.segment_after (sep0 ++ String c EmptyString)
    (pre ++ (sep0 ++ String c EmptyString) ++ name ++ rest) = name.
Proof. intros [H1 H2 H3 H4 H5]. by apply segment_after_once. Qed.

(** X4. The address of a profile on Facebook, Instagram or TikTok, with
    whatever comes before the marker of the platform and whatever path
    or query comes after the name, resolves to the route of the bridging
    service for that name, the base address of the service being taken
    without its trailing slashes. *)
Theorem resolve_bridged_profile (pre name rest : string) :
  (profile_url "facebook.com" "/" pre name rest ->
   URLResolver.resolve settings (Some (pre ++ "facebook.com/" ++ name ++ rest)%string)
     "facebook"
   = Some (Py.rstrip_slash (config.rsshub_base settings) ++ "/facebook/page/" ++ name)%string)
  /\ (profile_url "instagram.com" "/" pre name rest ->
      URLResolver.resolve settings (Some (pre ++ "instagram.com/" ++ name ++ rest)%string)
        "instagram"
      = Some (Py.rstrip_slash (config.rsshub_base settings) ++ "/instagram/user/" ++ name)%string)
  /\ (profile_url "tiktok.com/" "@" pre name rest ->
      URLResolver.resolve settings (Some (pre ++ "tiktok.com/@" ++ name ++ rest)%string)
        "tiktok"
      = Some (Py.rstrip_slash (config.rsshub_base settings) ++ "/tiktok/user/" ++ name)%string).
Proof.
  repeat split; intros Hp;
    unfold URLResolver.resolve, URLResolver.resolve_body; cbn [String.eqb Ascii.eqb Bool.eqb];
    unfold URLResolver._resolve_facebook, URLResolver._resolve_instagram,
      URLResolver._resolve_tiktok, URLResolver.py_in; cbn [bind default];
    rewrite contains_append_self; cbn [try_except];
    pose proof (segment_after_profile _ _ _ _ _ Hp) as Hseg;
    unfold id; do 3 f_equal; exact Hseg.
Qed.

(** X5. The address of a YouTube channel resolves to the feed of that
    channel identifier; the address of a handle ([@name]), of a user or
    of a custom name resolves to the feed of that user name, provided
    the markers tested before its own do not occur in the address. *)
Theorem resolve_youtube_profile (pre name rest : string) :
  (profile_url "youtube.com/channel" "/" pre name rest ->
   URLResolver.resolve settings
     (Some (pre ++ "youtube.com/channel/" ++ name ++ rest)%string) "youtube"
   = Some ("https://www.youtube.com/feeds/videos.xml?channel_id=" ++ name)%string)
  /\ (profile_url "youtube.com/" "@" pre name rest ->
      Py.contains "youtube.com/channel/" (pre ++ "youtube.com/@" ++ name ++ rest) = false ->
      URLResolver.resolve settings
        (Some (pre ++ "youtube.com/@" ++ name ++ rest)%string) "youtube"
      = Some ("https://www.youtube.com/feeds/videos.xml?user=" ++ name)%string)
  /\ (profile_url "youtube.com/user" "/" pre name rest ->
      Py.contains "youtube.com/channel/" (pre ++ "youtube.com/user/" ++ name ++ rest) = false ->
      Py.contains "youtube.com/@" (pre ++ "youtube.com/user/" ++ name ++ rest) = false ->
      URLResolver.resolve settings
        (Some (pre ++ "youtube.com/user/" ++ name ++ rest)%string) "youtube"
      = Some ("https://www.youtube.com/feeds/videos.xml?user=" ++ name)%string)
  /\ (profile_url "youtube.com/c" "/" pre name rest ->
      Py.contains "youtube.com/channel/" (pre ++ "youtube.com/c/" ++ name ++ rest) = false ->
      Py.contains "youtube.com/@" (pre ++ "youtube.com/c/" ++ name ++ rest) = false ->
      Py.contains "youtube.com/user/" (pre ++ "youtube.com/c/" ++ name ++ rest) = false ->
      URLResolver.resolve settings
        (Some (pre ++ "youtube.com/c/" ++ name ++ rest)%string) "youtube"
      = Some ("https://www.youtube.com/feeds/videos.xml?user=" ++ name)%string).
Proof.
  repeat split; intros Hp;
    unfold URLResolver.resolve, URLResolver.resolve_body; cbn [String.eqb Ascii.eqb Bool.eqb];
    unfold URLResolver._resolve_youtube, URLResolver.py_in; cbn [bind default];
    pose proof (segment_after_profile _ _ _ _ _ Hp) as Hseg.
  - rewrite contains_append_self. cbn [try_except]. unfold id. do 2 f_equal. exact Hseg.
  - intros ->. rewrite contains_append_self. cbn [try_except]. unfold id.
    do 2 f_equal. exact Hseg.
  - intros -> ->. rewrite contains_append_self. cbn [try_except]. unfold id.
    do 2 f_equal. exact Hseg.
  - intros -> -> ->. rewrite contains_append_self. cbn [try_except]. unfold id.
    do 2 f_equal. exact Hseg.
Qed.

(** X6. What the resolver gives for a string on the three bridged
    platforms: when the marker of the platform occurs in the address,
    the route of the bridging service followed by a name that holds no
    slash and no question mark; when it does not occur, the address
    itself. *)
Theorem resolve_bridged_shape (u : string) :
  let base := Py.rstrip_slash (config.rsshub_base settings) in
  let shape (kind marker route : string) :=
    (Py.contains marker u = true ->
     exists n, URLResolver.resolve settings (Some u) kind = Some (base ++ route ++ n)%string
               /\ Py.contains "/" n = false /\ Py.contains "?" n = false)
    /\ (Py.contains marker u = false ->
        URLResolver.resolve settings (Some u) kind = Some u) in
  shape "facebook" "facebook.com/" "/facebook/page/"
  /\ shape "instagram" "instagram.com/" "/instagram/user/"
  /\ shape "tiktok" "tiktok.com/@" "/tiktok/user/".
Proof.
  cbv zeta.
  repeat split; intros Hc;
    unfold URLResolver.resolve, URLResolver.resolve_body; cbn [String.eqb Ascii.eqb Bool.eqb];
    unfold URLResolver._resolve_facebook, URLResolver._resolve_instagram,
      URLResolver._resolve_tiktok, URLResolver.py_in; cbn [bind default];
    rewrite Hc; cbn [try_except]; try done;
    eexists; (split; [reflexivity | apply segment_after_clean]).
Qed.

End ResolverMore.

Lemma resolve_bridged_profile_witness :
  URLResolver.resolve config.default_settings
    (Some "https://www.instagram.com/alice/reels?x=1") "instagram"
  = Some (Py.rstrip_slash (config.rsshub_base config.default_settings)
          ++ "/instagram/user/alice")%string.
Proof.
  apply (proj1 (proj2 (resolve_bridged_profile config.default_settings
                         "https://www." "alice" "/reels?x=1"))).
  split; [reflexivity | reflexivity | right; left; by eexists | reflexivity | reflexivity].
Defined.

Lemma resolve_youtube_profile_witness :
  URLResolver.resolve config.default_settings
    (Some "https://www.youtube.com/@name?si=abc") "youtube"
  = Some "https://www.youtube.com/feeds/videos.xml?user=name".
Proof.
  apply (proj1 (proj2 (resolve_youtube_profile config.default_settings
                         "https://www." "name" "?si=abc"))).
  - split; [reflexivity | reflexivity | right; right; by eexists | reflexivity | reflexivity].
  - reflexivity.
Defined.

Lemma resolve_bridged_shape_witness :
  exists n,
    URLResolver.resolve config.default_settings
      (Some "https://www.tiktok.com/@bob/video/1?lang=fr") "tiktok"
    = Some (Py.rstrip_slash (config.rsshub_base config.default_settings)
            ++ "/tiktok/user/" ++ n)%string
    /\ Py.contains "/" n = false /\ Py.contains "?" n = false.
Proof.
  apply (proj1 (proj2 (proj2 (resolve_bridged_shape config.default_settings
                                "https://www.tiktok.com/@bob/video/1?lang=fr")))).
  reflexivity.
Defined.

(** ** The domain filter *)

Section Domains.

Implicit Types (s t u x : string).

Lemma substring_all s : String.substring 0 (String.length s) s = s.
Proof. induction s as [| a s IH]; [done |]. simpl. by rewrite IH. Qed.

Lemma substring_drop p x :
  String.substring (String.length p) (String.length (p ++ x) - String.length p) (p ++ x) = x.
Proof.
  induction p as [| a p IH].
  - change (EmptyString ++ x)%string with x. cbn [String.length].
    rewrite Nat.sub_0_r. apply substring_all.
  - rewrite append_cons. cbn [String.length String.substring Nat.sub]. apply IH.
Qed.

Lemma strip_scheme_page scheme (www : bool) d rest :
  scheme = "https://" \/ scheme = "http://" ->
  (www = false -> String.prefix "www." (d ++ rest) = false) ->
  rss_checker.strip_scheme (page_url scheme www d rest) = (d ++ rest)%string.
Proof.
  intros Hscheme Hwww. unfold rss_checker.strip_scheme, page_url.
  destruct Hscheme as [-> | ->].
  - rewrite prefix_append_self.
    rewrite (substring_drop "https://" _).
    destruct www.
    + rewrite prefix_append_self. apply (substring_drop "www." _).
    + change (EmptyString ++ d ++ rest)%string with (d ++ rest)%string.
      by rewrite (Hwww eq_refl).
  - change (String.prefix "https://" ("http://" ++ _)) with false. cbv iota.
    rewrite prefix_append_self.
    rewrite (substring_drop "http://" _).
    destruct www.
    + rewrite prefix_append_self. apply (substring_drop "www." _).
    + change (EmptyString ++ d ++ rest)%string with (d ++ rest)%string.
      by rewrite (Hwww eq_refl).
Qed.

Lemma str_in_elem x (l : list string) : rss_checker.str_in x l = true <-> x ∈ l.
Proof.
  unfold rss_checker.str_in. rewrite existsb_exists. split.
  - intros (y & Hy & Heq). apply String.eqb_eq in Heq as ->. by apply list_elem_of_In.
  - intros Hx. exists x. split; [by apply list_elem_of_In | apply String.eqb_refl].
Qed.

(** X7. The domain filter on the address of a page: the domain compared
    with the lists is what stands between the scheme, with one [www.]
    removed, and the first slash; the address passes exactly when the
    whitelist is empty or holds that domain, and the blacklist does not
    hold it. The comparison is the equality of strings. The checker and
    the service agree. *)
Theorem match_domains_of_page (scheme : string) (www : bool) (d rest : string)
    (whitelist blacklist : list string) :
  scheme = "https://" \/ scheme = "http://" ->
  Py.contains "/" d = false ->
  (www = false -> String.prefix "www." (d ++ rest) = false) ->
  rest = EmptyString \/ (exists r, rest = String "/" r) ->
  rss_checker.extract_domain (page_url scheme www d rest) = d
  /\ RSSService.extract_domain (page_url scheme www d rest) = d
  /\ (rss_checker.match_domains (page_url scheme www d rest) whitelist blacklist = true
      <-> (whitelist = [] \/ d ∈ whitelist) /\ d ∉ blacklist)
  /\ RSSService.match_domains (page_url scheme www d rest) whitelist blacklist
     = rss_checker.match_domains (page_url scheme www d rest) whitelist blacklist.
Proof.
  intros Hscheme Hd Hwww Hrest.
  assert (rss_checker.extract_domain (page_url scheme www d rest) = d) as Hdom.
  { unfold rss_checker.extract_domain. rewrite (strip_scheme_page _ _ _ _ Hscheme Hwww).
    rewrite (split_first_char_app "/" d rest Hd).
    destruct Hrest as [-> | [r ->]].
    - change (Py.split_first "/" EmptyString) with EmptyString. apply append_empty_r.
    - rewrite split_first_char_here. apply append_empty_r. }
  split; [exact Hdom |]. split; [exact Hdom |]. split; [| reflexivity].
  unfold rss_checker.match_domains. rewrite Hdom.
  set (A := negb (Nat.eqb (List.length whitelist) 0) && negb (rss_checker.str_in d whitelist)).
  set (B := negb (Nat.eqb (List.length blacklist) 0) && rss_checker.str_in d blacklist).
  assert (A = false <-> whitelist = [] \/ d ∈ whitelist) as HA.
  { unfold A. rewrite <- str_in_elem. destruct whitelist as [| w0 wl].
    - split; [by left | done].
    - cbn [List.length Nat.eqb negb andb]. rewrite negb_false_iff.
      split; [by right | by intros [? | ?]]. }
  assert (B = false <-> d ∉ blacklist) as HB.
  { unfold B. rewrite <- str_in_elem. destruct blacklist as [| b0 bl].
    - split; [by intros _ ? | done].
    - cbn [List.length Nat.eqb negb andb]. symmetry. apply not_true_iff_false. }
  destruct A, B; split; try done.
  - intros [Hw _]. by apply HA in Hw.
  - intros [Hw _]. by apply HA in Hw.
  - intros [_ Hb]. by apply HB in Hb.
  - intros _. split; [by apply HA | by apply HB].
Qed.

End Domains.

Lemma match_domains_of_page_witness :
  rss_checker.extract_domain "https://www.example.org/news/1" = "example.org"
  /\ (rss_checker.match_domains "https://www.example.org/news/1"
        ["example.org"] ["spam.example"] = true
      <-> (["example.org"] = [] \/ "example.org" ∈ ["example.org"])
          /\ "example.org" ∉ ["spam.example"]).
Proof.
  destruct (match_domains_of_page "https://" true "example.org" "/news/1"
              ["example.org"] ["spam.example"]) as (H1 & _ & H2 & _).
  - by left.
  - reflexivity.
  - intros H; discriminate H.
  - right. by eexists.
  - split; [exact H1 | exact H2].
Defined.

(** ** The keyword filter *)

Section Keywords.

Implicit Types (s t a b k : string).

Lemma lower_app s t : Py.lower (s ++ t) = (Py.lower s ++ Py.lower t)%string.
Proof.
  induction s as [| c s IH]; [done |].
  rewrite append_cons. cbn [Py.lower]. by rewrite IH, append_cons.
Qed.

Lemma prefix_app_r k : forall t b, String.prefix k t = true -> String.prefix k (t ++ b) = true.
Proof.
  induction k as [| c k IH]; intros t b H; [apply prefix_empty |].
  destruct t as [| c' t]; [done |].
  rewrite append_cons, prefix_cons. rewrite prefix_cons in H.
  apply andb_true_iff in H as [-> H]. by rewrite (IH _ _ H).
Qed.

Lemma contains_app_r k t b : Py.contains k t = true -> Py.contains k (t ++ b) = true.
Proof.
  induction t as [| c t IH]; cbn [Py.contains]; intros H.
  - rewrite orb_false_r in H. destruct k; [| done].
    destruct (EmptyString ++ b)%string; cbn [Py.contains]; by rewrite prefix_empty.
  - rewrite append_cons. cbn [Py.contains]. apply orb_true_iff in H as [H | H].
    + rewrite <- append_cons, (prefix_app_r _ _ _ H). done.
    + rewrite (IH H). apply orb_true_r.
Qed.

Lemma contains_app_l k a t : Py.contains k t = true -> Py.contains k (a ++ t) = true.
Proof.
  intros H. induction a as [| c a IH]; [done |].
  rewrite append_cons. cbn [Py.contains]. rewrite IH. apply orb_true_r.
Qed.

Lemma contains_empty t : Py.contains EmptyString t = true.
Proof. destruct t; cbn [Py.contains]; by rewrite prefix_empty. Qed.

(** X8. The keyword filter looks for the keywords as pieces of the
    text, letter case apart. For texts of ASCII characters: two texts
    that differ by the case of their letters get the same answer, and a
    text that passes still passes with text added before and after it.
    For any text: a list that holds the empty keyword lets it pass, and
    a list lets pass whatever one of its keywords alone lets pass. *)
Theorem match_keywords_pieces (text : string) (keywords : list string) :
  (forall text',
     is_ascii_text text = true -> is_ascii_text text' = true ->
     Py.lower text' = Py.lower text ->
     rss_checker.match_keywords text' (Some keywords)
     = rss_checker.match_keywords text (Some keywords))
  /\ (forall before after,
        is_ascii_text before = true -> is_ascii_text text = true ->
        is_ascii_text after = true ->
        rss_checker.match_keywords text (Some keywords) = true ->
        rss_checker.match_keywords (before ++ text ++ after) (Some keywords) = true)
  /\ (EmptyString ∈ keywords -> rss_checker.match_keywords text (Some keywords) = true)
  /\ (forall kw, kw ∈ keywords ->
        rss_checker.match_keywords text (Some [kw]) = true ->
        rss_checker.match_keywords text (Some keywords) = true)
  /\ RSSService.match_keywords text (Some keywords)
     = rss_checker.match_keywords text (Some keywords).
Proof.
  unfold rss_checker.match_keywords, RSSService.match_keywords.
  repeat split.
  - intros text' _ _ Heq. by rewrite Heq.
  - intros before after _ _ _. destruct keywords as [| k0 ks]; [done |].
    cbn [Py.truthy_list negb Py.or_nil]. rewrite !existsb_exists.
    intros (kw & Hin & Hc). exists kw. split; [done |].
    rewrite !lower_app. by apply contains_app_l, contains_app_r.
  - intros Hin. destruct keywords as [| k0 ks]; [done |].
    cbn [Py.truthy_list negb Py.or_nil]. apply existsb_exists.
    exists EmptyString. split; [by apply list_elem_of_In | apply contains_empty].
  - intros kw Hin. destruct keywords as [| k0 ks]; [done |].
    cbn [Py.truthy_list negb Py.or_nil]. intros Hc.
    cbn [existsb] in Hc. rewrite orb_false_r in Hc. apply existsb_exists.
    exists kw. split; [by apply list_elem_of_In | done].
Qed.

End Keywords.

Lemma match_keywords_pieces_witness :
  rss_checker.match_keywords "Release notes" (Some ["alpha"; ""]) = true
  /\ rss_checker.match_keywords "New RELEASE today" (Some ["release"]) = true.
Proof.
  split.
  - apply (proj1 (proj2 (proj2 (match_keywords_pieces "Release notes" ["alpha"; ""])))).
    apply (bool_decide_unpack _). vm_compute. exact I.
  - apply (proj1 (proj2 (match_keywords_pieces "RELEASE" ["release"])) "New " " today");
      reflexivity.
Defined.

(** ** The times of the quiet hours *)

Section Times.

Lemma parse_H_two_digits (h : Z) (r : string) :
  0 <= h < 24 -> datetime.parse_H (two_digits h ++ r) = Some (h, r).
Proof.
  intros Hh. rewrite <- (Z2Nat.id h) by lia.
  assert (Z.to_nat h < 24)%nat as Hn by lia. revert Hn. generalize (Z.to_nat h) as n.
  intros n Hn. do 24 (destruct n as [| n]; [reflexivity |]). lia.
Qed.

Lemma parse_M_two_digits (m : Z) :
  0 <= m < 60 -> datetime.parse_M (two_digits m) = Some (m, EmptyString).
Proof.
  intros Hm. rewrite <- (Z2Nat.id m) by lia.
  assert (Z.to_nat m < 60)%nat as Hn by lia. revert Hn. generalize (Z.to_nat m) as n.
  intros n Hn. do 60 (destruct n as [| n]; [reflexivity |]). lia.
Qed.

(** X9. Reading the quiet hours: a time written [HH:MM] with two
    digits each, an hour below 24 and a minute below 60, is read back
    as that hour and that minute, with no second; and whatever text is
    read gives an hour below 24 and a minute below 60. *)
Theorem strptime_HM_round_trip (h m : Z) :
  0 <= h < 24 -> 0 <= m < 60 ->
  datetime.strptime_HM (format_HM h m)
  = Ok {| datetime.hour := h; datetime.minute := m;
          datetime.second := 0; datetime.microsecond := 0 |}
  /\ forall s t, datetime.strptime_HM s = Ok t ->
       0 <= datetime.hour t < 24 /\ 0 <= datetime.minute t < 60
       /\ datetime.second t = 0 /\ datetime.microsecond t = 0.
Proof.
  intros Hh Hm. split.
  - unfold datetime.strptime_HM, format_HM.
    rewrite (parse_H_two_digits h _ Hh).
    change (":" ++ two_digits m)%string with (String ":" (two_digits m)).
    cbv beta iota. by rewrite (parse_M_two_digits m Hm).
  - intros s t Hs. destruct (strptime_HM_valid s t Hs) as ((H1 & H2 & _) & H3 & H4).
    done.
Qed.

(** X10. Quiet hours whose two bounds are the same time cover the
    whole day: every moment is in them. *)
Theorem quiet_hours_equal_bounds (now : datetime.datetime) (s e : string)
    (t : datetime.time) :
  valid_time (datetime.time_of_day now) ->
  datetime.strptime_HM s = Ok t -> datetime.strptime_HM e = Ok t ->
  rss_checker.within_quiet_hours now (Some s) (Some e) = true
  /\ RSSService.is_in_quiet_hours now (Some s) (Some e) = true.
Proof.
  intros Hnow Hs He.
  assert (rss_checker.within_quiet_hours now (Some s) (Some e) = true) as H.
  { unfold rss_checker.within_quiet_hours.
    assert (Py.truthy (Some s) = true) as ->.
    { destruct s; [by rewrite strptime_HM_empty in Hs | done]. }
    assert (Py.truthy (Some e) = true) as ->.
    { destruct e; [by rewrite strptime_HM_empty in He | done]. }
    cbn [negb orb default]. unfold id. rewrite Hs, He.
    destruct (strptime_HM_valid s t Hs) as (Hv & _).
    assert (datetime.time_lt t t = false) as ->.
    { apply not_true_is_false. rewrite (time_lt_microseconds t t Hv Hv). lia. }
    apply orb_true_iff.
    destruct (Z.le_gt_cases (microseconds_of t) (microseconds_of (datetime.time_of_day now))).
    - left. by apply time_le_microseconds.
    - right. apply time_le_microseconds; [done | done | lia]. }
  split; [exact H |]. by rewrite service_quiet_hours_eq.
Qed.

End Times.

Lemma strptime_HM_round_trip_witness :
  datetime.strptime_HM "22:05"
  = Ok {| datetime.hour := 22; datetime.minute := 5;
          datetime.second := 0; datetime.microsecond := 0 |}.
Proof.
  apply (proj1 (strptime_HM_round_trip 22 5 ltac:(lia) ltac:(lia))).
Defined.

Lemma quiet_hours_equal_bounds_witness :
  rss_checker.within_quiet_hours (at_time 15 30 0 0) (Some "08:00") (Some "8:00") = true.
Proof.
  apply (proj1 (quiet_hours_equal_bounds (at_time 15 30 0 0) "08:00" "8:00"
                  {| datetime.hour := 8; datetime.minute := 0;
                     datetime.second := 0; datetime.microsecond := 0 |}
                  ltac:(vm_compute; repeat split; congruence) eq_refl eq_refl)).
Defined.

(** ** The order of the entries, continued *)

Section Stable.

Context {A : Type}.

Implicit Types (l : list (Z * A)) (k : Z).

Lemma insert_desc_filter k0 k x l :
  List.filter (fun p => fst p =? k0) (insert_desc k x l)
  = List.filter (fun p => fst p =? k0) ((k, x) :: l).
Proof.
  induction l as [| [k' y] r IH]; [done |].
  cbn [insert_desc]. destruct (Z.ltb_spec k k') as [Hlt | Hge]; [| done].
  cbn [List.filter fst] in *. rewrite IH.
  destruct (Z.eqb_spec k' k0) as [-> | Hk']; [| done].
  destruct (Z.eqb_spec k k0) as [-> | Hk]; [lia | done].
Qed.

(** The sort is stable: the entries of one key keep their order. *)
Lemma sorted_reverse_filter k0 l :
  List.filter (fun p => fst p =? k0) (sorted_reverse l)
  = List.filter (fun p => fst p =? k0) l.
Proof.
  induction l as [| [k x] r IH]; [done |].
  cbn [sorted_reverse]. rewrite insert_desc_filter. cbn [List.filter]. by rewrite IH.
Qed.

Lemma filter_decorated (P : Z * A -> bool) (Q : A -> bool) l :
  Forall (fun p => Q (snd p) = P p) l ->
  List.filter Q (snd <$> l) = snd <$> List.filter P l.
Proof.
  induction 1 as [| p l Hp _ IH]; [done |].
  rewrite fmap_cons. cbn [List.filter]. rewrite Hp, IH. by destruct (P p).
Qed.

End Stable.

Section SortItemsMore.

Variable re_search : string -> string -> re_outcome.
Variable mktime : struct_time -> result Z.
Variable o : outside.
Variable flux : models.FluxInDB.
Variable now : datetime.datetime.

Lemma map_result_raise {A B : Type} (f : A -> result B) (l : list A) (err : exn) :
  map_result f l = Raise err -> exists x, x ∈ l /\ f x = Raise err.
Proof.
  induction l as [| x l IH]; [done |].
  cbn [map_result]. destruct (f x) as [y | err'] eqn:Hx.
  - cbn [bind]. destruct (map_result f l) as [ys | err''] eqn:Hl; [done |].
    cbn [bind]. intros [= ->]. destruct (IH eq_refl) as (x' & Hin & Hx').
    exists x'. split; [by right | done].
  - cbn [bind]. intros [= ->]. exists x. split; [by left | done].
Qed.

Lemma map_result_ok {A B : Type} (f : A -> result B) (l : list A) :
  (forall x, x ∈ l -> exists y, f x = Ok y) -> exists ys, map_result f l = Ok ys.
Proof.
  induction l as [| x l IH]; intros H; [by eexists |].
  destruct (H x) as (y & Hy); [by left |].
  destruct IH as (ys & Hys); [intros x' Hx'; apply H; by right |].
  exists (y :: ys). cbn [map_result]. by rewrite Hy, Hys.
Qed.

(** X11. [_sort_items] is a stable sort by descending key: when it
    returns, the result holds the entries of the feed, each as many
    times as the feed, their sort keys never increase along it, and
    the entries of any one sort key stand in the order they had in the
    feed. It returns whenever the date of every entry can be converted,
    and when it raises, the conversion of the date of some entry raised
    that exception. The sort of the service is the same function. *)
Theorem sort_items_stable (entries : list entry) :
  (forall sorted,
     rss_checker._sort_items mktime entries = Ok sorted ->
     sorted ≡ₚ entries
     /\ (exists ks, map_result (rss_checker.sort_key mktime) sorted = Ok ks
                    /\ StronglySorted Z.ge ks)
     /\ forall k,
          List.filter (has_key mktime k) sorted = List.filter (has_key mktime k) entries)
  /\ ((forall e, e ∈ entries -> exists k, rss_checker.sort_key mktime e = Ok k) ->
      exists sorted, rss_checker._sort_items mktime entries = Ok sorted)
  /\ (forall err,
        rss_checker._sort_items mktime entries = Raise err ->
        exists e, e ∈ entries /\ rss_checker.sort_key mktime e = Raise err)
  /\ RSSService.sort_entries_by_date mktime entries
     = rss_checker._sort_items mktime entries.
Proof.
  split; [| split; [| split; [| reflexivity]]].
  - intros sorted Hsort.
    destruct (sort_items_sorted mktime entries sorted Hsort) as [Hperm Hkeys].
    split; [exact Hperm |]. split; [exact Hkeys |]. clear Hperm Hkeys.
    intros k. revert Hsort. unfold rss_checker._sort_items.
    destruct (map_result (rss_checker.sort_key mktime) entries) as [keys |] eqn:Hk; [| done].
    cbn [bind]. intros [= <-].
    apply map_result_Forall2 in Hk.
    set (dec := List.combine keys entries).
    assert (Forall (fun p => has_key mktime k (snd p) = (fst p =? k)) dec) as Hdec.
    { unfold dec. clear dec.
      induction Hk as [| e k' es ks He _ IH]; cbn [List.combine]; constructor; [| done].
      cbn [fst snd]. unfold has_key. by rewrite He. }
    assert (snd <$> dec = entries) as Hsnd.
    { unfold dec. clear dec Hdec. induction Hk; simpl; [done | by f_equal]. }
    change (List.map snd (sorted_reverse dec)) with (snd <$> sorted_reverse dec).
    rewrite (filter_decorated (fun p => fst p =? k) (has_key mktime k) (sorted_reverse dec)).
    + rewrite sorted_reverse_filter.
      rewrite <- (filter_decorated (fun p => fst p =? k) (has_key mktime k) dec Hdec).
      by rewrite Hsnd.
    + by rewrite sorted_reverse_perm.
  - intros Hall. unfold rss_checker._sort_items.
    destruct (map_result_ok (rss_checker.sort_key mktime) entries Hall) as (ks & ->).
    by eexists.
  - intros err. unfold rss_checker._sort_items.
    destruct (map_result (rss_checker.sort_key mktime) entries) as [keys |] eqn:Hk; [done |].
    cbn [bind]. intros [= ->]. by apply map_result_raise.
Qed.

(** X12. When the sort raises, the two implementations part: the
    checker goes through the entries in the order of the feed; the
    service gives the cycle up, reports the exception and no delivery,
    and leaves the shared state as it was. *)
Theorem sort_failure_parts (e0 : entry) (entries : list entry) (err : exn) (w : shared) :
  rss_checker._sort_items mktime (e0 :: entries) = Raise err ->
  rss_checker.check_flux re_search mktime o flux now (Ok (e0 :: entries)) w
  = world (for_entries (rss_checker.process_entry re_search mktime o flux now)
             (max_per_run_of flux) (initial_state w) (e0 :: entries))
  /\ RSSService.check_and_send_flux re_search mktime o flux now (Ok (e0 :: entries)) w
     = ({| RSSService.sent_count := 0; RSSService.error := Some err |}, w).
Proof.
  intros Hsort. split.
  - unfold rss_checker.check_flux. by rewrite Hsort.
  - unfold RSSService.check_and_send_flux.
    change (RSSService.sort_entries_by_date mktime (e0 :: entries))
      with (rss_checker._sort_items mktime (e0 :: entries)).
    by rewrite Hsort.
Qed.

End SortItemsMore.

Lemma sort_items_stable_witness :
  [sample_entry "B" "https://example.org/b" 2;
   sample_entry "A" "https://example.org/a" 1;
   sample_entry "C" "https://example.org/c" 1]
  ≡ₚ [sample_entry "A" "https://example.org/a" 1;
      sample_entry "B" "https://example.org/b" 2;
      sample_entry "C" "https://example.org/c" 1]
  /\ (exists ks,
        map_result (rss_checker.sort_key sample_mktime)
          [sample_entry "B" "https://example.org/b" 2;
           sample_entry "A" "https://example.org/a" 1;
           sample_entry "C" "https://example.org/c" 1] = Ok ks
        /\ StronglySorted Z.ge ks)
  /\ forall k,
       List.filter (has_key sample_mktime k)
         [sample_entry "B" "https://example.org/b" 2;
          sample_entry "A" "https://example.org/a" 1;
          sample_entry "C" "https://example.org/c" 1]
       = List.filter (has_key sample_mktime k)
           [sample_entry "A" "https://example.org/a" 1;
            sample_entry "B" "https://example.org/b" 2;
            sample_entry "C" "https://example.org/c" 1].
Proof.
  apply (proj1 (sort_items_stable sample_mktime
                  [sample_entry "A" "https://example.org/a" 1;
                   sample_entry "B" "https://example.org/b" 2;
                   sample_entry "C" "https://example.org/c" 1])).
  reflexivity.
Defined.

Lemma sort_failure_parts_witness :
  RSSService.check_and_send_flux literal_search bounded_mktime accepting
    (sample_flux 300 None None 0) (at_time 12 0 0 0)
    (Ok [sample_entry "A" "https://example.org/a" 1;
         undatable_entry "U" "https://example.org/u"])
    (sample_shared 0)
  = ({| RSSService.sent_count := 0; RSSService.error := Some OtherException |},
     sample_shared 0).
Proof.
  apply (proj2 (sort_failure_parts literal_search bounded_mktime accepting
                  (sample_flux 300 None None 0) (at_time 12 0 0 0)
                  (sample_entry "A" "https://example.org/a" 1)
                  [undatable_entry "U" "https://example.org/u"]
                  OtherException (sample_shared 0) eq_refl)).
Defined.

(** ** The cycles as a whole *)

Section Invariant.

Variable body : cycle_state -> entry -> cycle_state.
Variable cap : Z.

(** What every turn keeps, the loop keeps. *)
Lemma for_entries_invariant (R : cycle_state -> Prop) (l : list entry) :
  (forall st e, e ∈ l -> R st -> R (body st e)) ->
  forall st, R st -> R (for_entries body cap st l).
Proof.
  induction l as [| e l IH]; intros Hturn st Hst; [done |].
  cbn [for_entries]. destruct (sent_this_run st >=? cap); [done |].
  apply IH.
  - intros st' e' He'. apply Hturn. by right.
  - apply Hturn; [by left | done].
Qed.

Lemma for_entries_full (l : list entry) (st : cycle_state) :
  cap <= sent_this_run st -> for_entries body cap st l = st.
Proof.
  intros Hle. destruct l as [| e l]; [done |].
  cbn [for_entries]. destruct (Z.geb_spec (sent_this_run st) cap); [done | lia].
Qed.

End Invariant.

Section Cycles.

Variable re_search : string -> string -> re_outcome.
Variable mktime : struct_time -> result Z.
Variable o : outside.
Variable flux : models.FluxInDB.
Variable now : datetime.datetime.

Lemma normalize_text_some (s : string) : rss_checker.normalize_text (Some s) = Py.strip s.
Proof.
  unfold rss_checker.normalize_text. simpl. by destruct (String.eqb_spec s "") as [-> |].
Qed.

(** A cycle of the service is its loop over some entries, all of which
    have a date that can be converted. *)
Lemma service_loop (feed : result (list entry)) (w : shared) :
  exists l err,
    RSSService.check_and_send_flux re_search mktime o flux now feed w
    = ({| RSSService.sent_count :=
            sent_this_run
              (for_entries (RSSService.process_entry re_search mktime o flux now)
                 (max_per_run_of flux) (initial_state w) l);
          RSSService.error := err |},
       world (for_entries (RSSService.process_entry re_search mktime o flux now)
                (max_per_run_of flux) (initial_state w) l))
    /\ Forall (fun e => exists pub, RSSService.extract_item_date mktime e = Ok pub) l.
Proof.
  destruct feed as [[| e0 entries] | err].
  - by exists [], None.
  - unfold RSSService.check_and_send_flux.
    change (RSSService.sort_entries_by_date mktime (e0 :: entries))
      with (rss_checker._sort_items mktime (e0 :: entries)).
    destruct (rss_checker._sort_items mktime (e0 :: entries)) as [sorted | err] eqn:Hsort.
    + exists sorted, None. split; [done |].
      destruct (sort_items_sorted mktime _ _ Hsort) as (_ & ks & Hks & _).
      apply map_result_Forall2 in Hks. clear Hsort.
      induction Hks as [| e k es ks' He _ IH]; constructor; [| done].
      unfold rss_checker.sort_key in He.
      change (RSSService.extract_item_date mktime e) with (rss_checker.getItemDate mktime e).
      destruct (rss_checker.getItemDate mktime e); [by eexists | done].
    + by exists [], (Some err).
  - by exists [], (Some err).
Qed.

(** *** The cap, whatever the feed *)

Lemma loop_count (body : cycle_state -> entry -> cycle_state) (l : list entry)
    (w : shared) :
  one_turn (models.id flux) body ->
  let st' := for_entries body (max_per_run_of flux) (initial_state w) l in
  sent_this_run st' = Z.of_nat (List.length (new_deliveries w (world st')))
  /\ (List.length (new_deliveries w (world st')) <= Z.to_nat (max_per_run_of flux))%nat
  /\ delivered w `prefix_of` delivered (world st')
  /\ db.sent_items (database w) `prefix_of` db.sent_items (database (world st'))
  /\ Forall (fun x => db.flux_id x = models.id flux) (new_rows w (world st'))
  /\ (max_per_run_of flux <= 0 -> world st' = w).
Proof.
  intros Hturn st'.
  destruct (extension_for_entries (models.id flux) body Hturn (max_per_run_of flux) l
              (initial_state w)) as (d & r & Hext).
  fold st' in Hext.
  destruct (new_deliveries_extension _ _ _ _ _ _ Hext) as [Hd Hr].
  destruct Hext as [Hdel Hrows Hsent _ _ Hflux _ _]. cbn in Hdel, Hrows, Hsent.
  rewrite Hd, Hr. split; [lia |]. split.
  - destruct (Z.le_gt_cases 0 (max_per_run_of flux)) as [Hpos | Hneg].
    + pose proof (for_entries_bounded (models.id flux) body Hturn (max_per_run_of flux) l
                    (initial_state w) Hpos) as Hb.
      fold st' in Hb. lia.
    + assert (st' = initial_state w) as Hst.
      { apply for_entries_full. cbn. lia. }
      rewrite Hst in Hsent. cbn in Hsent. lia.
  - split; [by eexists |]. split; [by eexists |]. split; [done |].
    intros Hle. unfold st'. rewrite for_entries_full; [done | cbn; lia].
Qed.

(** X13. Whatever the feed, the rules, the state and the outside, a
    cycle delivers no more items than the cap of the feed, and none
    when the cap is below one; it only adds to the deliveries and to the
    rows of the store, every new row under the identifier of the feed;
    and the count the service reports is the number of deliveries it
    made. *)
Theorem cycle_deliveries_bounded (feed : result (list entry)) (w : shared) :
  let w' := rss_checker.check_flux re_search mktime o flux now feed w in
  let r := RSSService.check_and_send_flux re_search mktime o flux now feed w in
  ((List.length (new_deliveries w w') <= Z.to_nat (max_per_run_of flux))%nat
   /\ delivered w `prefix_of` delivered w'
   /\ db.sent_items (database w) `prefix_of` db.sent_items (database w')
   /\ Forall (fun x => db.flux_id x = models.id flux) (new_rows w w')
   /\ (max_per_run_of flux <= 0 -> w' = w))
  /\ (RSSService.sent_count (fst r) = Z.of_nat (List.length (new_deliveries w (snd r)))
      /\ (List.length (new_deliveries w (snd r)) <= Z.to_nat (max_per_run_of flux))%nat
      /\ delivered w `prefix_of` delivered (snd r)
      /\ db.sent_items (database w) `prefix_of` db.sent_items (database (snd r))
      /\ Forall (fun x => db.flux_id x = models.id flux) (new_rows w (snd r))
      /\ (max_per_run_of flux <= 0 -> snd r = w)).
Proof.
  cbv zeta. split.
  - rewrite check_flux_loop.
    destruct (loop_count _ (cycle_entries mktime feed) w
                (checker_one_turn re_search mktime o flux now))
      as (_ & H2 & H3 & H4 & H5 & H6).
    done.
  - destruct (service_loop feed w) as (l & err & -> & _). cbn [fst snd RSSService.sent_count].
    apply (loop_count _ l w (service_one_turn re_search mktime o flux now)).
Qed.

(** *** What is delivered passed the rules *)

Lemma checker_turn_filtered (st : cycle_state) (e : entry) :
  delivered (world (rss_checker.process_entry re_search mktime o flux now st e))
  = delivered (world st)
  \/ (delivered (world (rss_checker.process_entry re_search mktime o flux now st e))
      = delivered (world st)
        ++ [(e, build_message flux (entry_title_of e) (item_key e))]
      /\ passes_filters re_search flux now e = true).
Proof.
  unfold rss_checker.process_entry. cbv zeta. fold (item_key e).
  rewrite !normalize_text_some. fold (entry_title_of e) (entry_summary_of e).
  fold (entry_text e).
  destruct (String.eqb (item_key e) "") eqn:Hk; [by left |].
  destruct (rss_checker.within_quiet_hours _ _ _) eqn:Hq; [by left |].
  destruct (bool_decide _ || _) eqn:Hseen; [by left |].
  destruct (negb (rss_checker.language_filter _ _)) eqn:Hl; [by left |].
  destruct (_ && negb (rss_checker.match_keywords _ _)) eqn:Hi; [by left |].
  destruct (_ && rss_checker.match_keywords _ _) eqn:He; [by left |].
  destruct (_ && negb (rss_checker.match_regex _ _ _ _)) eqn:Hri; [by left |].
  destruct (_ && rss_checker.match_regex _ _ _ _) eqn:Hre; [by left |].
  destruct (negb (rss_checker.match_domains _ _ _)) eqn:Hd; [by left |].
  cbn [world sent_this_run seen_items].
  destruct (send_to_discord o _ _); [| by left].
  right. split; [reflexivity |].
  apply negb_false_iff in Hl, Hd.
  unfold passes_filters. by rewrite Hk, Hq, Hl, Hi, He, Hri, Hre, Hd.
Qed.

Lemma service_turn_filtered (st : cycle_state) (e : entry) :
  delivered (world (RSSService.process_entry re_search mktime o flux now st e))
  = delivered (world st)
  \/ (delivered (world (RSSService.process_entry re_search mktime o flux now st e))
      = delivered (world st)
        ++ [(e, build_message flux (entry_title_of e) (item_key e))]
      /\ passes_filters re_search flux now e = true).
Proof.
  unfold RSSService.process_entry. cbv zeta. rewrite service_item_key.
  fold (entry_title_of e) (entry_summary_of e). fold (entry_text e).
  change RSSService.is_in_quiet_hours with rss_checker.within_quiet_hours.
  change RSSService.filter_by_language with rss_checker.language_filter.
  change RSSService.match_keywords with rss_checker.match_keywords.
  change RSSService.match_domains with rss_checker.match_domains.
  rewrite !service_match_regex_eq.
  destruct (String.eqb (item_key e) "") eqn:Hk; [by left |].
  destruct (rss_checker.within_quiet_hours _ _ _) eqn:Hq; [by left |].
  destruct (bool_decide _ || _) eqn:Hseen; [by left |].
  destruct (negb (rss_checker.language_filter _ _)) eqn:Hl; [by left |].
  destruct (_ && negb (rss_checker.match_keywords _ _)) eqn:Hi; [by left |].
  destruct (_ && rss_checker.match_keywords _ _) eqn:He; [by left |].
  destruct (_ && negb (rss_checker.match_regex _ _ _ _)) eqn:Hri; [by left |].
  destruct (_ && rss_checker.match_regex _ _ _ _) eqn:Hre; [by left |].
  destruct (negb (rss_checker.match_domains _ _ _)) eqn:Hd; [by left |].
  cbn [world sent_this_run seen_items].
  destruct (send_to_discord o _ _); [| by left].
  right. split; [reflexivity |].
  apply negb_false_iff in Hl, Hd.
  unfold passes_filters. by rewrite Hk, Hq, Hl, Hi, He, Hri, Hre, Hd.
Qed.

Lemma loop_filtered (body : cycle_state -> entry -> cycle_state) (l : list entry)
    (w : shared) :
  (forall st e,
     delivered (world (body st e)) = delivered (world st)
     \/ (delivered (world (body st e))
         = delivered (world st) ++ [(e, build_message flux (entry_title_of e) (item_key e))]
         /\ passes_filters re_search flux now e = true)) ->
  Forall (fun x => passes_filters re_search flux now (fst x) = true
                   /\ snd x = build_message flux (entry_title_of (fst x)) (item_key (fst x)))
    (new_deliveries w (world (for_entries body (max_per_run_of flux) (initial_state w) l))).
Proof.
  intros Hturn.
  set (P := fun x : entry * message =>
              passes_filters re_search flux now (fst x) = true
              /\ snd x = build_message flux (entry_title_of (fst x)) (item_key (fst x))).
  assert (exists d, delivered (world (for_entries body (max_per_run_of flux)
                                        (initial_state w) l)) = delivered w ++ d
                    /\ Forall P d) as (d & Hd & HP).
  { apply (for_entries_invariant body (max_per_run_of flux)
             (fun st => exists d, delivered (world st) = delivered w ++ d /\ Forall P d)).
    - intros st e _ (d & Hd & HP). destruct (Hturn st e) as [-> | [-> Hpass]].
      + by exists d.
      + exists (d ++ [(e, build_message flux (entry_title_of e) (item_key e))]).
        rewrite Hd, <- app_assoc. split; [done |].
        apply Forall_app. split; [done |]. by repeat constructor.
    - exists []. by rewrite app_nil_r. }
  unfold new_deliveries. by rewrite Hd, drop_app_length.
Qed.

(** X14. Every delivery of a cycle is for an entry that passes the
    rules of the feed (a key that is not empty, no quiet hours, the
    language, the keywords, the patterns, the domains), and carries the
    message built from the template of the feed with the title and the
    key of that entry, for the destination of the feed. *)
Theorem deliveries_pass_filters (feed : result (list entry)) (w : shared) :
  let w' := rss_checker.check_flux re_search mktime o flux now feed w in
  let r := RSSService.check_and_send_flux re_search mktime o flux now feed w in
  forall e m, (e, m) ∈ new_deliveries w w' \/ (e, m) ∈ new_deliveries w (snd r) ->
    passes_filters re_search flux now e = true
    /\ m = build_message flux (entry_title_of e) (item_key e)
    /\ target_id m = models.discordTarget flux.
Proof.
  cbv zeta. intros e m Hin.
  assert (passes_filters re_search flux now e = true
          /\ m = build_message flux (entry_title_of e) (item_key e)) as [Hp Hm].
  { destruct Hin as [Hin | Hin].
    - rewrite check_flux_loop in Hin.
      pose proof (loop_filtered _ (cycle_entries mktime feed) w checker_turn_filtered) as HF.
      rewrite Forall_forall in HF. apply (HF (e, m) Hin).
    - destruct (service_loop feed w) as (l & err & Heq & _). rewrite Heq in Hin.
      pose proof (loop_filtered _ l w service_turn_filtered) as HF.
      rewrite Forall_forall in HF. apply (HF (e, m) Hin). }
  split; [done |]. split; [done |]. by rewrite Hm.
Qed.

(** *** Quiet hours and a sink that refuses *)

(** X15. During the quiet hours of a feed a cycle does nothing at all:
    no delivery, no row, no change of the collection, so the entries
    wait for a later cycle. The same holds for the job of the
    scheduler, which also does nothing for a feed object that is not
    active. *)
Theorem quiet_hours_hold_cycle (feed : result (list entry)) (w : shared) :
  (rss_checker.within_quiet_hours now (models.quietHoursStart flux)
     (models.quietHoursEnd flux) = true ->
   rss_checker.check_flux re_search mktime o flux now feed w = w
   /\ snd (RSSService.check_and_send_flux re_search mktime o flux now feed w) = w
   /\ RSSService.sent_count
        (fst (RSSService.check_and_send_flux re_search mktime o flux now feed w)) = 0
   /\ SchedulerService._check_flux_job re_search mktime o flux now feed w = w)
  /\ (models.active flux = false ->
      SchedulerService._check_flux_job re_search mktime o flux now feed w = w).
Proof.
  split.
  - intros Hq.
    assert (forall l, for_entries (rss_checker.process_entry re_search mktime o flux now)
                        (max_per_run_of flux) (initial_state w) l = initial_state w) as Hc.
    { intros l. apply (for_entries_invariant _ _ (fun st => st = initial_state w)); [| done].
      intros st e _ ->. unfold rss_checker.process_entry. cbv zeta. rewrite Hq.
      by destruct (String.eqb _ _). }
    assert (forall l, for_entries (RSSService.process_entry re_search mktime o flux now)
                        (max_per_run_of flux) (initial_state w) l = initial_state w) as Hs.
    { intros l. apply (for_entries_invariant _ _ (fun st => st = initial_state w)); [| done].
      intros st e _ ->. unfold RSSService.process_entry. cbv zeta.
      change RSSService.is_in_quiet_hours with rss_checker.within_quiet_hours. rewrite Hq.
      by destruct (String.eqb _ _). }
    destruct (service_loop feed w) as (l & err & Heq & _).
    rewrite check_flux_loop, Hc. unfold SchedulerService._check_flux_job.
    rewrite Heq, Hs. cbn. split; [done |]. split; [done |]. split; [done |].
    by destruct (models.active flux).
  - intros Ha. unfold SchedulerService._check_flux_job. by rewrite Ha.
Qed.

(** X16. When the sink refuses every message, a cycle changes neither
    the store nor the collection nor the deliveries, and the service
    reports no delivery: an entry is recorded as sent only after its
    message was accepted. *)
Theorem refused_messages_leave_state (feed : result (list entry)) (w : shared) :
  (forall n m, exists err, send_to_discord o n m = Raise err) ->
  let w' := rss_checker.check_flux re_search mktime o flux now feed w in
  let r := RSSService.check_and_send_flux re_search mktime o flux now feed w in
  (database w' = database w /\ collection w' = collection w /\ delivered w' = delivered w)
  /\ (RSSService.sent_count (fst r) = 0
      /\ database (snd r) = database w /\ collection (snd r) = collection w
      /\ delivered (snd r) = delivered w).
Proof.
  intros Hsink. cbv zeta.
  set (R := fun st : cycle_state =>
              sent_this_run st = 0 /\ database (world st) = database w
              /\ collection (world st) = collection w
              /\ delivered (world st) = delivered w).
  split.
  - rewrite check_flux_loop.
    assert (R (for_entries (rss_checker.process_entry re_search mktime o flux now)
                 (max_per_run_of flux) (initial_state w) (cycle_entries mktime feed)))
      as (_ & H1 & H2 & H3); [| done].
    apply for_entries_invariant; [| done].
    intros st e _ HR. unfold rss_checker.process_entry. cbv zeta.
    unfold R in *.
    repeat match goal with
           | |- context [if ?c then _ else _] => destruct c; [by cbn |]
           end.
    match goal with
    | |- context [send_to_discord o ?n ?m] => destruct (Hsink n m) as (err' & ->)
    end.
    by cbn.
  - destruct (service_loop feed w) as (l & err & -> & _). cbn [fst snd RSSService.sent_count].
    assert (R (for_entries (RSSService.process_entry re_search mktime o flux now)
                 (max_per_run_of flux) (initial_state w) l))
      as (H0 & H1 & H2 & H3); [| done].
    apply for_entries_invariant; [| done].
    intros st e _ HR. unfold RSSService.process_entry. cbv zeta.
    unfold R in *.
    repeat match goal with
           | |- context [if ?c then _ else _] => destruct c; [by cbn |]
           end.
    match goal with
    | |- context [send_to_discord o ?n ?m] => destruct (Hsink n m) as (err' & ->)
    end.
    by cbn.
Qed.

End Cycles.

Lemma cycle_deliveries_bounded_witness :
  rss_checker.check_flux literal_search sample_mktime accepting
    (sample_flux 300 (Some (-1)) None 0) (at_time 12 0 0 0) (Ok sample_entries)
    (sample_shared 0)
  = sample_shared 0.
Proof.
  apply (proj2 (proj2 (proj2 (proj2 (proj1
           (cycle_deliveries_bounded literal_search sample_mktime accepting
              (sample_flux 300 (Some (-1)) None 0) (at_time 12 0 0 0)
              (Ok sample_entries) (sample_shared 0))))))).
  vm_compute. discriminate.
Defined.

Lemma deliveries_pass_filters_witness :
  passes_filters literal_search (sample_flux 300 None None 0) (at_time 12 0 0 0)
    (sample_entry "A" "https://example.org/a" 1) = true
  /\ build_message (sample_flux 300 None None 0) "A" "https://example.org/a"
     = build_message (sample_flux 300 None None 0)
         (entry_title_of (sample_entry "A" "https://example.org/a" 1))
         (item_key (sample_entry "A" "https://example.org/a" 1))
  /\ target_id (build_message (sample_flux 300 None None 0) "A" "https://example.org/a")
     = models.discordTarget (sample_flux 300 None None 0).
Proof.
  apply (deliveries_pass_filters literal_search sample_mktime accepting
           (sample_flux 300 None None 0) (at_time 12 0 0 0)
           (Ok [sample_entry "A" "https://example.org/a" 1]) (sample_shared 0)).
  left.
  change ((sample_entry "A" "https://example.org/a" 1,
           build_message (sample_flux 300 None None 0) "A" "https://example.org/a")
          ∈ [(sample_entry "A" "https://example.org/a" 1,
              build_message (sample_flux 300 None None 0) "A" "https://example.org/a")]).
  by left.
Defined.

Lemma quiet_hours_hold_cycle_witness :
  rss_checker.check_flux literal_search sample_mktime accepting quiet_flux
    (at_time 23 30 0 0) (Ok sample_entries) (sample_shared 0)
  = sample_shared 0.
Proof.
  apply (proj1 (quiet_hours_hold_cycle literal_search sample_mktime accepting quiet_flux
                  (at_time 23 30 0 0) (Ok sample_entries) (sample_shared 0))).
  reflexivity.
Defined.

Lemma refused_messages_leave_state_witness :
  database
    (rss_checker.check_flux literal_search sample_mktime refusing
       (sample_flux 300 None None 0) (at_time 12 0 0 0) (Ok sample_entries)
       (sample_shared 0))
  = database (sample_shared 0).
Proof.
  apply (proj1 (refused_messages_leave_state literal_search sample_mktime refusing
                  (sample_flux 300 None None 0) (at_time 12 0 0 0) (Ok sample_entries)
                  (sample_shared 0)
                  (fun _ _ => ex_intro _ ConnectionError eq_refl))).
Defined.

(** ** The counter of a feed in the service *)

Section ServiceCounter.

Variable re_search : string -> string -> re_outcome.
Variable mktime : struct_time -> result Z.
Variable o : outside.
Variable now : datetime.datetime.

Lemma service_turn_total (flux : models.FluxInDB) (total : Z) (st : cycle_state)
    (e : entry) :
  (forall n, update_one_raises o n = false) ->
  models.totalSent flux = total ->
  (exists pub, RSSService.extract_item_date mktime e = Ok pub) ->
  stored_total (models.id flux) (collection (world st)) = Some (total + sent_this_run st) ->
  let st' := RSSService.process_entry re_search mktime o flux now st e in
  stored_total (models.id flux) (collection (world st')) = Some (total + sent_this_run st').
Proof.
  intros Hup Htotal (pub & Hpub) Hst. cbv zeta.
  unfold RSSService.process_entry. cbv zeta.
  repeat match goal with
         | |- context [if ?c then _ else _] => destruct c; [by cbn |]
         end.
  cbn [world sent_this_run seen_items].
  destruct (send_to_discord o _ _); [| by cbn].
  cbn [world collection sent_this_run]. rewrite Hpub, Hup, stored_total_update_one, Hst.
  cbn. by rewrite Htotal.
Qed.

(** X17. A cycle of the service counts its deliveries in the stored
    counter when the feed object it is given carries the stored
    counter: the collection holding a document under the string
    identifier of the feed object, with the counter of the object, and
    its updates succeeding, the counter stored after the cycle is that
    counter plus the number of deliveries of the cycle, which is the
    count that the service reports. *)
Theorem service_counter_counts_cycle (flux : models.FluxInDB)
    (feed : result (list entry)) (w : shared) :
  (forall n, update_one_raises o n = false) ->
  stored_total (models.id flux) (collection w) = Some (models.totalSent flux) ->
  let r := RSSService.check_and_send_flux re_search mktime o flux now feed w in
  stored_total (models.id flux) (collection (snd r))
  = Some (models.totalSent flux + RSSService.sent_count (fst r))
  /\ RSSService.sent_count (fst r) = Z.of_nat (List.length (new_deliveries w (snd r))).
Proof.
  intros Hup Hstored. cbv zeta.
  destruct (service_loop re_search mktime o flux now feed w) as (l & err & Heq & Hdates).
  destruct (loop_count flux _ l w (service_one_turn re_search mktime o flux now))
    as (Hcount & _).
  rewrite Heq. cbn [fst snd RSSService.sent_count]. split; [| exact Hcount].
  apply (for_entries_invariant _ _
           (fun st => stored_total (models.id flux) (collection (world st))
                      = Some (models.totalSent flux + sent_this_run st))).
  - intros st e He Hst. rewrite Forall_forall in Hdates.
    apply (service_turn_total flux (models.totalSent flux) st e Hup eq_refl
             (Hdates e He) Hst).
  - cbn. by rewrite Z.add_0_r.
Qed.

End ServiceCounter.

Lemma service_counter_counts_cycle_witness :
  stored_total "f1"
    (collection
       (snd (RSSService.check_and_send_flux literal_search sample_mktime accepting
               (sample_flux 300 None None 7) (at_time 12 0 0 0) (Ok sample_entries)
               (sample_shared 7))))
  = Some (7 + RSSService.sent_count
                (fst (RSSService.check_and_send_flux literal_search sample_mktime accepting
                        (sample_flux 300 None None 7) (at_time 12 0 0 0)
                        (Ok sample_entries) (sample_shared 7)))).
Proof.
  apply (proj1 (service_counter_counts_cycle literal_search sample_mktime accepting
                  (at_time 12 0 0 0) (sample_flux 300 None None 7) (Ok sample_entries)
                  (sample_shared 7) (fun _ => eq_refl) eq_refl)).
Defined.

(** ** The scheduler, continued *)

Section SchedulerMore.

Import SchedulerService.

Variable settings : config.Settings.
Variable trigger_raises : Z -> bool.

(** X18. Removing the job of a feed that was just scheduled succeeds
    and leaves the jobs the scheduler had before, without one for that
    feed. When the platform could not build the trigger, the scheduling
    has raised after removing the job that was there, and the removal
    answers [False]. Removing once more answers [False] and changes
    nothing. *)
Theorem unschedule_after_schedule (self : SchedulerService) (flux : models.FluxInDB)
    (jobs : gmap string job) :
  scheduler self = Some jobs ->
  let scheduled := schedule_flux settings trigger_raises self flux in
  let removed :=
    {| scheduler := Some (delete ("flux_" ++ models.id flux)%string jobs);
       aggressive_mode := aggressive_mode self;
       collection_set := collection_set self |} in
  (trigger_raises (effective_interval settings (aggressive_mode self) flux) = false ->
   (exists info, snd scheduled = Ok info)
   /\ unschedule_flux (fst scheduled) (models.id flux) = (removed, Ok true))
  /\ (trigger_raises (effective_interval settings (aggressive_mode self) flux) = true ->
      scheduled = (removed, Raise OverflowError)
      /\ unschedule_flux (fst scheduled) (models.id flux) = (removed, Ok false))
  /\ unschedule_flux removed (models.id flux) = (removed, Ok false)
  /\ (jobs !! ("flux_" ++ models.id flux)%string = None ->
      scheduler removed = scheduler self).
Proof.
  intros Hs. cbv zeta.
  rewrite (schedule_flux_initialised settings trigger_raises self flux jobs Hs).
  rewrite interval_seconds_effective.
  unfold unschedule_flux. cbn [scheduler aggressive_mode collection_set].
  rewrite lookup_delete_eq.
  split; [| split; [| split]].
  - intros ->. cbn [fst snd scheduler aggressive_mode collection_set].
    rewrite lookup_insert_eq, delete_insert_eq. split; [by eexists | done].
  - intros ->. cbn [fst snd scheduler aggressive_mode collection_set].
    by rewrite lookup_delete_eq.
  - done.
  - intros Hnone. by rewrite Hs, delete_id.
Qed.

(** X19. The scheduler keeps one job by feed, the last one scheduled:
    scheduling a feed object after another one of the same identifier
    gives what scheduling it alone gives, so that scheduling twice is
    scheduling once; and the jobs of the other feeds are not touched. *)
Theorem schedule_flux_last_wins (self : SchedulerService) (flux1 flux2 : models.FluxInDB)
    (jobs : gmap string job) :
  scheduler self = Some jobs ->
  (models.id flux1 = models.id flux2 ->
   schedule_flux settings trigger_raises
     (fst (schedule_flux settings trigger_raises self flux1)) flux2
   = schedule_flux settings trigger_raises self flux2)
  /\ schedule_flux settings trigger_raises
       (fst (schedule_flux settings trigger_raises self flux1)) flux1
     = schedule_flux settings trigger_raises self flux1
  /\ (forall jobs' other,
        scheduler (fst (schedule_flux settings trigger_raises self flux1)) = Some jobs' ->
        other <> models.id flux1 ->
        jobs' !! ("flux_" ++ other)%string = jobs !! ("flux_" ++ other)%string).
Proof.
  intros Hs.
  assert (forall f1 f2, models.id f1 = models.id f2 ->
            schedule_flux settings trigger_raises
              (fst (schedule_flux settings trigger_raises self f1)) f2
            = schedule_flux settings trigger_raises self f2) as Hlast.
  { intros f1 f2 Hid.
    rewrite (schedule_flux_initialised settings trigger_raises self f1 jobs Hs).
    rewrite (schedule_flux_initialised settings trigger_raises self f2 jobs Hs).
    destruct (trigger_raises (interval_seconds settings (aggressive_mode self) f1));
      cbn [fst]; (erewrite schedule_flux_initialised; [| reflexivity]);
      cbn [aggressive_mode collection_set]; rewrite Hid;
      destruct (trigger_raises (interval_seconds settings (aggressive_mode self) f2)).
    - by rewrite delete_delete_eq.
    - by rewrite insert_delete_eq.
    - by rewrite delete_insert_eq.
    - by rewrite insert_insert_eq. }
  split; [apply Hlast |]. split; [by apply Hlast |].
  intros jobs' other.
  rewrite (schedule_flux_initialised settings trigger_raises self flux1 jobs Hs).
  destruct (trigger_raises _); cbn [fst scheduler]; intros [= <-] Hother.
  - apply lookup_delete_ne. intros Heq. apply job_id_inj in Heq. by apply Hother.
  - apply lookup_insert_ne. intros Heq. apply job_id_inj in Heq. by apply Hother.
Qed.

(** X20. Before [init] the service has no scheduler: scheduling,
    removing and reloading raise [RuntimeError] and leave the service
    as it is, and reloading raises as well when the collection is not
    set; [set_aggressive_mode] raises too, but the flag it was given is
    already stored when it does. *)
Theorem scheduler_uninitialised (uuid4 : nat -> string) (docs : list document)
    (self : SchedulerService) (flux : models.FluxInDB) (flux_id : string)
    (enabled : bool) :
  (scheduler self = None ->
   schedule_flux settings trigger_raises self flux = (self, Raise RuntimeError)
   /\ unschedule_flux self flux_id = (self, Raise RuntimeError)
   /\ reload_all_schedules settings trigger_raises uuid4 docs self
      = (self, Raise RuntimeError)
   /\ set_aggressive_mode settings trigger_raises uuid4 docs self enabled
      = ({| scheduler := None; aggressive_mode := enabled;
            collection_set := collection_set self |}, Raise RuntimeError))
  /\ (collection_set self = false ->
      reload_all_schedules settings trigger_raises uuid4 docs self
      = (self, Raise RuntimeError)).
Proof.
  split.
  - intros Hs. unfold set_aggressive_mode, reload_all_schedules, schedule_flux,
      unschedule_flux. cbn [scheduler collection_set aggressive_mode]. rewrite Hs.
    repeat split; by destruct (collection_set self).
  - intros Hc. unfold reload_all_schedules. by rewrite Hc.
Qed.

(** X21. Reloading discards the jobs there were and keeps jobs for
    active documents only: every job that exists afterwards was made
    for a document of the collection that is active and whose trigger
    the platform could build, and its feed object has the fields, the
    last item and the counter stored in that document. The documents
    whose trigger could not be built are not counted and are recorded
    as errors, in their order. The identifier of a job is drawn afresh
    and is not the [_id] of its document, so that a later removal by an
    identifier that was never drawn finds no job. *)
Theorem reload_all_schedules_jobs (uuid4 : nat -> string) (docs : list document)
    (self : SchedulerService) (jobs : gmap string job) :
  scheduler self = Some jobs ->
  collection_set self = true ->
  let active := List.filter (fun d => models.active (doc_base d)) docs in
  let raises (d : document) :=
    trigger_raises (effective_interval settings (aggressive_mode self) (doc_base d)) in
  exists self' info jobs',
    reload_all_schedules settings trigger_raises uuid4 docs self = (self', Ok info)
    /\ scheduler self' = Some jobs'
    /\ scheduled_count info
       = Z.of_nat (List.length (List.filter (fun d => negb (raises d)) active))
    /\ errors info = (fun d => (_id d, OverflowError)) <$> List.filter raises active
    /\ (forall id j, jobs' !! id = Some j ->
          exists i d,
            active !! i = Some d
            /\ d ∈ docs /\ models.active (doc_base d) = true /\ raises d = false
            /\ id = ("flux_" ++ uuid4 i)%string
            /\ models.id (job_args j) = uuid4 i
            /\ models.base (job_args j) = doc_base d
            /\ models.lastItem (job_args j) = doc_lastItem d
            /\ models.lastPubDate (job_args j) = doc_lastPubDate d
            /\ models.totalSent (job_args j) = doc_totalSent d)
    /\ (forall flux_id, (forall i, uuid4 i <> flux_id) ->
          unschedule_flux self' flux_id = (self', Ok false)).
Proof.
  intros Hs Hc. cbv zeta. unfold reload_all_schedules. rewrite Hc, Hs. cbn [negb].
  set (active := List.filter (fun d => models.active (doc_base d)) docs).
  destruct (reload_loop_exact settings trigger_raises uuid4 active O
              {| scheduler := Some ∅; aggressive_mode := aggressive_mode self;
                 collection_set := true |}
              {| scheduled_count := 0; errors := [] |} ∅ eq_refl)
    as (jobs' & Heq & _ & _ & Hfrom).
  cbv zeta in Heq, Hfrom.
  cbn [aggressive_mode collection_set scheduled_count errors Nat.add] in Heq, Hfrom.
  rewrite Heq.
  eexists _, _, jobs'. split; [reflexivity |]. split; [reflexivity |].
  split; [reflexivity |]. split; [reflexivity |].
  assert (forall id j, jobs' !! id = Some j ->
            exists i d, active !! i = Some d /\ d ∈ docs /\ models.active (doc_base d) = true
              /\ trigger_raises (effective_interval settings (aggressive_mode self)
                                   (doc_base d)) = false
              /\ id = ("flux_" ++ uuid4 i)%string
              /\ models.id (job_args j) = uuid4 i
              /\ models.base (job_args j) = doc_base d
              /\ models.lastItem (job_args j) = doc_lastItem d
              /\ models.lastPubDate (job_args j) = doc_lastPubDate d
              /\ models.totalSent (job_args j) = doc_totalSent d) as Hall.
  { intros id j Hj. destruct (Hfrom id j Hj) as [H0 | (i & d & Hi & Hacc & -> & ->)].
    - by rewrite lookup_empty in H0.
    - exists i, d. split; [done |].
      assert (d ∈ active) as Hin by (by eapply list_elem_of_lookup_2).
      apply list_elem_of_In, filter_In in Hin as [Hin Hact].
      split; [by apply list_elem_of_In |]. by repeat split. }
  split; [exact Hall |].
  intros flux_id Hfresh. unfold unschedule_flux. cbn [scheduler].
  destruct (jobs' !! ("flux_" ++ flux_id)%string) as [j |] eqn:Hj; [| done].
  destruct (Hall _ j Hj) as (i & d & _ & _ & _ & _ & Heq' & _).
  apply job_id_inj in Heq'. by destruct (Hfresh i).
Qed.

End SchedulerMore.

Lemma unschedule_after_schedule_witness :
  SchedulerService.unschedule_flux
    (fst (SchedulerService.schedule_flux config.default_settings sample_trigger_raises
            (SchedulerService.init SchedulerService.new) (sample_flux 300 None None 0)))
    "f1"
  = ({| SchedulerService.scheduler := Some (delete "flux_f1" ∅);
        SchedulerService.aggressive_mode := false;
        SchedulerService.collection_set := true |}, Ok true).
Proof.
  apply (proj1 (unschedule_after_schedule config.default_settings sample_trigger_raises
                  (SchedulerService.init SchedulerService.new)
                  (sample_flux 300 None None 0) ∅ eq_refl) eq_refl).
Defined.

Lemma schedule_flux_last_wins_witness :
  SchedulerService.schedule_flux config.default_settings sample_trigger_raises
    (fst (SchedulerService.schedule_flux config.default_settings sample_trigger_raises
            (SchedulerService.init SchedulerService.new) (sample_flux 300 None None 0)))
    (sample_flux 60 None None 3)
  = SchedulerService.schedule_flux config.default_settings sample_trigger_raises
      (SchedulerService.init SchedulerService.new) (sample_flux 60 None None 3).
Proof.
  apply (proj1 (schedule_flux_last_wins config.default_settings sample_trigger_raises
                  (SchedulerService.init SchedulerService.new)
                  (sample_flux 300 None None 0) (sample_flux 60 None None 3) ∅ eq_refl)).
  reflexivity.
Defined.

Lemma scheduler_uninitialised_witness :
  SchedulerService.set_aggressive_mode config.default_settings sample_trigger_raises
    sample_uuid4 [sample_document 0] SchedulerService.new true
  = ({| SchedulerService.scheduler := None; SchedulerService.aggressive_mode := true;
        SchedulerService.collection_set := false |}, Raise RuntimeError).
Proof.
  apply (proj1 (scheduler_uninitialised config.default_settings sample_trigger_raises
                  sample_uuid4 [sample_document 0] SchedulerService.new
                  (sample_flux 300 None None 0) "f1" true) eq_refl).
Defined.

Lemma reload_all_schedules_jobs_witness :
  exists self' info jobs',
    SchedulerService.reload_all_schedules config.default_settings sample_trigger_raises
      sample_uuid4 [sample_document 0; slow_document]
      (SchedulerService.init SchedulerService.new)
    = (self', Ok info)
    /\ SchedulerService.scheduler self' = Some jobs'
    /\ SchedulerService.scheduled_count info = 1
    /\ SchedulerService.errors info = [("f3", OverflowError)]
    /\ SchedulerService.unschedule_flux self' "f1" = (self', Ok false).
Proof.
  destruct (reload_all_schedules_jobs config.default_settings sample_trigger_raises
              sample_uuid4 [sample_document 0; slow_document]
              (SchedulerService.init SchedulerService.new) ∅ eq_refl eq_refl)
    as (self' & info & jobs' & H1 & H2 & H3 & H4 & _ & H6).
  exists self', info, jobs'. split; [exact H1 |]. split; [exact H2 |].
  split; [exact H3 |]. split; [exact H4 |].
  apply H6. intros i H. discriminate H.
Defined.

(** ** The routes of the feeds *)

Section Routes.

Variable settings : config.Settings.
Variable trigger_raises : Z -> bool.

Implicit Types (c : list document) (d : document) (key : string).

Lemma find_one_app_fresh key c d :
  fluxes.find_one key c = None -> _id d = key ->
  fluxes.find_one key (c ++ [d]) = Some d.
Proof.
  unfold fluxes.find_one. intros Hc Hd. induction c as [| d0 c IH]; cbn [app List.find] in *.
  - by rewrite Hd, String.eqb_refl.
  - destruct (String.eqb (_id d0) key); [done | by apply IH].
Qed.

Lemma delete_one_app_fresh key c d :
  fluxes.find_one key c = None -> _id d = key ->
  fluxes.delete_one key (c ++ [d]) = c.
Proof.
  unfold fluxes.find_one. intros Hc Hd.
  induction c as [| d0 c IH]; cbn [app List.find fluxes.delete_one] in *.
  - by rewrite Hd, String.eqb_refl.
  - destruct (String.eqb (_id d0) key); [done | by rewrite IH].
Qed.

(** X22. A feed that was created and is deleted leaves the collection
    as it was before the creation and the scheduler without a job for
    it, whether the feed was active or not; the identifier given to the
    new document is one that no document of the collection has, and
    the platform builds the trigger of the feed when it is active.
    Deleting a feed that is not in the collection is answered with 404
    and changes nothing. *)
Theorem create_then_delete (inserted_id : string) (flux : models.FluxBase)
    (a : fluxes.app) (jobs : gmap string SchedulerService.job) :
  (discord_utils.isValidDiscordId (models.discordTarget flux) = true ->
   SchedulerService.scheduler (fluxes.scheduler_service a) = Some jobs ->
   fluxes.find_one inserted_id (fluxes.app_collection a) = None ->
   (models.active flux = true ->
    trigger_raises
      (effective_interval settings
         (SchedulerService.aggressive_mode (fluxes.scheduler_service a)) flux) = false) ->
   exists a1 a2,
     fluxes.create_flux settings trigger_raises inserted_id flux a = (a1, Ok inserted_id)
     /\ fluxes.delete_flux inserted_id a1 = (a2, Ok inserted_id)
     /\ fluxes.app_collection a2 = fluxes.app_collection a
     /\ SchedulerService.scheduler (fluxes.scheduler_service a2)
        = Some (delete ("flux_" ++ inserted_id)%string jobs))
  /\ (fluxes.find_one inserted_id (fluxes.app_collection a) = None ->
      fluxes.delete_flux inserted_id a = (a, Raise (HTTPException 404))).
Proof.
  split.
  - intros Hid Hs Hfresh Htrigger. unfold fluxes.create_flux. rewrite Hid.
    cbn [negb models.active].
    destruct (models.active flux).
    + rewrite (schedule_flux_initialised settings trigger_raises _ _ jobs Hs).
      rewrite interval_seconds_effective.
      change (effective_interval settings _ (models.base _))
        with (effective_interval settings
                (SchedulerService.aggressive_mode (fluxes.scheduler_service a)) flux).
      rewrite (Htrigger eq_refl).
      eexists _, _. split; [reflexivity |].
      unfold fluxes.delete_flux. cbn [fluxes.app_collection fluxes.scheduler_service].
      erewrite (find_one_app_fresh inserted_id); [| exact Hfresh | reflexivity].
      erewrite (delete_one_app_fresh inserted_id); [| exact Hfresh | reflexivity].
      unfold SchedulerService.unschedule_flux. cbn [SchedulerService.scheduler models.id].
      rewrite lookup_insert_eq, delete_insert_eq. by repeat split.
    + destruct (jobs !! ("flux_" ++ inserted_id)%string) eqn:Hj.
      * eexists _, _. split; [reflexivity |].
        unfold fluxes.delete_flux. cbn [fluxes.app_collection fluxes.scheduler_service].
        erewrite (find_one_app_fresh inserted_id); [| exact Hfresh | reflexivity].
        erewrite (delete_one_app_fresh inserted_id); [| exact Hfresh | reflexivity].
        unfold SchedulerService.unschedule_flux. rewrite Hs, Hj. by repeat split.
      * eexists _, _. split; [reflexivity |].
        unfold fluxes.delete_flux. cbn [fluxes.app_collection fluxes.scheduler_service].
        erewrite (find_one_app_fresh inserted_id); [| exact Hfresh | reflexivity].
        erewrite (delete_one_app_fresh inserted_id); [| exact Hfresh | reflexivity].
        unfold SchedulerService.unschedule_flux. rewrite Hs, Hj.
        split; [reflexivity |]. split; [reflexivity |].
        cbn [fluxes.scheduler_service]. by rewrite Hs, delete_id.
  - intros Hnone. unfold fluxes.delete_flux. by rewrite Hnone.
Qed.

(** X23. What [create_flux] does by case: a destination that is not a
    Discord identifier is refused with 400 and nothing is stored; else
    the document is stored, with a counter of zero and the address the
    resolver gives; a feed that is not active gets no job; and when the
    scheduler is not initialised the request of an active feed raises
    though its document is stored. *)
Theorem create_flux_outcomes (inserted_id : string) (flux : models.FluxBase)
    (a : fluxes.app) :
  (discord_utils.isValidDiscordId (models.discordTarget flux) = false ->
   fluxes.create_flux settings trigger_raises inserted_id flux a
   = (a, Raise (HTTPException 400)))
  /\ (discord_utils.isValidDiscordId (models.discordTarget flux) = true ->
      exists d,
        fluxes.app_collection
          (fst (fluxes.create_flux settings trigger_raises inserted_id flux a))
        = fluxes.app_collection a ++ [d]
        /\ _id d = inserted_id /\ doc_totalSent d = 0 /\ doc_lastItem d = None
        /\ models.rssUrl (doc_base d)
           = URLResolver.resolve settings (models.rssUrl flux)
               (if String.eqb (models.sourceType flux) "" then "rss"
                else models.sourceType flux)
        /\ (models.active flux = false ->
            fluxes.create_flux settings trigger_raises inserted_id flux a
            = ({| fluxes.app_collection := fluxes.app_collection a ++ [d];
                  fluxes.scheduler_service := fluxes.scheduler_service a |},
               Ok inserted_id))
        /\ (models.active flux = true ->
            SchedulerService.scheduler (fluxes.scheduler_service a) = None ->
            fluxes.create_flux settings trigger_raises inserted_id flux a
            = ({| fluxes.app_collection := fluxes.app_collection a ++ [d];
                  fluxes.scheduler_service := fluxes.scheduler_service a |},
               Raise RuntimeError))).
Proof.
  split.
  - intros Hid. unfold fluxes.create_flux. by rewrite Hid.
  - intros Hid. unfold fluxes.create_flux. rewrite Hid. cbn [negb models.active].
    destruct (models.active flux) eqn:Hact.
    + destruct (SchedulerService.schedule_flux _ _ _ _) as [svc r] eqn:Hsch.
      eexists. split; [destruct r; reflexivity |].
      cbn. repeat split; [done |].
      intros _ Hs. unfold SchedulerService.schedule_flux in Hsch. rewrite Hs in Hsch.
      by injection Hsch as <- <-.
    + eexists. split; [reflexivity |]. cbn. by repeat split.
Qed.

Lemma update_one_Forall2 (R : document -> document -> Prop) (f : document -> document)
    key c :
  (forall d, R d d) -> (forall d, R d (f d)) -> Forall2 R c (update_one key f c).
Proof.
  intros Hrefl Hf. induction c as [| d c IH]; [constructor |].
  cbn [update_one]. destruct (String.eqb (_id d) key).
  - constructor; [apply Hf |]. clear IH. induction c; by constructor.
  - by constructor.
Qed.

Lemma find_one_update_one (f : document -> document) key c :
  (forall d, _id (f d) = _id d) ->
  fluxes.find_one key (update_one key f c) = f <$> fluxes.find_one key c.
Proof.
  intros Hf. unfold fluxes.find_one. induction c as [| d c IH]; [done |].
  cbn [update_one List.find]. destruct (String.eqb (_id d) key) eqn:Hd.
  - cbn [List.find]. by rewrite Hf, Hd.
  - cbn [List.find]. by rewrite Hd.
Qed.

(** What [update_flux] leaves in the collection: the collection as it
    was when the request is refused, else the collection with the
    document of the feed updated. *)
Lemma update_flux_collection (refuses_empty_set : bool) (flux_id : string)
    (u : fluxes.FluxUpdate) (a : fluxes.app) :
  fluxes.app_collection
    (fst (fluxes.update_flux settings trigger_raises refuses_empty_set flux_id u a))
  = match fluxes.find_one flux_id (fluxes.app_collection a) with
    | None => fluxes.app_collection a
    | Some _ =>
        if match fluxes.upd_discordTarget u with
           | Some target => negb (discord_utils.isValidDiscordId target)
           | None => false
           end
        then fluxes.app_collection a
        else if fluxes.no_field_set u && refuses_empty_set
        then fluxes.app_collection a
        else update_one flux_id (fluxes.set_fields u) (fluxes.app_collection a)
    end.
Proof.
  unfold fluxes.update_flux.
  destruct (fluxes.find_one flux_id (fluxes.app_collection a)); [| done].
  repeat match goal with
         | |- context [if ?c then _ else _] => destruct c; try done
         end;
    try (by destruct (SchedulerService.schedule_flux _ _ _ _) as [svc [info | err]]);
    try (by destruct (SchedulerService.unschedule_flux _ _) as [svc [b | err]]).
  all: destruct (fluxes.find_one flux_id _); [| done].
  all: destruct (models.active _);
    [by destruct (SchedulerService.schedule_flux _ _ _ _) as [svc [info | err]]
    | by destruct (SchedulerService.unschedule_flux _ _) as [svc [b | err]]].
Qed.

(** X24. What [update_flux] never changes: whatever the request and
    whatever the answer, the collection has the same documents in the
    same order afterwards, each with the identifier, the address, the
    rules and the counter it had. A request for a feed that is not in
    the collection is answered with 404, one with a destination that is
    not a Discord identifier with 400, and both change nothing. A
    request that sets the new address and nothing else writes it in the
    document of the feed under the key [newRssUrl] and leaves every
    field that a feed object is built from, the address among them, as
    it was. *)
Theorem update_flux_keeps (refuses_empty_set : bool) (flux_id : string)
    (u : fluxes.FluxUpdate) (a : fluxes.app) :
  let a' := fst (fluxes.update_flux settings trigger_raises refuses_empty_set flux_id u a) in
  Forall2
    (fun d d' =>
       _id d' = _id d
       /\ models.rssUrl (doc_base d') = models.rssUrl (doc_base d)
       /\ models.includeKeywords (doc_base d') = models.includeKeywords (doc_base d)
       /\ models.excludeKeywords (doc_base d') = models.excludeKeywords (doc_base d)
       /\ models.regexInclude (doc_base d') = models.regexInclude (doc_base d)
       /\ models.regexExclude (doc_base d') = models.regexExclude (doc_base d)
       /\ models.domainWhitelist (doc_base d') = models.domainWhitelist (doc_base d)
       /\ models.domainBlacklist (doc_base d') = models.domainBlacklist (doc_base d)
       /\ models.maxPerRun (doc_base d') = models.maxPerRun (doc_base d)
       /\ models.quietHoursStart (doc_base d') = models.quietHoursStart (doc_base d)
       /\ models.quietHoursEnd (doc_base d') = models.quietHoursEnd (doc_base d)
       /\ doc_totalSent d' = doc_totalSent d)
    (fluxes.app_collection a) (fluxes.app_collection a')
  /\ (fluxes.find_one flux_id (fluxes.app_collection a) = None ->
      fluxes.update_flux settings trigger_raises refuses_empty_set flux_id u a
      = (a, Raise (HTTPException 404)))
  /\ (forall target,
        fluxes.find_one flux_id (fluxes.app_collection a) <> None ->
        fluxes.upd_discordTarget u = Some target ->
        discord_utils.isValidDiscordId target = false ->
        fluxes.update_flux settings trigger_raises refuses_empty_set flux_id u a
        = (a, Raise (HTTPException 400)))
  /\ (forall url d,
        u = only_new_url url ->
        fluxes.find_one flux_id (fluxes.app_collection a) = Some d ->
        Forall2
          (fun d d' =>
             _id d' = _id d /\ doc_base d' = doc_base d
             /\ doc_lastItem d' = doc_lastItem d
             /\ doc_lastPubDate d' = doc_lastPubDate d
             /\ doc_totalSent d' = doc_totalSent d)
          (fluxes.app_collection a) (fluxes.app_collection a')
        /\ exists d',
             fluxes.find_one flux_id (fluxes.app_collection a') = Some d'
             /\ doc_newRssUrl d' = Some url
             /\ models.rssUrl (doc_base d') = models.rssUrl (doc_base d)).
Proof.
  cbv zeta.
  set (R := fun d d' : document =>
       _id d' = _id d
       /\ models.rssUrl (doc_base d') = models.rssUrl (doc_base d)
       /\ models.includeKeywords (doc_base d') = models.includeKeywords (doc_base d)
       /\ models.excludeKeywords (doc_base d') = models.excludeKeywords (doc_base d)
       /\ models.regexInclude (doc_base d') = models.regexInclude (doc_base d)
       /\ models.regexExclude (doc_base d') = models.regexExclude (doc_base d)
       /\ models.domainWhitelist (doc_base d') = models.domainWhitelist (doc_base d)
       /\ models.domainBlacklist (doc_base d') = models.domainBlacklist (doc_base d)
       /\ models.maxPerRun (doc_base d') = models.maxPerRun (doc_base d)
       /\ models.quietHoursStart (doc_base d') = models.quietHoursStart (doc_base d)
       /\ models.quietHoursEnd (doc_base d') = models.quietHoursEnd (doc_base d)
       /\ doc_totalSent d' = doc_totalSent d).
  rewrite (update_flux_collection refuses_empty_set flux_id u a).
  split; [| split; [| split]].
  - assert (forall c, Forall2 R c c) as Hsame.
    { intros c. induction c; constructor; [by repeat split | done]. }
    destruct (fluxes.find_one flux_id (fluxes.app_collection a)); [| apply Hsame].
    repeat match goal with
           | |- context [if ?c then _ else _] => destruct c; [apply Hsame |]
           end.
    apply update_one_Forall2; intros d0; by repeat split.
  - intros Hnone. unfold fluxes.update_flux. by rewrite Hnone.
  - intros target Hsome Htarget Hbad. unfold fluxes.update_flux.
    destruct (fluxes.find_one flux_id (fluxes.app_collection a)); [| done].
    by rewrite Htarget, Hbad.
  - intros url d -> Hfind. rewrite Hfind.
    cbn [fluxes.upd_discordTarget only_new_url fluxes.no_field_set fluxes.upd_name
         fluxes.upd_newRssUrl andb].
    split.
    + apply update_one_Forall2; intros d0; [by repeat split |].
      destruct d0 as [i [] li lp ts nu]. by repeat split.
    + rewrite find_one_update_one by done. rewrite Hfind. eexists.
      split; [reflexivity |]. destruct d as [i [] li lp ts nu]. by split.
Qed.

End Routes.

(** ** Actions on several feeds *)

Section Bulk.

Variable settings : config.Settings.
Variable trigger_raises : Z -> bool.

Implicit Types (c : list document) (d : document) (key : string).

Lemma find_one_elem key c d : fluxes.find_one key c = Some d -> key ∈ _id <$> c.
Proof.
  unfold fluxes.find_one. intros H. apply find_some in H as [Hin Heq].
  apply String.eqb_eq in Heq as <-. apply list_elem_of_fmap. exists d.
  split; [done | by apply list_elem_of_In].
Qed.

Lemma update_one_ids (u : fluxes.FluxUpdate) key c :
  _id <$> update_one key (fluxes.set_fields u) c = _id <$> c.
Proof.
  induction c as [| d c IH]; [done |].
  cbn [update_one]. destruct (String.eqb (_id d) key); [done |].
  by rewrite !fmap_cons, IH.
Qed.

Lemma delete_one_ids key c x : x ∈ _id <$> fluxes.delete_one key c -> x ∈ _id <$> c.
Proof.
  induction c as [| d c IH]; [done |].
  cbn [fluxes.delete_one]. destruct (String.eqb (_id d) key).
  - intros H. rewrite fmap_cons. by right.
  - rewrite !fmap_cons. intros [-> | H]%elem_of_cons; [by left | right; by apply IH].
Qed.

(** One turn of the loop: the identifier goes to the successes, and was
    then the identifier of a document, or to the errors; no document
    appears. *)
Lemma bulk_one_spec (action : string) (a a' : fluxes.app)
    (results results' : fluxes.bulk_results) (flux_id : string) :
  fluxes.bulk_one settings trigger_raises action a results flux_id = (a', results') ->
  ((fluxes.success results' = fluxes.success results ++ [flux_id]
    /\ fluxes.bulk_errors results' = fluxes.bulk_errors results
    /\ flux_id ∈ _id <$> fluxes.app_collection a)
   \/ (fluxes.success results' = fluxes.success results
       /\ exists err,
            fluxes.bulk_errors results' = fluxes.bulk_errors results ++ [(flux_id, err)]))
  /\ (forall x, x ∈ _id <$> fluxes.app_collection a' ->
        x ∈ _id <$> fluxes.app_collection a).
Proof.
  unfold fluxes.bulk_one. cbv zeta.
  destruct (fluxes.find_one flux_id (fluxes.app_collection a)) as [d |] eqn:Hfind.
  - apply find_one_elem in Hfind.
    destruct (String.eqb action "delete").
    + destruct (SchedulerService.unschedule_flux _ _) as [svc [b | err]];
        intros [= <- <-]; cbn; (split; [| apply delete_one_ids]);
        [left | right]; eauto.
    + destruct (String.eqb action "activate").
      * destruct (fluxes.find_one flux_id _);
          [destruct (SchedulerService.schedule_flux _ _ _ _) as [svc [info | err]] |];
          intros [= <- <-]; cbn; (split; [| by rewrite update_one_ids]);
          eauto.
      * destruct (SchedulerService.unschedule_flux _ _) as [svc [b | err]];
          intros [= <- <-]; cbn; (split; [| by rewrite update_one_ids]);
          eauto.
  - destruct (String.eqb action "delete"); intros [= <- <-]; cbn; eauto.
Qed.

Lemma bulk_loop_spec (action : string) (flux_ids : list string) :
  forall (a a' : fluxes.app) (results results' : fluxes.bulk_results),
    fluxes.bulk_loop settings trigger_raises action flux_ids a results = (a', results') ->
    exists s e,
      fluxes.success results' = fluxes.success results ++ s
      /\ fluxes.bulk_errors results' = fluxes.bulk_errors results ++ e
      /\ s ++ (fst <$> e) ≡ₚ flux_ids
      /\ (forall x, x ∈ s -> x ∈ _id <$> fluxes.app_collection a)
      /\ (forall x, x ∈ _id <$> fluxes.app_collection a' ->
            x ∈ _id <$> fluxes.app_collection a).
Proof.
  induction flux_ids as [| flux_id rest IH]; intros a a' results results'.
  - cbn. intros [= <- <-]. exists [], []. rewrite !app_nil_r.
    repeat split; try done. intros x Hx. by apply elem_of_nil in Hx.
  - cbn [fluxes.bulk_loop].
    destruct (fluxes.bulk_one settings trigger_raises action a results flux_id) as [a1 results1] eqn:Hone.
    intros Hloop. destruct (bulk_one_spec _ _ _ _ _ _ Hone) as [Hcase Hids1].
    destruct (IH _ _ _ _ Hloop) as (s & e & Hs & He & Hperm & Hin & Hids).
    destruct Hcase as [(Hs1 & He1 & Hmem) | (Hs1 & err & He1)].
    + exists (flux_id :: s), e. rewrite Hs, He, Hs1, He1, <- app_assoc.
      split; [done |]. split; [done |]. split; [by rewrite <- Hperm |]. split.
      * intros x [-> | Hx]%elem_of_cons; [done | by apply Hids1, Hin].
      * intros x Hx. by apply Hids1, Hids.
    + exists s, ((flux_id, err) :: e). rewrite Hs, He, Hs1, He1, <- app_assoc.
      split; [done |]. split; [done |]. split.
      * rewrite fmap_cons. cbn [fst]. rewrite <- Hperm. symmetry. apply Permutation_middle.
      * split; [intros x Hx; by apply Hids1, Hin |]. intros x Hx. by apply Hids1, Hids.
Qed.

(** X25. [bulk_actions] refuses an action other than [activate],
    [deactivate] and [delete] with 400 and changes nothing. Else it
    answers, and every identifier of the request is counted once, as a
    success or as an error: the two counts add up to the total, and the
    successes followed by the identifiers of the errors are the
    identifiers of the request in another order. A success is the
    identifier of a document the collection had, and no document
    appears. *)
Theorem bulk_actions_counts (action : string) (flux_ids : list string) (a : fluxes.app) :
  (rss_checker.str_in action ["activate"; "deactivate"; "delete"] = false ->
   fluxes.bulk_actions settings trigger_raises action flux_ids a = (a, Raise (HTTPException 400)))
  /\ (rss_checker.str_in action ["activate"; "deactivate"; "delete"] = true ->
      exists a' info,
        fluxes.bulk_actions settings trigger_raises action flux_ids a = (a', Ok info)
        /\ fluxes.bulk_total info = Z.of_nat (List.length flux_ids)
        /\ fluxes.success_count info + fluxes.error_count info = fluxes.bulk_total info
        /\ fluxes.success (fluxes.bulk_results_of info)
           ++ (fst <$> fluxes.bulk_errors (fluxes.bulk_results_of info)) ≡ₚ flux_ids
        /\ (forall x, x ∈ fluxes.success (fluxes.bulk_results_of info) ->
              x ∈ _id <$> fluxes.app_collection a)
        /\ (forall x, x ∈ _id <$> fluxes.app_collection a' ->
              x ∈ _id <$> fluxes.app_collection a)).
Proof.
  unfold fluxes.bulk_actions. split; intros ->; cbn [negb]; [done |].
  destruct (fluxes.bulk_loop settings trigger_raises action flux_ids a _) as [a' results] eqn:Hloop.
  destruct (bulk_loop_spec _ _ _ _ _ _ Hloop) as (s & e & Hs & He & Hperm & Hin & Hids).
  cbn in Hs, He. subst s e.
  eexists _, _. split; [reflexivity |].
  cbn [fluxes.bulk_total fluxes.success_count fluxes.error_count fluxes.bulk_results_of].
  split; [done |]. split.
  - rewrite <- Hperm, length_app, length_fmap. lia.
  - by repeat split.
Qed.

End Bulk.

Lemma bulk_actions_counts_witness :
  exists a' info,
    fluxes.bulk_actions config.default_settings sample_trigger_raises "delete" ["f1"; "f2"]
      {| fluxes.app_collection := [sample_document 0];
         fluxes.scheduler_service := SchedulerService.init SchedulerService.new |}
    = (a', Ok info)
    /\ fluxes.bulk_total info = Z.of_nat (List.length ["f1"; "f2"])
    /\ fluxes.success_count info + fluxes.error_count info = fluxes.bulk_total info
    /\ fluxes.success (fluxes.bulk_results_of info)
       ++ (fst <$> fluxes.bulk_errors (fluxes.bulk_results_of info)) ≡ₚ ["f1"; "f2"]
    /\ (forall x, x ∈ fluxes.success (fluxes.bulk_results_of info) ->
          x ∈ _id <$> [sample_document 0])
    /\ (forall x, x ∈ _id <$> fluxes.app_collection a' ->
          x ∈ _id <$> [sample_document 0]).
Proof.
  apply (proj2 (bulk_actions_counts config.default_settings sample_trigger_raises "delete" ["f1"; "f2"]
                  {| fluxes.app_collection := [sample_document 0];
                     fluxes.scheduler_service :=
                       SchedulerService.init SchedulerService.new |})).
  reflexivity.
Defined.

(** ** The message of an entry *)

Section Message.

Lemma replace_go_free (old' new t rest : string) :
  Py.contains "{" t = false ->
  Py.replace_go (String "{" old') new (t ++ rest) 0
  = (t ++ Py.replace_go (String "{" old') new rest 0)%string.
Proof.
  induction t as [| c t IH]; [done |].
  rewrite contains_char_cons. intros [Hc Ht]%orb_false_elim.
  rewrite !append_cons. cbn [Py.replace_go]. rewrite prefix_cons, Hc. cbn [andb].
  by rewrite (IH Ht).
Qed.

(** X26. With the default template and a title that holds no brace,
    the message of an entry is its title, a line feed and its link,
    whatever the link; the mention of the role, when there is one, comes
    first, then the mention of the user; the message goes to the
    destination of the feed, in the mode of the feed, or [direct] when
    the feed has none. *)
Theorem build_message_default (flux : models.FluxInDB) (title link : string) :
  models.messageTemplate flux = None \/ models.messageTemplate flux = Some EmptyString ->
  Py.contains "{" title = false ->
  content (build_message flux title link)
  = (mention "<@&" (models.mentionRoleId flux) ++ mention "<@" (models.mentionUserId flux)
     ++ title ++ nl ++ link)%string
  /\ target_id (build_message flux title link) = models.discordTarget flux
  /\ send_mode (build_message flux title link)
     = if String.eqb (models.mode flux) "" then "direct" else models.mode flux.
Proof.
  intros Htemplate Htitle. split; [| done].
  unfold build_message, mention. cbn [content].
  assert (Py.or_str (models.messageTemplate flux) ("{title}" ++ nl ++ "{link}")
          = ("{title}" ++ nl ++ "{link}")%string) as ->.
  { by destruct Htemplate as [-> | ->]. }
  assert (Py.replace "{link}" link (Py.replace "{title}" title ("{title}" ++ nl ++ "{link}"))
          = (title ++ nl ++ link)%string) as ->.
  { change (Py.replace "{title}" title ("{title}" ++ nl ++ "{link}"))
      with (title ++ nl ++ "{link}")%string.
    unfold Py.replace. rewrite (replace_go_free _ _ _ _ Htitle).
    change (Py.replace_go "{link}" link (nl ++ "{link}") 0)
      with (nl ++ link ++ EmptyString)%string.
    by rewrite append_empty_r. }
  destruct (Py.truthy (models.mentionRoleId flux));
    destruct (Py.truthy (models.mentionUserId flux)); cbn [String.append];
    by rewrite ?append_assoc.
Qed.

End Message.

Lemma build_message_default_witness :
  content (build_message (sample_flux 300 None None 0) "Hello" "https://example.org/{title}")
  = ("Hello" ++ nl ++ "https://example.org/{title}")%string.
Proof.
  apply (proj1 (build_message_default (sample_flux 300 None None 0) "Hello"
                  "https://example.org/{title}" (or_introl eq_refl) eq_refl)).
Defined.

(** ** Examples of the properties above *)

Lemma create_then_delete_witness :
  exists a1 a2,
    fluxes.create_flux config.default_settings sample_trigger_raises "id1" (sample_base 300 None None)
      {| fluxes.app_collection := [sample_document 0];
         fluxes.scheduler_service := SchedulerService.init SchedulerService.new |}
    = (a1, Ok "id1")
    /\ fluxes.delete_flux "id1" a1 = (a2, Ok "id1")
    /\ fluxes.app_collection a2 = [sample_document 0]
    /\ SchedulerService.scheduler (fluxes.scheduler_service a2)
       = Some (delete "flux_id1" ∅).
Proof.
  apply (proj1 (create_then_delete config.default_settings sample_trigger_raises "id1" (sample_base 300 None None)
                  {| fluxes.app_collection := [sample_document 0];
                     fluxes.scheduler_service :=
                       SchedulerService.init SchedulerService.new |} ∅));
    reflexivity.
Defined.

Lemma create_flux_outcomes_witness :
  exists d,
    fluxes.app_collection
      (fst (fluxes.create_flux config.default_settings sample_trigger_raises "id1" (sample_base 300 None None)
              {| fluxes.app_collection := [];
                 fluxes.scheduler_service := SchedulerService.new |}))
    = [] ++ [d]
    /\ _id d = "id1" /\ doc_totalSent d = 0
    /\ fluxes.create_flux config.default_settings sample_trigger_raises "id1" (sample_base 300 None None)
         {| fluxes.app_collection := [];
            fluxes.scheduler_service := SchedulerService.new |}
       = ({| fluxes.app_collection := [] ++ [d];
             fluxes.scheduler_service := SchedulerService.new |}, Raise RuntimeError).
Proof.
  destruct (proj2 (create_flux_outcomes config.default_settings sample_trigger_raises "id1"
                     (sample_base 300 None None)
                     {| fluxes.app_collection := [];
                        fluxes.scheduler_service := SchedulerService.new |}) eq_refl)
    as (d & H1 & H2 & H3 & _ & _ & _ & H7).
  exists d. split; [exact H1 |]. split; [exact H2 |]. split; [exact H3 |].
  apply H7; reflexivity.
Defined.

Lemma update_flux_keeps_witness :
  exists d',
    fluxes.find_one "f1"
      (fluxes.app_collection
         (fst (fluxes.update_flux config.default_settings sample_trigger_raises true "f1"
                 (only_new_url "https://example.org/new.xml")
                 {| fluxes.app_collection := [sample_document 0];
                    fluxes.scheduler_service :=
                      SchedulerService.init SchedulerService.new |})))
    = Some d'
    /\ doc_newRssUrl d' = Some "https://example.org/new.xml"
    /\ models.rssUrl (doc_base d') = models.rssUrl (doc_base (sample_document 0)).
Proof.
  apply (proj2 (proj2 (proj2 (proj2
           (update_flux_keeps config.default_settings sample_trigger_raises true "f1"
              (only_new_url "https://example.org/new.xml")
              {| fluxes.app_collection := [sample_document 0];
                 fluxes.scheduler_service :=
                   SchedulerService.init SchedulerService.new |})))
           "https://example.org/new.xml" (sample_document 0) eq_refl eq_refl)).
Defined.

Lemma within_quiet_hours_disabled_witness :
  rss_checker.within_quiet_hours (at_time 23 0 0 0) (Some "25:00") (Some "06:00") = false.
Proof.
  apply (within_quiet_hours_disabled (at_time 23 0 0 0) (Some "25:00") (Some "06:00")).
  right. right. left. exists "25:00". split; reflexivity.
Defined.

Lemma metadata_failure_swallowed_witness :
  delivered
    (rss_checker.check_flux literal_search sample_mktime accepting
       (sample_flux 300 None None 0) (at_time 12 0 0 0) (Ok sample_entries)
       (sample_shared 0))
  = delivered
      (rss_checker.check_flux literal_search sample_mktime losing_updates
         (sample_flux 300 None None 0) (at_time 12 0 0 0) (Ok sample_entries)
         (sample_shared 0)).
Proof.
  apply (proj1 (metadata_failure_swallowed literal_search sample_mktime accepting
                  losing_updates (sample_flux 300 None None 0) (at_time 12 0 0 0)
                  (fun _ _ => eq_refl) (fun _ => eq_refl)
                  (Ok sample_entries) (sample_shared 0))).
Defined.
